(** * mmtms-sync: parser, fingerprinter, validator, classifier and scanner

    A shallow embedding of the core of the repository (src/core/parser.ts,
    change-detector, validator, scanner.ts and the mapping manager), of the
    hash utilities, of the actions of the scan and validate commands and of
    the models of mappings and validation results, together with the
    properties stated about them.

    Conventions of the embedding.
    - A JavaScript string is a [string]: a sequence of 8-bit characters read
      as UTF-16 code units below U+0100.  [String.length] is then [.length],
      and the white space of [String.prototype.trim] and of the pattern class
      [\s] is the set 9..13, 32, 160 (the members of the ECMAScript WhiteSpace
      and LineTerminator productions below U+0100).
    - A JavaScript number that holds a count or a line number is a [Z]; the
      two quotients of [calculateMetrics] are evaluated in binary64, rounding
      to nearest, ties to even.
    - [undefined] and [null] are [None].
    - An exception is the [Throw] branch of [result]. *)

From Stdlib Require Import ZArith Lia List String Ascii Bool Sorted DecimalString.
From stdpp Require Import gmap strings list.
Import ListNotations.

Local Open Scope list_scope.
Local Open Scope string_scope.

#[local] Arguments String.append !s1 s2 : simpl nomatch.

(* ===================================================================== *)
(** ** JavaScript strings *)
(* ===================================================================== *)

Module JsString.

Definition code (c : ascii) : N := N_of_ascii c.

Definition between (lo hi : N) (c : ascii) : bool :=
  (N.leb lo (code c) && N.leb (code c) hi)%bool.

(** White space as [trim] and [\s] see it. *)
Definition isWhiteSpace (c : ascii) : bool :=
  (between 9 13 c || N.eqb (code c) 32 || N.eqb (code c) 160)%bool.

(** The pattern class [\d]. *)
Definition isDigit (c : ascii) : bool := between 48 57 c.

(** The pattern class [[A-Z]]. *)
Definition isUpper (c : ascii) : bool := between 65 90 c.

Fixpoint all (p : ascii -> bool) (s : string) : bool :=
  match s with
  | EmptyString => true
  | String c r => (p c && all p r)%bool
  end.

Fixpoint contains (c : ascii) (s : string) : bool :=
  match s with
  | EmptyString => false
  | String d r => (Ascii.eqb c d || contains c r)%bool
  end.

(** A string used as a condition: only the empty string is falsy. *)
Definition truthy (s : string) : bool :=
  match s with
  | EmptyString => false
  | String _ _ => true
  end.

Fixpoint trimStart (s : string) : string :=
  match s with
  | EmptyString => EmptyString
  | String c r => if isWhiteSpace c then trimStart r else s
  end.

Fixpoint trimEnd (s : string) : string :=
  match s with
  | EmptyString => EmptyString
  | String c r =>
      match trimEnd r with
      | EmptyString => if isWhiteSpace c then EmptyString else String c EmptyString
      | String d r' => String c (String d r')
      end
  end.

Definition trim (s : string) : string := trimEnd (trimStart s).

(** [Array.prototype.join]. *)
Fixpoint join (sep : string) (l : list string) : string :=
  match l with
  | [] => EmptyString
  | x :: r =>
      match r with
      | [] => x
      | _ :: _ => x ++ sep ++ join sep r
      end
  end.

(** The longest prefix of [s] whose characters satisfy [p], and the rest. *)
Fixpoint span (p : ascii -> bool) (s : string) : string * string :=
  match s with
  | EmptyString => (EmptyString, EmptyString)
  | String c r =>
      if p c then let '(a, b) := span p r in (String c a, b)
      else (EmptyString, s)
  end.

(** [Some rest] when [s = pre ++ rest]. *)
Fixpoint stripPrefix (pre s : string) : option string :=
  match pre with
  | EmptyString => Some s
  | String c pre' =>
      match s with
      | EmptyString => None
      | String d s' => if Ascii.eqb c d then stripPrefix pre' s' else None
      end
  end.

Definition startsWith (pre s : string) : bool :=
  match stripPrefix pre s with Some _ => true | None => false end.

(** [s.substring(n)]. *)
Fixpoint substringFrom (n : nat) (s : string) : string :=
  match n, s with
  | O, _ => s
  | S n', String _ r => substringFrom n' r
  | S _, EmptyString => EmptyString
  end.

(** The UTF-8 encoding of a string of code units below U+0100. *)
Fixpoint utf8 (s : string) : list Z :=
  match s with
  | EmptyString => []
  | String c r =>
      let n := Z.of_N (code c) in
      if (n <? 128)%Z then n :: utf8 r
      else Z.lor 192 (Z.shiftr n 6) :: Z.lor 128 (Z.land n 63) :: utf8 r
  end.

End JsString.

(* ===================================================================== *)
(** ** SHA-256 (FIPS 180-4), the digest behind [createHash('sha256')] *)
(* ===================================================================== *)

Module Sha256.
Local Open Scope Z_scope.

(** The first 64 primes. *)
Definition primes : list Z :=
  [ 2; 3; 5; 7; 11; 13; 17; 19; 23; 29; 31; 37; 41; 43; 47; 53; 59; 61; 67; 71;
    73; 79; 83; 89; 97; 101; 103; 107; 109; 113; 127; 131; 137; 139; 149; 151;
    157; 163; 167; 173; 179; 181; 191; 193; 197; 199; 211; 223; 227; 229; 233;
    239; 241; 251; 257; 263; 269; 271; 277; 281; 283; 293; 307; 311 ].

(** The integer cube root of [x] below [2^n], found bit by bit. *)
Fixpoint root3 (n : nat) (x r : Z) : Z :=
  match n with
  | O => r
  | S n' =>
      let r' := r + 2 ^ Z.of_nat n' in
      if r' * r' * r' <=? x then root3 n' x r' else root3 n' x r
  end.

(** The round constants: the first 32 bits of the fractional parts of the
    cube roots of the first 64 primes. *)
Definition K : list Z :=
  List.map (fun p => Z.land (root3 40 (p * 2 ^ 96) 0) (2 ^ 32 - 1)) primes.

(** The initial hash value: the first 32 bits of the fractional parts of the
    square roots of the first 8 primes. *)
Definition H0 : list Z :=
  List.map (fun p => Z.land (Z.sqrt (p * 2 ^ 64)) (2 ^ 32 - 1)) (firstn 8 primes).

Definition mask32 (x : Z) : Z := Z.land x 0xFFFFFFFF.
Definition add32 (x y : Z) : Z := mask32 (x + y).
Definition rotr (n x : Z) : Z :=
  Z.lor (Z.shiftr x n) (mask32 (Z.shiftl x (32 - n))).
Definition xor3 (a b c : Z) : Z := Z.lxor a (Z.lxor b c).

Definition Ch (x y z : Z) : Z :=
  Z.lxor (Z.land x y) (Z.land (Z.lxor x 0xFFFFFFFF) z).
Definition Maj (x y z : Z) : Z :=
  xor3 (Z.land x y) (Z.land x z) (Z.land y z).
Definition bsig0 (x : Z) : Z := xor3 (rotr 2 x) (rotr 13 x) (rotr 22 x).
Definition bsig1 (x : Z) : Z := xor3 (rotr 6 x) (rotr 11 x) (rotr 25 x).
Definition ssig0 (x : Z) : Z := xor3 (rotr 7 x) (rotr 18 x) (Z.shiftr x 3).
Definition ssig1 (x : Z) : Z := xor3 (rotr 17 x) (rotr 19 x) (Z.shiftr x 10).

(** The [n] low bytes of [x], most significant first. *)
Fixpoint be_bytes (n : nat) (x : Z) : list Z :=
  match n with
  | O => []
  | S n' => Z.land (Z.shiftr x (8 * Z.of_nat n')) 255 :: be_bytes n' x
  end.

Definition pad (msg : list Z) : list Z :=
  let l := Z.of_nat (List.length msg) in
  msg ++ [128] ++ List.repeat 0 (Z.to_nat ((55 - l) mod 64)) ++ be_bytes 8 (8 * l).

Fixpoint words (bs : list Z) : list Z :=
  match bs with
  | a :: b :: c :: d :: r =>
      Z.lor (Z.shiftl a 24) (Z.lor (Z.shiftl b 16) (Z.lor (Z.shiftl c 8) d)) :: words r
  | _ => []
  end.

(** The message schedule, newest word first. *)
Fixpoint extend (n : nat) (w : list Z) : list Z :=
  match n with
  | O => w
  | S n' =>
      extend n'
        (add32 (add32 (ssig1 (nth 1 w 0)) (nth 6 w 0))
               (add32 (ssig0 (nth 14 w 0)) (nth 15 w 0)) :: w)
  end.

Definition schedule (block : list Z) : list Z := rev (extend 48 (rev block)).

Record state := State { sa : Z; sb : Z; sc : Z; sd : Z; se : Z; sf : Z; sg : Z; sh : Z }.

Definition round (s : state) (kw : Z * Z) : state :=
  let t1 := add32 (add32 (add32 (sh s) (bsig1 (se s))) (add32 (Ch (se s) (sf s) (sg s)) (fst kw))) (snd kw) in
  let t2 := add32 (bsig0 (sa s)) (Maj (sa s) (sb s) (sc s)) in
  State (add32 t1 t2) (sa s) (sb s) (sc s) (add32 (sd s) t1) (se s) (sf s) (sg s).

Definition compress (h : state) (block : list Z) : state :=
  let s := fold_left round (combine K (schedule block)) h in
  State (add32 (sa h) (sa s)) (add32 (sb h) (sb s)) (add32 (sc h) (sc s)) (add32 (sd h) (sd s))
        (add32 (se h) (se s)) (add32 (sf h) (sf s)) (add32 (sg h) (sg s)) (add32 (sh h) (sh s)).

Fixpoint blocks (n : nat) (ws : list Z) : list (list Z) :=
  match n with
  | O => []
  | S n' => firstn 16 ws :: blocks n' (skipn 16 ws)
  end.

Definition initial : state :=
  State (nth 0 H0 0) (nth 1 H0 0) (nth 2 H0 0) (nth 3 H0 0)
        (nth 4 H0 0) (nth 5 H0 0) (nth 6 H0 0) (nth 7 H0 0).

Definition hash (msg : list Z) : state :=
  let ws := words (pad msg) in
  fold_left compress (blocks (Nat.div (List.length ws) 16) ws) initial.

Definition hexDigit (x : Z) : ascii :=
  if x <? 10 then ascii_of_N (Z.to_N (48 + x)) else ascii_of_N (Z.to_N (87 + x)).

Fixpoint hexWord (n : nat) (x : Z) : string :=
  match n with
  | O => EmptyString
  | S n' => String (hexDigit (Z.land (Z.shiftr x (4 * Z.of_nat n')) 15)) (hexWord n' x)
  end.

(** [digest('hex')]: 64 lower-case hexadecimal characters. *)
Definition hex (msg : list Z) : string :=
  let s := hash msg in
  String.concat EmptyString
    (List.map (hexWord 8) [sa s; sb s; sc s; sd s; se s; sf s; sg s; sh s]).

End Sha256.

(* ===================================================================== *)
(** ** Data model (src/models) *)
(* ===================================================================== *)

(** A value a function returns, or the value it throws. *)
Inductive result (E A : Type) : Type :=
| Ok (a : A)
| Throw (e : E).
Arguments Ok {E A} a.
Arguments Throw {E A} e.

(** What a [catch] clause can receive: an [Error] object (of some class, with
    its message) or any other thrown value (with its [String(...)] form). *)
Inductive ErrorClass := ClassError | ClassSyntaxError | ClassParserError | ClassSystemError.
Inductive thrown :=
| ErrorObject (cls : ErrorClass) (message : string)
| NonError (asString : string).

Definition LF : string := String (ascii_of_nat 10) EmptyString.

(** An optional string used as a condition: [undefined], [null] and the
    empty string are falsy. *)
Definition truthyOpt (o : option string) : bool :=
  match o with
  | Some s => JsString.truthy s
  | None => false
  end.

Module TestStep.
Record t := mk { text : string; lineNumber : Z }.
End TestStep.

(** [precondition?: string | string[]]. *)
Inductive Precondition :=
| Single (s : string)
| Many (l : list string).

Module JSDocTags.
Record t := mk {
  objective : option string;
  precondition : option Precondition;
  knownIssue : option string;
  playwrightTags : option (list string)
}.
Definition empty : t := mk None None None None.
End JSDocTags.

Inductive TestType := TypeTest | TypeSkip | TypeFixme.

Module ParsedTest.
Record t := mk {
  title : string;
  testCaseId : option string;
  type_ : TestType;
  jsdocTags : JSDocTags.t;
  actionSteps : list TestStep.t;
  verificationSteps : list TestStep.t;
  lineNumber : Z
}.
End ParsedTest.

Inductive SyncStatus := Synced | Unsynced | NeedsUpdate | Conflict | Orphaned.

(** The fields of [TestCaseMapping] that the core reads. *)
Module TestCaseMapping.
Record t := mk {
  testCaseId : option string;
  lastSyncedHash : option string
}.
End TestCaseMapping.

Module ValidationConfig.
Record t := mk {
  requiredTags : list string;
  optionalTags : list string;
  enforceActionComments : bool;
  enforceVerificationComments : bool;
  projectKey : option string
}.
End ValidationConfig.

(** [DEFAULT_CONFIG.validation]. *)
Definition DEFAULT_VALIDATION : ValidationConfig.t :=
  ValidationConfig.mk ["@objective"] ["@precondition"; "@known_issue"] true true (Some "MM").

Module FileResult.
Record issue := mkIssue { testTitle : string; syncStatus : SyncStatus; message : string }.
Record t := mk {
  filePath : string;
  testCount : Z;
  syncedCount : Z;
  unmappedCount : Z;
  outOfSyncCount : Z;
  validationErrorCount : Z;
  issues : list issue
}.
End FileResult.

(** A project key is spliced into the source of a pattern unescaped.  The
    embedding reads the key literally, which is what the pattern does for a
    key free of the characters that are special there. *)
Definition regexLiteral (key : string) : bool :=
  JsString.all (fun c => negb (JsString.contains c "\^$.*+?()[]{}|")) key.

(* ===================================================================== *)
(** ** Change detector (ChangeDetector in src/core/parser.ts) *)
(* ===================================================================== *)

Module ChangeDetector.

(** [[...steps].sort((a, b) => a.lineNumber - b.lineNumber)]: the sort is
    stable, so its result is the one an insertion of each step before the
    first later step on the same or a greater line produces. *)
Fixpoint insertStep (s : TestStep.t) (l : list TestStep.t) : list TestStep.t :=
  match l with
  | [] => [s]
  | x :: r =>
      if (TestStep.lineNumber s <=? TestStep.lineNumber x)%Z then s :: l
      else x :: insertStep s r
  end.

Definition sortSteps (steps : list TestStep.t) : list TestStep.t :=
  fold_right insertStep [] steps.

Definition stepTexts (steps : list TestStep.t) : list string :=
  List.map (fun s => JsString.trim (TestStep.text s)) (sortSteps steps).

Definition objectivePart (t : ParsedTest.t) : list string :=
  match JSDocTags.objective (ParsedTest.jsdocTags t) with
  | Some o => if JsString.truthy o then ["objective:" ++ JsString.trim o] else []
  | None => []
  end.

(** An array is truthy even when it is empty; a string only when it is
    not empty. *)
Definition preconditionPart (t : ParsedTest.t) : list string :=
  match JSDocTags.precondition (ParsedTest.jsdocTags t) with
  | Some (Many l) => ["precondition:" ++ JsString.join "|" (List.map JsString.trim l)]
  | Some (Single s) =>
      if JsString.truthy s
      then ["precondition:" ++ JsString.join "|" (List.map JsString.trim [s])]
      else []
  | None => []
  end.

Definition actionsPart (t : ParsedTest.t) : list string :=
  match ParsedTest.actionSteps t with
  | [] => []
  | steps => ["actions:" ++ JsString.join "|" (stepTexts steps)]
  end.

Definition verificationsPart (t : ParsedTest.t) : list string :=
  match ParsedTest.verificationSteps t with
  | [] => []
  | steps => ["verifications:" ++ JsString.join "|" (stepTexts steps)]
  end.

Definition knownIssuePart (t : ParsedTest.t) : list string :=
  match JSDocTags.knownIssue (ParsedTest.jsdocTags t) with
  | Some k => if JsString.truthy k then ["knownIssue:" ++ JsString.trim k] else []
  | None => []
  end.

Definition parts (t : ParsedTest.t) : list string :=
  objectivePart t ++ preconditionPart t ++ actionsPart t
    ++ verificationsPart t ++ knownIssuePart t.

(** The string that is hashed. *)
Definition normalizedContent (t : ParsedTest.t) : string :=
  JsString.join LF (parts t).

Definition calculateHash (t : ParsedTest.t) : string :=
  Sha256.hex (JsString.utf8 (normalizedContent t)).

Definition hasChanged (currentTest : ParsedTest.t) (previousHash : string) : bool :=
  negb (String.eqb (calculateHash currentTest) previousHash).

Definition detectChanges (currentTest : ParsedTest.t) (previousHash : string)
  : bool * list string :=
  if hasChanged currentTest previousHash then (true, ["content"]) else (false, []).

End ChangeDetector.

(* ===================================================================== *)
(** ** Validator (Validator in src/core/parser.ts) *)
(* ===================================================================== *)

Module Validator.

Inductive Category :=
| documentation | action_steps | verification_steps | test_case_id | test_title | syntax.
Inductive Severity := error | warning | info.

Record ValidationIssue := mkIssue {
  category : Category;
  severity : Severity;
  message : string;
  lineNumber : option Z;
  suggestedFix : option string
}.

Record ValidationResult := mkResult { isValid : bool; issues : list ValidationIssue }.

Definition isError (i : ValidationIssue) : bool :=
  match severity i with error => true | _ => false end.

(** [this.config.projectKey || 'MM']. *)
Definition effectiveKey (config : ValidationConfig.t) : string :=
  match ValidationConfig.projectKey config with
  | Some k => if JsString.truthy k then k else "MM"
  | None => "MM"
  end.

(** [new RegExp(`^${projectKey}-T\\d+$`).test(id)]. *)
Definition testCasePattern (projectKey id : string) : bool :=
  match JsString.stripPrefix (projectKey ++ "-T") id with
  | Some digits => (JsString.truthy digits && JsString.all JsString.isDigit digits)%bool
  | None => false
  end.

(** [title.replace(/^[A-Z]+-T\d+:\s*/, '')]: each of the three repetitions
    is greedy and is followed by a character outside its class, so the
    match, when there is one, takes the longest run every time. *)
Definition titleWithoutId (title : string) : string :=
  let '(letters, r1) := JsString.span JsString.isUpper title in
  if JsString.truthy letters then
    match JsString.stripPrefix "-T" r1 with
    | Some r2 =>
        let '(digits, r3) := JsString.span JsString.isDigit r2 in
        if JsString.truthy digits then
          match JsString.stripPrefix ":" r3 with
          | Some r4 => JsString.trimStart r4
          | None => title
          end
        else title
    | None => title
    end
  else title.

Definition includes (x : string) (l : list string) : bool :=
  existsb (String.eqb x) l.

Definition objectiveIssue (config : ValidationConfig.t) (test : ParsedTest.t)
  : list ValidationIssue :=
  if ((includes "objective" (ValidationConfig.requiredTags config)
       || includes "@objective" (ValidationConfig.requiredTags config))
      && negb (truthyOpt (JSDocTags.objective (ParsedTest.jsdocTags test))))%bool
  then [mkIssue documentation error "Missing required @objective tag"
          (Some (ParsedTest.lineNumber test))
          (Some "Add @objective JSDoc tag describing what this test validates")]
  else [].

Definition actionIssue (config : ValidationConfig.t) (test : ParsedTest.t)
  : list ValidationIssue :=
  if (ValidationConfig.enforceActionComments config
      && Nat.eqb (List.length (ParsedTest.actionSteps test)) 0)%bool
  then [mkIssue action_steps error "Missing action step comments (// #)"
          (Some (ParsedTest.lineNumber test))
          (Some "Add // # comments before action statements")]
  else [].

Definition verificationIssue (config : ValidationConfig.t) (test : ParsedTest.t)
  : list ValidationIssue :=
  if (ValidationConfig.enforceVerificationComments config
      && Nat.eqb (List.length (ParsedTest.verificationSteps test)) 0)%bool
  then [mkIssue verification_steps error "Missing verification step comments (// *)"
          (Some (ParsedTest.lineNumber test))
          (Some "Add // * comments before expect/assertion statements")]
  else [].

Definition missingIdMessage : string :=
  "Missing test case ID in test title (will be assigned automatically)".

Definition invalidIdMessage (id : string) : string :=
  "Invalid test case ID format: " ++ id.

Definition caseIdIssue (config : ValidationConfig.t) (test : ParsedTest.t)
  : list ValidationIssue :=
  let projectKey := effectiveKey config in
  match ParsedTest.testCaseId test with
  | Some id =>
      if JsString.truthy id then
        if testCasePattern projectKey id then []
        else [mkIssue test_case_id error (invalidIdMessage id)
                (Some (ParsedTest.lineNumber test))
                (Some ("Use format " ++ projectKey ++ "-T#### (e.g., " ++ projectKey ++ "-T12345)"))]
      else [mkIssue test_case_id warning missingIdMessage
              (Some (ParsedTest.lineNumber test))
              (Some ("Add test case ID in format " ++ projectKey
                     ++ "-T#### to test title if already synced with TMS"))]
  | None =>
      [mkIssue test_case_id warning missingIdMessage
         (Some (ParsedTest.lineNumber test))
         (Some ("Add test case ID in format " ++ projectKey
                ++ "-T#### to test title if already synced with TMS"))]
  end.

Definition titleIssue (test : ParsedTest.t) : list ValidationIssue :=
  if Nat.ltb (String.length (titleWithoutId (ParsedTest.title test))) 10
  then [mkIssue test_title warning "Test title is too short"
          (Some (ParsedTest.lineNumber test))
          (Some "Use a more descriptive test title (at least 10 characters)")]
  else [].

Definition validate (config : ValidationConfig.t) (test : ParsedTest.t) : ValidationResult :=
  let issues : list ValidationIssue :=
    (objectiveIssue config test ++ actionIssue config test ++ verificationIssue config test
       ++ caseIdIssue config test ++ titleIssue test)%list in
  mkResult (Nat.eqb (List.length (List.filter isError issues)) 0) issues.

End Validator.

(* ===================================================================== *)
(** ** JSON values and the outside world *)
(* ===================================================================== *)

(** What [JSON.parse] returns.  An object keeps its members in source order;
    a later member of the same name shadows an earlier one. *)
#[warnings="-register-all"]
Inductive json :=
| JNull
| JBool (b : bool)
| JNumber (literal : string)
| JString (s : string)
| JArray (items : list json)
| JObject (members : list (string * json)).

Module Json.

(** [key in obj] for an object that [JSON.parse] built. *)
Definition hasKey (key : string) (members : list (string * json)) : bool :=
  existsb (fun kv => String.eqb key (fst kv)) members.

(** [obj[key]]. *)
Fixpoint get (key : string) (members : list (string * json)) : option json :=
  match members with
  | [] => None
  | (k, v) :: r =>
      match get key r with
      | Some v' => Some v'
      | None => if String.eqb key k then Some v else None
      end
  end.

(** A member read where a [string | null] is expected. *)
Definition stringMember (key : string) (value : json) : option string :=
  match value with
  | JObject members =>
      match get key members with
      | Some (JString s) => Some s
      | _ => None
      end
  | _ => None
  end.

End Json.

(* ===================================================================== *)
(** ** Test parser (TestParser in src/core/parser.ts) *)
(* ===================================================================== *)

Module TestParser.

(** The shapes of the syntax tree that [parseTestCallExpression] tells
    apart; everything else is an [Other...] node. *)
Inductive Expression :=
| Identifier (text : string)
| PropertyAccessExpression (object : Expression) (name : string)
| OtherExpression.

Record Comment := mkComment { pos : Z; commentText : string; line : Z }.

(** A block is given by its descendants in the order [forEachDescendant]
    visits them, each with its leading comment ranges. *)
Inductive Body :=
| Block (descendants : list (list Comment))
| ExpressionBody.

Inductive Element := StringElement (value : string) | OtherElement.
Inductive Initializer := ArrayLiteralExpression (elements : list Element) | OtherInitializer.
Inductive Property := PropertyAssignment (initializer : option Initializer) | OtherProperty.

Inductive Argument :=
| StringLiteral (value : string)
| ObjectLiteralExpression (tag : option Property)
| ArrowFunction (body : Body)
| FunctionExpression (body : Body)
| OtherArgument.

Record CallExpression := mkCall {
  expression : Expression;
  arguments : list Argument;
  startLineNumber : Z
}.

(** A source file: the tags [extractJSDocTags] reads off its first
    documentation block, and its call expressions in document order. *)
Record SourceFile := mkSourceFile {
  jsdoc : JSDocTags.t;
  callExpressions : list CallExpression
}.

Record ParseResult := mkParseResult {
  filePath : string;
  tests : list ParsedTest.t;
  totalTests : nat
}.

(** [constructor(projectKey: string = 'MM')]: the default stands in for
    [undefined] only. *)
Definition new (projectKey : option string) : string :=
  match projectKey with
  | Some k => k
  | None => "MM"
  end.

(** [title.match(new RegExp(`^(${projectKey}-T\\d+):`))]. *)
Definition extractTestCaseId (projectKey title : string) : option string :=
  match JsString.stripPrefix (projectKey ++ "-T") title with
  | Some r =>
      let '(digits, r') := JsString.span JsString.isDigit r in
      if JsString.truthy digits then
        match JsString.stripPrefix ":" r' with
        | Some _ => Some (projectKey ++ "-T" ++ digits)
        | None => None
        end
      else None
  | None => None
  end.

Definition stepOf (marker : string) (c : Comment) : list TestStep.t :=
  let trimmed := JsString.trim (commentText c) in
  if JsString.startsWith marker trimmed
  then [TestStep.mk (JsString.trim (JsString.substringFrom 4 trimmed)) (line c)]
  else [].

Definition visitComment (marker : string) (acc : gset Z * list TestStep.t) (c : Comment)
  : gset Z * list TestStep.t :=
  if decide (pos c ∈ acc.1) then acc
  else ({[ pos c ]} ∪ acc.1, (acc.2 ++ stepOf marker c)%list).

Definition extractSteps (marker : string) (descendants : list (list Comment))
  : list TestStep.t :=
  (fold_left (fun acc comments => fold_left (visitComment marker) comments acc)
     descendants (∅, [])).2.

Definition extractActionSteps : list (list Comment) -> list TestStep.t :=
  extractSteps "// #".
Definition extractVerificationSteps : list (list Comment) -> list TestStep.t :=
  extractSteps "// *".

Definition testTypeOf (e : Expression) : option TestType :=
  match e with
  | Identifier text => if String.eqb text "test" then Some TypeTest else None
  | PropertyAccessExpression (Identifier object) property =>
      if String.eqb object "test" then
        if String.eqb property "skip" then Some TypeSkip
        else if String.eqb property "fixme" then Some TypeFixme
        else None
      else None
  | _ => None
  end.

Definition stringElements (elements : list Element) : list string :=
  flat_map (fun e => match e with StringElement v => [v] | OtherElement => [] end) elements.

Definition tagsOf (optionsArg : Argument) : list string :=
  match optionsArg with
  | ObjectLiteralExpression (Some (PropertyAssignment (Some (ArrayLiteralExpression elements)))) =>
      stringElements elements
  | _ => []
  end.

Definition bodyOf (functionArg : Argument) : option Body :=
  match functionArg with
  | ArrowFunction b | FunctionExpression b => Some b
  | _ => None
  end.

Definition withPlaywrightTags (tags : JSDocTags.t) (playwrightTags : list string)
  : JSDocTags.t :=
  match playwrightTags with
  | [] => tags
  | _ :: _ =>
      JSDocTags.mk (JSDocTags.objective tags) (JSDocTags.precondition tags)
        (JSDocTags.knownIssue tags) (Some playwrightTags)
  end.

Definition parseTestCallExpression (projectKey : string) (node : CallExpression)
    (sourceFile : SourceFile) : option ParsedTest.t :=
  match testTypeOf (expression node) with
  | None => None
  | Some testType =>
      match arguments node with
      | StringLiteral title :: second :: rest =>
          let testCaseId := extractTestCaseId projectKey title in
          let '(functionArg, playwrightTags) :=
            match rest with
            | third :: _ => (third, tagsOf second)
            | [] => (second, [])
            end in
          match bodyOf functionArg with
          | Some (Block descendants) =>
              Some (ParsedTest.mk title testCaseId testType
                      (withPlaywrightTags (jsdoc sourceFile) playwrightTags)
                      (extractActionSteps descendants)
                      (extractVerificationSteps descendants)
                      (startLineNumber node))
          | _ => None
          end
      | _ => None
      end
  end.

Definition extractTests (projectKey : string) (sourceFile : SourceFile) : list ParsedTest.t :=
  flat_map
    (fun node =>
       match parseTestCallExpression projectKey node sourceFile with
       | Some test => [test]
       | None => []
       end)
    (callExpressions sourceFile).

End TestParser.

(** The collaborators behind the file system, the syntax-tree library, the
    JSON reader and the file enumerator. *)
Record World := mkWorld {
  readFileSync : string -> result thrown string;
  createSourceFile : string -> string -> result thrown TestParser.SourceFile;
  existsSync : string -> bool;
  readFile : string -> result thrown string;
  JSON_parse : string -> option json;
  fastGlob : string -> list string -> list string
}.

Module ParserIO.
Import TestParser.

(** The [catch] clause of both entry points: an [Error] is wrapped into a
    [ParserError], anything else is thrown again as it is. *)
Definition rethrow (what filePath : string) (e : thrown) : thrown :=
  match e with
  | ErrorObject _ message =>
      ErrorObject ClassParserError (what ++ filePath ++ ": " ++ message)
  | NonError v => NonError v
  end.

Definition parseTestCode (w : World) (projectKey code filePath : string)
  : result thrown ParseResult :=
  match createSourceFile w filePath code with
  | Ok sourceFile =>
      let tests := extractTests projectKey sourceFile in
      Ok (mkParseResult filePath tests (List.length tests))
  | Throw e => Throw (rethrow "Failed to parse file " filePath e)
  end.

Definition parseTestFile (w : World) (projectKey filePath : string)
  : result thrown ParseResult :=
  match readFileSync w filePath with
  | Ok content =>
      match parseTestCode w projectKey content filePath with
      | Ok r => Ok r
      | Throw e => Throw (rethrow "Failed to read file " filePath e)
      end
  | Throw e => Throw (rethrow "Failed to read file " filePath e)
  end.

End ParserIO.

(* ===================================================================== *)
(** ** Mapping manager (MappingManager in src/utils/logger.ts) *)
(* ===================================================================== *)

Module MappingManager.

Definition requiredFields : list string :=
  ["id"; "testFilePath"; "testTitle"; "syncStatus"; "metadata"].
Definition requiredMetadataFields : list string :=
  ["createdAt"; "updatedAt"; "createdBy"; "syncCount"].

(** The first name of [fields] that is no member. *)
Definition firstMissing (fields : list string) (members : list (string * json))
  : option string :=
  List.find (fun f => negb (Json.hasKey f members)) fields.

(** [typeof x === 'object' && x !== null] holds of objects and of arrays;
    an array has none of the names asked for. *)
Definition membersOf (value : json) : option (list (string * json)) :=
  match value with
  | JObject members => Some members
  | JArray _ => Some []
  | _ => None
  end.

Definition validateMapping (mapping : json) : result thrown unit :=
  match membersOf mapping with
  | None => Throw (ErrorObject ClassError "Mapping must be an object")
  | Some members =>
      match firstMissing requiredFields members with
      | Some field => Throw (ErrorObject ClassError ("Missing required field: " ++ field))
      | None =>
          match Json.get "metadata" members with
          | Some metadata =>
              match membersOf metadata with
              | Some metadataMembers =>
                  match firstMissing requiredMetadataFields metadataMembers with
                  | Some field =>
                      Throw (ErrorObject ClassError ("Missing required metadata field: " ++ field))
                  | None => Ok tt
                  end
              | None => Throw (ErrorObject ClassError "Missing required field: metadata")
              end
          | None => Throw (ErrorObject ClassError "Missing required field: metadata")
          end
      end
  end.

Fixpoint validateAll (data : list json) : result thrown unit :=
  match data with
  | [] => Ok tt
  | mapping :: rest =>
      match validateMapping mapping with
      | Ok _ => validateAll rest
      | Throw e => Throw e
      end
  end.

(** The [catch] clause of [loadMapping]. *)
Definition rethrow (filePath : string) (e : thrown) : thrown :=
  match e with
  | ErrorObject ClassSyntaxError _ =>
      ErrorObject ClassError ("Invalid JSON in mapping file: " ++ filePath)
  | _ => e
  end.

Definition loadMapping (w : World) (filePath : string) : result thrown (list json) :=
  if negb (existsSync w filePath) then Ok []
  else
    match readFile w filePath with
    | Throw e => Throw (rethrow filePath e)
    | Ok content =>
        match JSON_parse w content with
        | None =>
            Throw (rethrow filePath (ErrorObject ClassSyntaxError "Unexpected token"))
        | Some (JArray data) =>
            match validateAll data with
            | Ok _ => Ok data
            | Throw e => Throw (rethrow filePath e)
            end
        | Some _ =>
            Throw (rethrow filePath (ErrorObject ClassError "Mapping file must contain an array"))
        end
    end.


End MappingManager.

(* ===================================================================== *)
(** ** Number arithmetic (binary64) *)
(* ===================================================================== *)

(** The quotient and the product of [calculateMetrics] are binary64
    operations.  A finite value is kept as a fraction [(n, d)], [0 < d]; an
    operation computes the exact result and rounds it to 53 significant bits,
    to nearest, ties to even.  The exponent range is left out: the operands
    are counts, far from overflow and underflow. *)
Module Binary64.
Local Open Scope Z_scope.

Definition value : Type := Z * Z.

Definition ofZ (a : Z) : value := (a, 1).

(** [n / d / 2^e] as a fraction. *)
Definition scale (n d e : Z) : Z * Z :=
  if e <? 0 then (n * 2 ^ (- e), d) else (n, d * 2 ^ e).

(** For [0 < n], [0 < d]: the [e] with [2^52 <= n / d / 2^e < 2^53]. *)
Definition exponent (n d : Z) : Z :=
  let e0 := Z.log2 n - Z.log2 d - 52 in
  let '(a, b) := scale n d e0 in
  if a <? 2 ^ 52 * b then e0 - 1 else e0.

(** The integer nearest to [a / b], ties to even ([0 < b]). *)
Definition roundHalfEven (a b : Z) : Z :=
  let q := a / b in
  let r := a mod b in
  if 2 * r <? b then q
  else if b <? 2 * r then q + 1
  else if Z.even q then q else q + 1.

(** [m * 2^e] as a fraction. *)
Definition ofMantissa (m e : Z) : value :=
  if e <? 0 then (m, 2 ^ (- e)) else (m * 2 ^ e, 1).

Definition roundPositive (n d : Z) : value :=
  let e := exponent n d in
  let '(a, b) := scale n d e in
  ofMantissa (roundHalfEven a b) e.

(** The binary64 value nearest to [n / d] ([0 < d]). *)
Definition round (n d : Z) : value :=
  if n =? 0 then (0, 1)
  else if 0 <? n then roundPositive n d
  else let '(n', d') := roundPositive (- n) d in (- n', d').

Definition div (x y : value) : value :=
  let n := fst x * snd y in
  let d := snd x * fst y in
  if d <? 0 then round (- n) (- d) else round n d.

Definition mul (x y : value) : value :=
  round (fst x * fst y) (snd x * snd y).

(** [Math.round]: the nearest integer, a tie going up. *)
Definition Math_round (x : value) : Z :=
  (2 * fst x + snd x) / (2 * snd x).

End Binary64.

(* ===================================================================== *)
(** ** Scanner (src/core/scanner.ts) *)
(* ===================================================================== *)

Module Scanner.

(** The constructor hands [config.projectKey] to the parser and the whole
    configuration to the validator. *)
Definition parserKey (config : ValidationConfig.t) : string :=
  TestParser.new (ValidationConfig.projectKey config).

Definition configOf (validationConfig : option ValidationConfig.t) : ValidationConfig.t :=
  match validationConfig with
  | Some c => c
  | None => DEFAULT_VALIDATION
  end.

Definition hasValidationErrors (config : ValidationConfig.t) (test : ParsedTest.t) : bool :=
  existsb Validator.isError (Validator.issues (Validator.validate config test)).

(** [stored !== currentHash], the stored value being a string or [null]. *)
Definition differs (stored : option string) (currentHash : string) : bool :=
  match stored with
  | Some h => negb (String.eqb h currentHash)
  | None => true
  end.

Definition detectSyncStatus (config : ValidationConfig.t) (parsedTest : ParsedTest.t)
    (mapping : option TestCaseMapping.t) (currentHash : string) : SyncStatus :=
  if hasValidationErrors config parsedTest then Unsynced
  else
    match truthyOpt (ParsedTest.testCaseId parsedTest), mapping with
    | true, Some m =>
        if differs (TestCaseMapping.lastSyncedHash m) currentHash then NeedsUpdate
        else Synced
    | _, _ => Unsynced
    end.

(** A member of the mapping file read as the record the scanner expects. *)
Definition asMapping (value : json) : TestCaseMapping.t :=
  TestCaseMapping.mk (Json.stringMember "testCaseId" value)
                     (Json.stringMember "lastSyncedHash" value).

(** [createMappingMap]: a later mapping of the same ID replaces an earlier
    one.  A [testCaseId] that is no string is no key a test can ask for. *)
Definition createMappingMap (mappings : list json) : gmap string TestCaseMapping.t :=
  fold_left
    (fun map value =>
       let mapping := asMapping value in
       match TestCaseMapping.testCaseId mapping with
       | Some id => if JsString.truthy id then <[ id := mapping ]> map else map
       | None => map
       end)
    mappings ∅.

Record counters := mkCounters {
  synced : Z;
  unmapped : Z;
  outOfSync : Z;
  validationError : Z;
  collected : list FileResult.issue
}.

Definition errorMessages (validationResult : Validator.ValidationResult) : string :=
  JsString.join ", "
    (List.map Validator.message (List.filter Validator.isError (Validator.issues validationResult))).

Definition handleUnsyncedStatus (test : ParsedTest.t) (hasErrors : bool)
    (validationResult : Validator.ValidationResult) (c : counters) : counters :=
  if hasErrors then
    mkCounters (synced c) (unmapped c) (outOfSync c) (validationError c + 1)
      (collected c ++ [FileResult.mkIssue (ParsedTest.title test) Unsynced
                         ("Validation failed: " ++ errorMessages validationResult)])
  else
    mkCounters (synced c) (unmapped c + 1) (outOfSync c) (validationError c)
      (collected c ++ [FileResult.mkIssue (ParsedTest.title test) Unsynced
                         "Test is not mapped to a TMS test case"]).

Definition categorizeTestResult (test : ParsedTest.t) (syncStatus : SyncStatus)
    (hasErrors : bool) (validationResult : Validator.ValidationResult) (c : counters)
  : counters :=
  match syncStatus with
  | Synced =>
      mkCounters (synced c + 1) (unmapped c) (outOfSync c) (validationError c) (collected c)
  | Unsynced => handleUnsyncedStatus test hasErrors validationResult c
  | NeedsUpdate =>
      mkCounters (synced c) (unmapped c) (outOfSync c + 1) (validationError c)
        (collected c ++ [FileResult.mkIssue (ParsedTest.title test) NeedsUpdate
                           "Test content has changed since last sync"])
  | _ => c
  end.

(** The body of the loop of [scanFile]. *)
Definition analyze (config : ValidationConfig.t) (mappingMap : gmap string TestCaseMapping.t)
    (c : counters) (test : ParsedTest.t) : counters :=
  let currentHash := ChangeDetector.calculateHash test in
  let mapping :=
    match ParsedTest.testCaseId test with
    | Some id => if JsString.truthy id then mappingMap !! id else None
    | None => None
    end in
  let validationResult := Validator.validate config test in
  let hasErrors := existsb Validator.isError (Validator.issues validationResult) in
  let syncStatus := detectSyncStatus config test mapping currentHash in
  categorizeTestResult test syncStatus hasErrors validationResult c.

Definition scanFile (w : World) (config : ValidationConfig.t) (filePath : string)
  : result thrown FileResult.t :=
  match ParserIO.parseTestFile w (parserKey config) filePath with
  | Throw e => Throw e
  | Ok parseResult =>
      match MappingManager.loadMapping w (filePath ++ ".mapping.json") with
      | Throw e => Throw e
      | Ok mappings =>
          let c := fold_left (analyze config (createMappingMap mappings))
                     (TestParser.tests parseResult) (mkCounters 0 0 0 0 []) in
          Ok (FileResult.mk filePath (Z.of_nat (List.length (TestParser.tests parseResult)))
                (synced c) (unmapped c) (outOfSync c) (validationError c) (collected c))
      end
  end.

(** [error instanceof Error ? error.message : String(error)]. *)
Definition messageOf (e : thrown) : string :=
  match e with
  | ErrorObject _ message => message
  | NonError v => v
  end.

Definition createErrorFileResult (filePath : string) (e : thrown) : FileResult.t :=
  FileResult.mk filePath 0 0 0 0 1
    [FileResult.mkIssue "File Scan Error" Unsynced (messageOf e)].

Definition scanAllFiles (w : World) (config : ValidationConfig.t) (files : list string)
  : list FileResult.t :=
  fold_left
    (fun fileResults filePath =>
       match scanFile w config filePath with
       | Ok fileResult => (fileResults ++ [fileResult])%list
       | Throw e => (fileResults ++ [createErrorFileResult filePath e])%list
       end)
    files [].

Record metrics := mkMetrics {
  totalTests : Z;
  syncedTests : Z;
  unmappedTests : Z;
  outOfSyncTests : Z;
  validationErrors : Z;
  syncCoverage : Z;
  documentationCompliance : Z
}.

Definition sumOf (f : FileResult.t -> Z) (fileResults : list FileResult.t) : Z :=
  fold_left (fun acc r => (acc + f r)%Z) fileResults 0%Z.

(** [Math.round((part / total) * 100)]. *)
Definition percentage (part total : Z) : Z :=
  Binary64.Math_round
    (Binary64.mul (Binary64.div (Binary64.ofZ part) (Binary64.ofZ total)) (Binary64.ofZ 100)).

Definition calculateMetrics (fileResults : list FileResult.t) : metrics :=
  let totalTests := sumOf FileResult.testCount fileResults in
  let syncedTests := sumOf FileResult.syncedCount fileResults in
  let unmappedTests := sumOf FileResult.unmappedCount fileResults in
  let outOfSyncTests := sumOf FileResult.outOfSyncCount fileResults in
  let validationErrors := sumOf FileResult.validationErrorCount fileResults in
  let mappedTests := (syncedTests + outOfSyncTests)%Z in
  let syncCoverage := if (0 <? totalTests)%Z then percentage mappedTests totalTests else 0%Z in
  let validTests := (totalTests - validationErrors)%Z in
  let documentationCompliance :=
    if (0 <? totalTests)%Z then percentage validTests totalTests else 0%Z in
  mkMetrics totalTests syncedTests unmappedTests outOfSyncTests validationErrors
    syncCoverage documentationCompliance.

(** The scan result without its time stamps. *)
Record ScanResult := mkScanResult {
  totalFiles : nat;
  summary : metrics;
  fileResults : list FileResult.t
}.

Definition scanDirectory (w : World) (config : ValidationConfig.t)
    (directoryPath : string) (patterns : list string) : ScanResult :=
  let files := fastGlob w directoryPath patterns in
  let fileResults := scanAllFiles w config files in
  mkScanResult (List.length files) (calculateMetrics fileResults) fileResults.

End Scanner.

(* ===================================================================== *)
(** ** Hash utilities (src/utils/logger.ts) *)
(* ===================================================================== *)

Module HashUtils.

(** [createHash('sha256').update(content, 'utf-8').digest('hex')]. *)
Definition hashString (content : string) : string :=
  Sha256.hex (JsString.utf8 content).

(** [content.split('\n')]. *)
Fixpoint split (content : string) : list string :=
  match content with
  | EmptyString => [EmptyString]
  | String c r =>
      if Ascii.eqb c (ascii_of_nat 10) then EmptyString :: split r
      else
        match split r with
        | x :: l => String c x :: l
        | [] => [String c EmptyString]
        end
  end.

(** [line.replace(/\s+/g, ' ')]: [inRun] tells that the character before
    was white space, whose run has its blank already. *)
Fixpoint collapse (inRun : bool) (line : string) : string :=
  match line with
  | EmptyString => EmptyString
  | String c r =>
      if JsString.isWhiteSpace c
      then if inRun then collapse true r else String " " (collapse true r)
      else String c (collapse false r)
  end.

(** The lines that are hashed. *)
Definition normalizedLines (content : string) : list string :=
  List.map (collapse false)
    (List.filter (fun line => Nat.ltb 0 (String.length line))
       (List.map JsString.trim (split content))).

Definition normalized (content : string) : string :=
  JsString.join LF (normalizedLines content).

Definition hashTestContent (content : string) : string :=
  hashString (normalized content).

(** [hashString(content).substring(0, 8)]. *)
Definition shortHash (content : string) : string :=
  String.substring 0 8 (hashString content).

Definition compareHashes (hash1 hash2 : option string) : bool :=
  match hash1, hash2 with
  | Some h1, Some h2 => String.eqb h1 h2
  | _, _ => false
  end.

Definition hasContentChanged (currentContent : string) (previousHash : option string) : bool :=
  match previousHash with
  | None => true
  | Some _ => negb (compareHashes (Some (hashTestContent currentContent)) previousHash)
  end.

Definition generateTestId (filePath testTitle : string) : string :=
  shortHash (filePath ++ ":" ++ testTitle).

End HashUtils.

(* ===================================================================== *)
(** ** Parsed test model (isValidTestCaseId) *)
(* ===================================================================== *)

Module ParsedTestValidation.

(** [/^[A-Z]+-T\d+$/.test(id)]: the run of capitals is followed by a
    hyphen, which is no capital, so it is the longest one. *)
Definition TEST_CASE_ID_PATTERN (id : string) : bool :=
  let '(letters, r) := JsString.span JsString.isUpper id in
  (JsString.truthy letters
   && match JsString.stripPrefix "-T" r with
      | Some digits => JsString.truthy digits && JsString.all JsString.isDigit digits
      | None => false
      end)%bool.

Definition isValidTestCaseId (id : option string) : bool :=
  match id with
  | Some s => if JsString.truthy s then TEST_CASE_ID_PATTERN s else false
  | None => false
  end.

End ParsedTestValidation.

(* ===================================================================== *)
(** ** Mapping model (src/models/test-case-mapping.ts) *)
(* ===================================================================== *)

Module MappingModel.

Inductive ConflictResolution := Prompt | KeepLocal | KeepTMS | Merge | Skip.

Record ConflictDetails := mkConflictDetails {
  localChanges : list string;
  tmsChanges : list string;
  detectedAt : string;
  resolutionStrategy : option ConflictResolution
}.

Record MappingMetadata := mkMetadata {
  createdAt : string;
  updatedAt : string;
  createdBy : string;
  syncCount : Z;
  lastError : option string
}.

Record t := mk {
  id : string;
  testFilePath : string;
  testTitle : string;
  testCaseId : option string;
  testCaseKey : option string;
  syncStatus : SyncStatus;
  lastSyncedHash : option string;
  lastSyncedAt : option string;
  tmsVersion : option Z;
  tmsUpdatedAt : option string;
  conflictDetails : option ConflictDetails;
  metadata : MappingMetadata
}.

(** [uuid] is what [randomUUID()] returns and [now] the time of the call
    as [new Date().toISOString()] gives it. *)
Definition createTestCaseMapping (uuid now : string) (testFilePath testTitle : string) : t :=
  mk uuid testFilePath testTitle None None Unsynced None None None None None
    (mkMetadata now now "tm-sync-cli" 0 None).

(** [status === SyncStatus.Synced]. *)
Definition isSynced (status : SyncStatus) : bool :=
  match status with Synced => true | _ => false end.

(** [hash] is [None] when the call gives none. *)
Definition updateSyncStatus (now : string) (mapping : t) (status : SyncStatus)
    (hash : option string) : t :=
  mk (id mapping) (testFilePath mapping) (testTitle mapping) (testCaseId mapping)
    (testCaseKey mapping) status
    (match hash with Some h => Some h | None => lastSyncedHash mapping end)
    (if isSynced status then Some now else lastSyncedAt mapping)
    (tmsVersion mapping) (tmsUpdatedAt mapping) (conflictDetails mapping)
    (mkMetadata (createdAt (metadata mapping)) now (createdBy (metadata mapping))
       (if isSynced status then syncCount (metadata mapping) + 1
        else syncCount (metadata mapping))
       (lastError (metadata mapping))).

Definition needsSync (mapping : t) : bool :=
  match syncStatus mapping with
  | Unsynced | NeedsUpdate | Conflict => true
  | _ => false
  end.

Definition hasConflict (mapping : t) : bool :=
  match syncStatus mapping, conflictDetails mapping with
  | Conflict, Some _ => true
  | _, _ => false
  end.

(** The values of the two enumerations. *)
Definition statusText (status : SyncStatus) : string :=
  match status with
  | Synced => "synced"
  | Unsynced => "unsynced"
  | NeedsUpdate => "needs-update"
  | Conflict => "conflict"
  | Orphaned => "orphaned"
  end.

Definition resolutionText (resolution : ConflictResolution) : string :=
  match resolution with
  | Prompt => "prompt"
  | KeepLocal => "keep-local"
  | KeepTMS => "keep-tms"
  | Merge => "merge"
  | Skip => "skip"
  end.

Definition orNull {A} (f : A -> json) (o : option A) : json :=
  match o with Some a => f a | None => JNull end.

(** An integer as [JSON.stringify] writes it. *)
Definition number (n : Z) : json := JNumber (NilZero.string_of_int (Z.to_int n)).

(** The mapping as [saveMapping] writes it and [JSON.parse] reads it back:
    an object with the members of the record, in their order. *)
Definition serialized (mapping : t) : json :=
  JObject
    [ ("id", JString (id mapping));
      ("testFilePath", JString (testFilePath mapping));
      ("testTitle", JString (testTitle mapping));
      ("testCaseId", orNull JString (testCaseId mapping));
      ("testCaseKey", orNull JString (testCaseKey mapping));
      ("syncStatus", JString (statusText (syncStatus mapping)));
      ("lastSyncedHash", orNull JString (lastSyncedHash mapping));
      ("lastSyncedAt", orNull JString (lastSyncedAt mapping));
      ("tmsVersion", orNull number (tmsVersion mapping));
      ("tmsUpdatedAt", orNull JString (tmsUpdatedAt mapping));
      ("conflictDetails",
       orNull (fun c =>
                 JObject
                   [ ("localChanges", JArray (List.map JString (localChanges c)));
                     ("tmsChanges", JArray (List.map JString (tmsChanges c)));
                     ("detectedAt", JString (detectedAt c));
                     ("resolutionStrategy",
                      orNull (fun r => JString (resolutionText r)) (resolutionStrategy c)) ])
         (conflictDetails mapping));
      ("metadata",
       JObject
         [ ("createdAt", JString (createdAt (metadata mapping)));
           ("updatedAt", JString (updatedAt (metadata mapping)));
           ("createdBy", JString (createdBy (metadata mapping)));
           ("syncCount", number (syncCount (metadata mapping)));
           ("lastError", orNull JString (lastError (metadata mapping))) ]) ].

End MappingModel.

(* ===================================================================== *)
(** ** The commands and the process (src/cli/commands) *)
(* ===================================================================== *)

(** An action of a command talks to the spinner, the console and the file
    system, and ends the process or returns.  A run is what it did, in
    order, and how it ended. *)
Module Cli.

Inductive Event :=
| SpinnerStart (text : string)
| SpinnerText (text : string)
| SpinnerWarn (text : string)
| SpinnerSucceed (text : string)
| SpinnerFail (text : string)
| ConsoleLog (text : string)
| FileWritten (path content : string).

(** [exit] is the argument of [process.exit], or [None] when the action
    returns and the process ends with status 0. *)
Record Run := mkRun {
  events : list Event;
  exit : option Z
}.

(** Node's [path] and [fs] and the working directory: [statSync] gives
    [stats.isDirectory()], both file operations can throw. *)
Record System := mkSystem {
  cwd : string;
  isAbsolute : string -> bool;
  resolve : string -> string -> string;
  join : string -> string -> string;
  statSync : string -> result thrown bool;
  writeFileSync : string -> string -> result thrown unit
}.

(** [DEFAULT_CONFIG.testFiles.patterns]. *)
Definition DEFAULT_PATTERNS : list string := ["**/*.spec.ts"].

(** An integer in a template literal. *)
Definition text (n : Z) : string := NilZero.string_of_int (Z.to_int n).

(** [isAbsolute(path) ? path : resolve(process.cwd(), path)]. *)
Definition resolvedPath (s : System) (path : string) : string :=
  if isAbsolute s path then path else resolve s (cwd s) path.

(** The [catch] clause around an action: the spinner fails with the message
    and the process exits with status 1. *)
Definition failed (what : string) (log : list Event) (e : thrown) : Run :=
  mkRun (log ++ [SpinnerFail (what ++ Scanner.messageOf e)]) (Some 1%Z).

(** The formatted results go to the file of [--output] when the option is
    set, and otherwise to the console, if they are [shown] at all. *)
Definition deliver (s : System) (output : option string) (shown : bool) (formatted : string)
  : result thrown (list Event) :=
  match output with
  | Some path =>
      if JsString.truthy path then
        match writeFileSync s path formatted with
        | Ok _ => Ok [FileWritten path formatted;
                      ConsoleLog (LF ++ "Results written to: " ++ path)]
        | Throw e => Throw e
        end
      else Ok (if shown then [ConsoleLog (LF ++ formatted)] else [])
  | None => Ok (if shown then [ConsoleLog (LF ++ formatted)] else [])
  end.

End Cli.

(* ===================================================================== *)
(** ** Scan command (src/cli/commands/scan.ts) *)
(* ===================================================================== *)

Module ScanCommand.
Import Cli.

Record Options := mkOptions {
  format : string;
  output : option string;
  verifyTms : bool
}.

(** What the action calls besides the scanner: the system, the formatter of
    [formatters.ts], which renders with the table and colour libraries, and
    the enumeration of the files as far as it can fail: [scanDirectory]
    awaits it outside any [catch] of its own, so its rejection, if any,
    is the rejection of the scan. *)
Record Collaborators := mkCollaborators {
  system : System;
  enumerationError : string -> list string -> option thrown;
  formatScanResults : Scanner.ScanResult -> string -> result thrown string
}.

(** The directory and the patterns of the scan, from the kind of the path;
    a path [statSync] throws on is taken as a directory. *)
Definition target (s : System) (path : string) : string * list string :=
  let resolvedPath := Cli.resolvedPath s path in
  match statSync s resolvedPath with
  | Ok true => (resolvedPath, DEFAULT_PATTERNS)
  | Ok false => (resolvedPath, ["*.spec.ts"])
  | Throw _ => (resolvedPath, DEFAULT_PATTERNS)
  end.

(** [await scanner.scanDirectory(directoryPath, patterns)] with the scanner
    of [DEFAULT_CONFIG.validation]. *)
Definition scanDirectory (w : World) (c : Collaborators) (directoryPath : string)
    (patterns : list string) : result thrown Scanner.ScanResult :=
  match enumerationError c directoryPath patterns with
  | Some e => Throw e
  | None => Ok (Scanner.scanDirectory w DEFAULT_VALIDATION directoryPath patterns)
  end.

Definition verifyNote : string :=
  LF ++ "Note: --verify-tms option requires TMS integration (User Story 3). Current scan is based on local mapping files only.".

(** The summary printed after a table. *)
Definition summaryLines (scanResult : Scanner.ScanResult) : list Event :=
  let summary := Scanner.summary scanResult in
  [ ConsoleLog (LF ++ "=== Summary ===");
    ConsoleLog ("Total tests: " ++ text (Scanner.totalTests summary));
    ConsoleLog ("Synced: " ++ text (Scanner.syncedTests summary));
    ConsoleLog ("Unmapped: " ++ text (Scanner.unmappedTests summary));
    ConsoleLog ("Out of sync: " ++ text (Scanner.outOfSyncTests summary));
    ConsoleLog ("Validation errors: " ++ text (Scanner.validationErrors summary));
    ConsoleLog (LF ++ "Sync Coverage: " ++ text (Scanner.syncCoverage summary) ++ "%");
    ConsoleLog ("Documentation Compliance: "
                ++ text (Scanner.documentationCompliance summary) ++ "%") ].

(** What the action does once the scan has found tests, up to the formatting. *)
Definition announced (scanResult : Scanner.ScanResult) (options : Options) : list Event :=
  [ SpinnerStart "Scanning for test files...";
    SpinnerText "Scanning test files for sync status...";
    SpinnerSucceed
      ("Scanned " ++ text (Scanner.totalTests (Scanner.summary scanResult))
       ++ " test(s) from " ++ text (Z.of_nat (Scanner.totalFiles scanResult)) ++ " file(s)") ]
  ++ (if verifyTms options then [ConsoleLog verifyNote] else []).

Definition action (w : World) (c : Collaborators) (path : string) (options : Options)
  : Run :=
  let '(directoryPath, patterns) := target (system c) path in
  let log := [ SpinnerStart "Scanning for test files...";
               SpinnerText "Scanning test files for sync status..." ] in
  match scanDirectory w c directoryPath patterns with
  | Throw e => failed "Scan failed: " log e
  | Ok scanResult =>
      if (Scanner.totalTests (Scanner.summary scanResult) =? 0)%Z
      then mkRun (log ++ [SpinnerFail "No test files found"]) (Some 1%Z)
      else
        let log := announced scanResult options in
        match formatScanResults c scanResult (format options) with
        | Throw e => failed "Scan failed: " log e
        | Ok formatted =>
            match deliver (system c) (output options) true formatted with
            | Throw e => failed "Scan failed: " log e
            | Ok delivered =>
                mkRun
                  (log ++ delivered
                   ++ (if String.eqb (format options) "table"
                       then summaryLines scanResult else []))
                  (if ((0 <? Scanner.unmappedTests (Scanner.summary scanResult))%Z
                       || (0 <? Scanner.outOfSyncTests (Scanner.summary scanResult))%Z)%bool
                   then Some 1%Z else None)
            end
        end
  end.

End ScanCommand.

(* ===================================================================== *)
(** ** Validate command (src/cli/commands/validate.ts) *)
(* ===================================================================== *)

Module ValidateCommand.
Import Cli.

(** A row of [results]. *)
Record item := mkItem {
  file : string;
  test : string;
  valid : bool;
  issues : list Validator.ValidationIssue
}.

(** The variables the loop updates, and the warnings of the spinner. *)
Record tally := mkTally {
  results : list item;
  totalTests : Z;
  validTests : Z;
  totalIssues : Z;
  warnings : list string
}.

Record Options := mkOptions {
  format : string;
  output : option string
}.

(** What the action calls besides the parser and the validator: the system,
    the enumeration of the files matching the patterns, which can be
    rejected, and the formatter of [formatters.ts]. *)
Record Collaborators := mkCollaborators {
  system : System;
  fastGlob : list string -> result thrown (list string);
  formatValidationResults : list item -> string -> result thrown string
}.

(** The body of the inner loop. *)
Definition validateTest (filePath : string) (t : tally) (test : ParsedTest.t) : tally :=
  let validationResult := Validator.validate DEFAULT_VALIDATION test in
  mkTally
    (results t ++ [mkItem filePath (ParsedTest.title test)
                     (Validator.isValid validationResult)
                     (Validator.issues validationResult)])
    (totalTests t + 1)
    (if Validator.isValid validationResult then validTests t + 1 else validTests t)
    (totalIssues t + Z.of_nat (List.length (Validator.issues validationResult)))
    (warnings t).

(** The body of the outer loop: a file that does not parse is warned about
    and passed over. *)
Definition validateFile (w : World) (t : tally) (file : string) : tally :=
  match ParserIO.parseTestFile w (TestParser.new (ValidationConfig.projectKey DEFAULT_VALIDATION))
          file with
  | Ok parseResult =>
      fold_left (validateTest (TestParser.filePath parseResult)) (TestParser.tests parseResult) t
  | Throw e =>
      mkTally (results t) (totalTests t) (validTests t) (totalIssues t)
        (warnings t ++ ["Failed to parse " ++ file ++ ": " ++ Scanner.messageOf e])
  end.

Definition validateFiles (w : World) (files : list string) : tally :=
  fold_left (validateFile w) files (mkTally [] 0 0 0 []).

(** The patterns of the search, from the kind of the path. *)
Definition searchPatterns (s : System) (path : string) : list string :=
  let resolvedPath := Cli.resolvedPath s path in
  match statSync s resolvedPath with
  | Ok true => List.map (fun pattern => join s resolvedPath pattern) DEFAULT_PATTERNS
  | Ok false => [resolvedPath]
  | Throw _ => [resolvedPath]
  end.

Definition summaryLines (t : tally) : list Event :=
  [ ConsoleLog (LF ++ "=== Summary ===");
    ConsoleLog ("Total tests: " ++ text (totalTests t));
    ConsoleLog ("Valid tests: " ++ text (validTests t));
    ConsoleLog ("Failed tests: " ++ text (totalTests t - validTests t));
    ConsoleLog ("Total issues: " ++ text (totalIssues t)) ].

(** What the action does with the files found, up to the formatting: the
    loop only warns. *)
Definition announced (files : list string) (t : tally) : list Event :=
  [ SpinnerStart "Scanning for test files...";
    SpinnerText ("Found " ++ text (Z.of_nat (List.length files))
                 ++ " test file(s). Validating...") ]
  ++ List.map SpinnerWarn (warnings t)
  ++ [ SpinnerSucceed ("Validated " ++ text (totalTests t) ++ " test(s) from "
                       ++ text (Z.of_nat (List.length files)) ++ " file(s)") ].

Definition action (w : World) (c : Collaborators) (path : string) (options : Options)
  : Run :=
  let log := [SpinnerStart "Scanning for test files..."] in
  match fastGlob c (searchPatterns (system c) path) with
  | Throw e => failed "Validation failed: " log e
  | Ok [] => mkRun (log ++ [SpinnerFail "No test files found"]) (Some 1%Z)
  | Ok files =>
      let t := validateFiles w files in
      let log := announced files t in
      match formatValidationResults c (results t) (format options) with
      | Throw e => failed "Validation failed: " log e
      | Ok formatted =>
          let shown := negb (String.eqb (format options) "quiet") in
          match deliver (system c) (output options) shown formatted with
          | Throw e => failed "Validation failed: " log e
          | Ok delivered =>
              mkRun (log ++ delivered ++ (if shown then summaryLines t else []))
                (if (validTests t <? totalTests t)%Z then Some 1%Z else None)
          end
      end
  end.

End ValidateCommand.

(* ===================================================================== *)
(** ** Validation result model (src/models/validation-result.ts) *)
(* ===================================================================== *)

Module ValidationResultModel.

Inductive ValidationSeverity := Error | Warning | Info.

Inductive ValidationCategory :=
| Documentation | ActionSteps | VerificationSteps | TestCaseId | TestTitle | Syntax.

Definition sameSeverity (a b : ValidationSeverity) : bool :=
  match a, b with
  | Error, Error | Warning, Warning | Info, Info => true
  | _, _ => false
  end.

Definition sameCategory (a b : ValidationCategory) : bool :=
  match a, b with
  | Documentation, Documentation | ActionSteps, ActionSteps
  | VerificationSteps, VerificationSteps | TestCaseId, TestCaseId
  | TestTitle, TestTitle | Syntax, Syntax => true
  | _, _ => false
  end.

(** [issueFilePath] is the member [filePath] of an issue. *)
Record ValidationIssue := mkIssue {
  severity : ValidationSeverity;
  category : ValidationCategory;
  message : string;
  suggestedFix : option string;
  issueFilePath : string;
  lineNumber : option Z;
  errorCode : string
}.

Record TestValidationResult := mkTest {
  filePath : string;
  testTitle : string;
  passed : bool;
  issues : list ValidationIssue;
  errorCount : Z;
  warningCount : Z;
  infoCount : Z
}.

Record ValidationSummary := mkSummary {
  totalErrors : Z;
  totalWarnings : Z;
  totalInfo : Z;
  passRate : Z;
  commonIssueCategory : option ValidationCategory;
  problemFiles : list string
}.

(** [issues.filter((i) => i.severity === s).length]. *)
Definition withSeverity (s : ValidationSeverity) (issues : list ValidationIssue) : Z :=
  Z.of_nat (List.length (List.filter (fun i => sameSeverity (severity i) s) issues)).

Definition createTestValidationResult (filePath testTitle : string)
    (issues : list ValidationIssue) : TestValidationResult :=
  let errorCount := withSeverity Error issues in
  let warningCount := withSeverity Warning issues in
  let infoCount := withSeverity Info issues in
  mkTest filePath testTitle (errorCount =? 0)%Z issues errorCount warningCount infoCount.

(** [testResults.reduce((sum, test) => sum + f(test), 0)]. *)
Definition total (f : TestValidationResult -> Z) (testResults : list TestValidationResult) : Z :=
  fold_left (fun sum test => (sum + f test)%Z) testResults 0%Z.

(** [categoryCounts[c] = (categoryCounts[c] || 0) + 1] on an object that
    keeps its members in the order they were first written. *)
Fixpoint increment (c : ValidationCategory) (categoryCounts : list (ValidationCategory * Z))
  : list (ValidationCategory * Z) :=
  match categoryCounts with
  | [] => [(c, 1%Z)]
  | (k, n) :: r =>
      if sameCategory k c then (k, (n + 1)%Z) :: r else (k, n) :: increment c r
  end.

Definition countCategories (testResults : list TestValidationResult)
  : list (ValidationCategory * Z) :=
  fold_left (fun counts test =>
               fold_left (fun counts issue => increment (category issue) counts)
                 (issues test) counts)
    testResults [].

(** [[...].sort((a, b) => key(b) - key(a))]: the sort is stable, so a member
    goes before the first later member whose key is not greater. *)
Fixpoint insertDescending {A} (key : A -> Z) (x : A) (l : list A) : list A :=
  match l with
  | [] => [x]
  | y :: r => if (key y <=? key x)%Z then x :: l else y :: insertDescending key x r
  end.

Definition sortDescending {A} (key : A -> Z) (l : list A) : list A :=
  fold_right (insertDescending key) [] l.

Definition calculateSummary (testResults : list TestValidationResult) : ValidationSummary :=
  let totalErrors := total errorCount testResults in
  let totalWarnings := total warningCount testResults in
  let totalInfo := total infoCount testResults in
  let passedCount := Z.of_nat (List.length (List.filter passed testResults)) in
  let passRate :=
    if (0 <? Z.of_nat (List.length testResults))%Z
    then Scanner.percentage passedCount (Z.of_nat (List.length testResults))
    else 0%Z in
  let commonIssueCategory :=
    match sortDescending snd (countCategories testResults) with
    | entry :: _ => Some (fst entry)
    | [] => None
    end in
  let problemFiles :=
    List.map filePath
      (firstn 5 (sortDescending errorCount
                   (List.filter (fun test => (0 <? errorCount test)%Z) testResults))) in
  mkSummary totalErrors totalWarnings totalInfo passRate commonIssueCategory problemFiles.

End ValidationResultModel.

(* ===================================================================== *)
(** ** Sample inputs *)
(* ===================================================================== *)

Module Samples.

(** [test(title, async () => { // # Open the channel ... // * The channel is shown ... })]. *)
Definition call (title : string) : TestParser.CallExpression :=
  TestParser.mkCall (TestParser.Identifier "test")
    [ TestParser.StringLiteral title;
      TestParser.ArrowFunction
        (TestParser.Block
           [ [TestParser.mkComment 40 "// # Open the channel" 3];
             [TestParser.mkComment 90 "// * The channel is shown" 5] ]) ] 1.

Definition documented : TestParser.SourceFile :=
  TestParser.mkSourceFile (JSDocTags.mk (Some "Open a channel") None None None)
    [call "MM-T7: Open the channel"].

(** A mapping of [MM-T7] whose stored digest is out of date. *)
Definition staleMapping : json :=
  JObject
    [ ("id", JString "0b1e"); ("testFilePath", JString "login.spec.ts");
      ("testTitle", JString "MM-T7: Open the channel");
      ("testCaseId", JString "MM-T7"); ("syncStatus", JString "synced");
      ("lastSyncedHash", JString "0000");
      ("metadata",
       JObject [ ("createdAt", JString "2025-01-01"); ("updatedAt", JString "2025-01-01");
                 ("createdBy", JString "tm-sync"); ("syncCount", JNumber "1") ]) ].

(** One documented test file with a stale mapping next to it. *)
Definition mapped : World :=
  mkWorld (fun path => Ok "source") (fun path code => Ok documented)
    (fun path => true) (fun path => Ok "[...]")
    (fun content => Some (JArray [staleMapping]))
    (fun directoryPath patterns => ["login.spec.ts"]).

(** Ten documented test files without mappings; the fifth cannot be read. *)
Definition tenFiles : World :=
  mkWorld
    (fun path =>
       if String.eqb path "f05.spec.ts"
       then Throw (ErrorObject ClassSystemError "EISDIR: illegal operation on a directory")
       else Ok "source")
    (fun path code => Ok documented)
    (fun path => false) (fun path => Ok "[]") (fun content => None)
    (fun directoryPath patterns =>
       [ "f01.spec.ts"; "f02.spec.ts"; "f03.spec.ts"; "f04.spec.ts"; "f05.spec.ts";
         "f06.spec.ts"; "f07.spec.ts"; "f08.spec.ts"; "f09.spec.ts"; "f10.spec.ts" ]).

(** A system in which every path is absolute and a directory, and writing a
    file ends as [write] says. *)
Definition system (write : result thrown unit) : Cli.System :=
  Cli.mkSystem "/work" (fun path => true) (fun from to => to)
    (fun directory pattern => directory ++ "/" ++ pattern)
    (fun path => Ok true) (fun path content => write).

(** The scan command in that system: the enumeration resolves and the
    formatter returns. *)
Definition scanTools (write : result thrown unit) : ScanCommand.Collaborators :=
  ScanCommand.mkCollaborators (system write) (fun directoryPath patterns => None)
    (fun scanResult format => Ok "formatted").

(** The validate command in that system, [files] being what the patterns
    match. *)
Definition validateTools (files : list string) (write : result thrown unit)
  : ValidateCommand.Collaborators :=
  ValidateCommand.mkCollaborators (system write) (fun patterns => Ok files)
    (fun results format => Ok "formatted").

Definition EACCES : thrown :=
  ErrorObject ClassSystemError "EACCES: permission denied, open '/out.json'".

End Samples.

(* ===================================================================== *)
(** ** Notions used by the statements *)
(* ===================================================================== *)

Module Spec.

(** Validation of the test yields an issue of severity error. *)
Definition hasErrorIssue (config : ValidationConfig.t) (test : ParsedTest.t) : Prop :=
  exists i, In i (Validator.issues (Validator.validate config test))
            /\ Validator.severity i = Validator.error.

Definition validationPasses (config : ValidationConfig.t) (test : ParsedTest.t) : Prop :=
  Validator.isValid (Validator.validate config test) = true.

(** The test carries a case ID (the empty string counts as none, as it
    does for the validator and the classifier). *)
Definition hasCaseId (test : ParsedTest.t) : Prop :=
  truthyOpt (ParsedTest.testCaseId test) = true.

(** The text that describes a failure: the message of a thrown [Error], the
    string form of any other thrown value. *)
Definition describes (message : string) (e : thrown) : Prop :=
  match e with
  | ErrorObject _ m => message = m
  | NonError v => message = v
  end.

(** The result a file that threw [e] is given: no test, one validation
    error, and the single issue [File Scan Error] that describes [e]. *)
Definition synthetic (filePath : string) (e : thrown) (r : FileResult.t) : Prop :=
  FileResult.filePath r = filePath
  /\ FileResult.testCount r = 0%Z
  /\ FileResult.syncedCount r = 0%Z
  /\ FileResult.unmappedCount r = 0%Z
  /\ FileResult.outOfSyncCount r = 0%Z
  /\ FileResult.validationErrorCount r = 1%Z
  /\ exists message,
       FileResult.issues r = [FileResult.mkIssue "File Scan Error" Unsynced message]
       /\ describes message e.

(** The member [name] of a JSON value, when the value is an object that
    has one. *)
Definition fieldOf (value : json) (name : string) : option json :=
  match value with
  | JObject members => Json.get name members
  | _ => None
  end.

Definition hasField (value : json) (name : string) : Prop :=
  fieldOf value name <> None.

(** An entry of a mapping file with every required field: id,
    testFilePath, testTitle, syncStatus and metadata, the metadata with
    createdAt, updatedAt, createdBy and syncCount. *)
Definition complete (entry : json) : Prop :=
  (forall f, In f ["id"; "testFilePath"; "testTitle"; "syncStatus"; "metadata"] ->
             hasField entry f)
  /\ (forall metadata, fieldOf entry "metadata" = Some metadata ->
        forall f, In f ["createdAt"; "updatedAt"; "createdBy"; "syncCount"] ->
                  hasField metadata f).

(** What one file contributes to the list of results of a scan. *)
Definition contribution (w : World) (config : ValidationConfig.t) (filePath : string)
  : FileResult.t :=
  match Scanner.scanFile w config filePath with
  | Ok fileResult => fileResult
  | Throw e => Scanner.createErrorFileResult filePath e
  end.

(** The head of a string fails [p], or there is no head. *)
Definition stops (p : ascii -> bool) (s : string) : Prop :=
  match s with
  | EmptyString => True
  | String c _ => p c = false
  end.

(** [title] matches [^(projectKey-T\d+):], the group capturing [id]. *)
Definition matchesCasePattern (projectKey title id : string) : Prop :=
  exists digits rest,
    digits <> ""
    /\ JsString.all JsString.isDigit digits = true
    /\ id = projectKey ++ "-T" ++ digits
    /\ title = id ++ ":" ++ rest.

(** [id] matches [^projectKey-T\d+$]. *)
Definition wellFormedCaseId (projectKey id : string) : Prop :=
  exists digits,
    digits <> ""
    /\ JsString.all JsString.isDigit digits = true
    /\ id = projectKey ++ "-T" ++ digits.

(** The call is one the parser reads as a test: [test], [test.skip] or
    [test.fixme] applied to a string literal and a function with a block
    body, the function being the third argument when there are three or
    more arguments and the second one otherwise. *)
Definition isTestCall (node : TestParser.CallExpression) : Prop :=
  (TestParser.expression node = TestParser.Identifier "test"
   \/ TestParser.expression node
      = TestParser.PropertyAccessExpression (TestParser.Identifier "test") "skip"
   \/ TestParser.expression node
      = TestParser.PropertyAccessExpression (TestParser.Identifier "test") "fixme")
  /\ exists title second rest descendants,
       TestParser.arguments node = TestParser.StringLiteral title :: second :: rest
       /\ let functionArg := match rest with third :: _ => third | [] => second end in
          functionArg = TestParser.ArrowFunction (TestParser.Block descendants)
          \/ functionArg = TestParser.FunctionExpression (TestParser.Block descendants).

Definition isCaseIdIssue (i : Validator.ValidationIssue) : Prop :=
  Validator.category i = Validator.test_case_id.

(** The issue for a malformed case ID. *)
Definition isFormatError (i : Validator.ValidationIssue) : Prop :=
  Validator.category i = Validator.test_case_id /\ Validator.severity i = Validator.error.

(** The issue for a missing case ID. *)
Definition isMissingIdWarning (i : Validator.ValidationIssue) : Prop :=
  Validator.category i = Validator.test_case_id
  /\ Validator.severity i = Validator.warning
  /\ Validator.message i = Validator.missingIdMessage.

(** On the test an issue about the case ID can only be the warning for a
    missing one, drawn when the test has none: the format error does not
    occur. *)
Definition caseIdIssuesAreWarnings (config : ValidationConfig.t) (test : ParsedTest.t)
  : Prop :=
  forall i, In i (Validator.issues (Validator.validate config test)) ->
    ~ isFormatError i
    /\ (isCaseIdIssue i -> isMissingIdWarning i /\ ~ hasCaseId test).

(** The issue for a title that is too short. *)
Definition isTitleTooShort (i : Validator.ValidationIssue) : Prop :=
  Validator.category i = Validator.test_title
  /\ Validator.severity i = Validator.warning
  /\ Validator.message i = "Test title is too short".

(** The title with a leading [KEY-T<digits>:] of the configured key, and
    nothing else, taken off: the stripping as the specification words it. *)
Definition titleAfterKeyPrefix (projectKey title : string) : string :=
  match JsString.stripPrefix (projectKey ++ "-T") title with
  | Some r =>
      let '(digits, r') := JsString.span JsString.isDigit r in
      if JsString.truthy digits then
        match JsString.stripPrefix ":" r' with
        | Some rest => rest
        | None => title
        end
      else title
  | None => title
  end.

(** [title] begins with a match of [^[A-Z]+-T\d+:\s*] and [rest] is what
    follows the match. *)
Definition titlePrefixMatch (title rest : string) : Prop :=
  exists letters digits spaces,
    letters <> ""
    /\ JsString.all JsString.isUpper letters = true
    /\ digits <> ""
    /\ JsString.all JsString.isDigit digits = true
    /\ JsString.all JsString.isWhiteSpace spaces = true
    /\ stops JsString.isWhiteSpace rest
    /\ title = letters ++ "-T" ++ digits ++ ":" ++ spaces ++ rest.

(** The title once a leading match, if there is one, is removed. *)
Definition titleRemainder (title rest : string) : Prop :=
  titlePrefixMatch title rest
  \/ ((~ exists r, titlePrefixMatch title r) /\ rest = title).

(** A test with its action steps, or its verification steps, replaced. *)
Definition withActionSteps (t : ParsedTest.t) (steps : list TestStep.t) : ParsedTest.t :=
  ParsedTest.mk (ParsedTest.title t) (ParsedTest.testCaseId t) (ParsedTest.type_ t)
    (ParsedTest.jsdocTags t) steps (ParsedTest.verificationSteps t) (ParsedTest.lineNumber t).

Definition withVerificationSteps (t : ParsedTest.t) (steps : list TestStep.t)
  : ParsedTest.t :=
  ParsedTest.mk (ParsedTest.title t) (ParsedTest.testCaseId t) (ParsedTest.type_ t)
    (ParsedTest.jsdocTags t) (ParsedTest.actionSteps t) steps (ParsedTest.lineNumber t).

Definition withTags (t : ParsedTest.t) (tags : JSDocTags.t) : ParsedTest.t :=
  ParsedTest.mk (ParsedTest.title t) (ParsedTest.testCaseId t) (ParsedTest.type_ t)
    tags (ParsedTest.actionSteps t) (ParsedTest.verificationSteps t)
    (ParsedTest.lineNumber t).

(** The order the steps are sorted by. *)
Definition byLine (a b : TestStep.t) : Prop :=
  (TestStep.lineNumber a <= TestStep.lineNumber b)%Z.

(** No two steps of the list are recorded on one source line. *)
Definition distinctLines (steps : list TestStep.t) : Prop :=
  NoDup (List.map TestStep.lineNumber steps).

(** [s'] is [s] with white space put before and after it. *)
Definition padded (s s' : string) : Prop :=
  exists l r,
    JsString.all JsString.isWhiteSpace l = true
    /\ JsString.all JsString.isWhiteSpace r = true
    /\ s' = l ++ s ++ r.

(** One string is the other with leading and trailing white space added
    or removed. *)
Definition sameUpToOuterSpace (s s' : string) : Prop :=
  padded s s' \/ padded s' s.

(** The string has a character that is no white space. *)
Definition hasInk (s : string) : Prop :=
  JsString.all JsString.isWhiteSpace s = false.

(** A step with its text replaced. *)
Definition retext (s' : string) (st : TestStep.t) : TestStep.t :=
  TestStep.mk s' (TestStep.lineNumber st).

Definition withObjective (tags : JSDocTags.t) (o : option string) : JSDocTags.t :=
  JSDocTags.mk o (JSDocTags.precondition tags) (JSDocTags.knownIssue tags)
    (JSDocTags.playwrightTags tags).

Definition withPrecondition (tags : JSDocTags.t) (p : option Precondition) : JSDocTags.t :=
  JSDocTags.mk (JSDocTags.objective tags) p (JSDocTags.knownIssue tags)
    (JSDocTags.playwrightTags tags).

Definition withKnownIssue (tags : JSDocTags.t) (k : option string) : JSDocTags.t :=
  JSDocTags.mk (JSDocTags.objective tags) (JSDocTags.precondition tags) k
    (JSDocTags.playwrightTags tags).

(** [Respaced t t']: [t'] is [t] with one text replaced by the same text up
    to leading and trailing white space; for the objective, a precondition
    given as one string and the known issue, the replacement is empty
    exactly when the text it replaces is. *)
Inductive Respaced : ParsedTest.t -> ParsedTest.t -> Prop :=
| respaced_action t i st s' :
    ParsedTest.actionSteps t !! i = Some st ->
    sameUpToOuterSpace (TestStep.text st) s' ->
    Respaced t (withActionSteps t (<[ i := retext s' st ]> (ParsedTest.actionSteps t)))
| respaced_verification t i st s' :
    ParsedTest.verificationSteps t !! i = Some st ->
    sameUpToOuterSpace (TestStep.text st) s' ->
    Respaced t
      (withVerificationSteps t (<[ i := retext s' st ]> (ParsedTest.verificationSteps t)))
| respaced_objective t o o' :
    JSDocTags.objective (ParsedTest.jsdocTags t) = Some o ->
    sameUpToOuterSpace o o' ->
    (o = "" <-> o' = "") ->
    Respaced t (withTags t (withObjective (ParsedTest.jsdocTags t) (Some o')))
| respaced_precondition t p p' :
    JSDocTags.precondition (ParsedTest.jsdocTags t) = Some (Single p) ->
    sameUpToOuterSpace p p' ->
    (p = "" <-> p' = "") ->
    Respaced t (withTags t (withPrecondition (ParsedTest.jsdocTags t) (Some (Single p'))))
| respaced_preconditions t l j p p' :
    JSDocTags.precondition (ParsedTest.jsdocTags t) = Some (Many l) ->
    l !! j = Some p ->
    sameUpToOuterSpace p p' ->
    Respaced t
      (withTags t (withPrecondition (ParsedTest.jsdocTags t) (Some (Many (<[ j := p' ]> l)))))
| respaced_knownIssue t k k' :
    JSDocTags.knownIssue (ParsedTest.jsdocTags t) = Some k ->
    sameUpToOuterSpace k k' ->
    (k = "" <-> k' = "") ->
    Respaced t (withTags t (withKnownIssue (ParsedTest.jsdocTags t) (Some k'))).

(** Two steps on one line with the same text once trimmed. *)
Definition sameStep (a b : TestStep.t) : Prop :=
  TestStep.lineNumber a = TestStep.lineNumber b
  /\ JsString.trim (TestStep.text a) = JsString.trim (TestStep.text b).

(** The number of bytes hashed for a string. *)
Definition byteLength (s : string) : nat := List.length (JsString.utf8 s).

Definition byteLengths (l : list string) : nat :=
  list_sum (List.map byteLength l).

(** The bytes of the trimmed texts of a list of steps. *)
Definition weight (steps : list TestStep.t) : nat :=
  list_sum (List.map (fun s => byteLength (JsString.trim (TestStep.text s))) steps).

(** The canonical content of a test: the trimmed objective and known
    issue when present, the trimmed preconditions in source order, and the
    trimmed texts of the action and of the verification steps in line
    order.  A section that is absent is [None] or the empty list. *)
Record Canonical := mkCanonical {
  c_objective : option string;
  c_preconditions : list string;
  c_actions : list string;
  c_verifications : list string;
  c_knownIssue : option string
}.

Definition optText (o : option string) : option string :=
  match o with
  | Some s => if JsString.truthy s then Some (JsString.trim s) else None
  | None => None
  end.

Definition canonical (t : ParsedTest.t) : Canonical :=
  mkCanonical
    (optText (JSDocTags.objective (ParsedTest.jsdocTags t)))
    (match JSDocTags.precondition (ParsedTest.jsdocTags t) with
     | Some (Many l) => List.map JsString.trim l
     | Some (Single s) => if JsString.truthy s then [JsString.trim s] else []
     | None => []
     end)
    (ChangeDetector.stepTexts (ParsedTest.actionSteps t))
    (ChangeDetector.stepTexts (ParsedTest.verificationSteps t))
    (optText (JSDocTags.knownIssue (ParsedTest.jsdocTags t))).

Definition LFchar : ascii := ascii_of_nat 10.

(** The text holds no line feed, the separator of sections. *)
Definition lineFree (s : string) : Prop := JsString.contains LFchar s = false.

(** The text holds no bar, the separator inside a section. *)
Definition barFree (s : string) : Prop := JsString.contains "|"%char s = false.

(** No text of the canonical content holds a separator that could be
    taken for one the fingerprinter wrote. *)
Definition separable (c : Canonical) : Prop :=
  (forall o, c_objective c = Some o -> lineFree o)
  /\ (forall k, c_knownIssue c = Some k -> lineFree k)
  /\ Forall (fun s => lineFree s /\ barFree s)
       (c_preconditions c ++ c_actions c ++ c_verifications c).

Definition wellSeparated (t : ParsedTest.t) : Prop :=
  separable (canonical t)
  /\ JSDocTags.precondition (ParsedTest.jsdocTags t) <> Some (Many []).

Definition optPart (tag : string) (body : option string) : list string :=
  match body with
  | Some b => [tag ++ b]
  | None => []
  end.

Definition listBody (l : list string) : option string :=
  match l with
  | [] => None
  | _ :: _ => Some (JsString.join "|" l)
  end.

(** The sections a canonical content is written as. *)
Definition sections (c : Canonical) : list string :=
  optPart "objective:" (c_objective c)
    ++ optPart "precondition:" (listBody (c_preconditions c))
    ++ optPart "actions:" (listBody (c_actions c))
    ++ optPart "verifications:" (listBody (c_verifications c))
    ++ optPart "knownIssue:" (c_knownIssue c).

Definition headIs (c : ascii) (s : string) : Prop :=
  match s with
  | String d _ => d = c
  | EmptyString => False
  end.

(** The counts of a file result are those of a partition of its tests. *)
Definition consistent (r : FileResult.t) : Prop :=
  (0 <= FileResult.syncedCount r)%Z
  /\ (0 <= FileResult.unmappedCount r)%Z
  /\ (0 <= FileResult.outOfSyncCount r)%Z
  /\ (0 <= FileResult.validationErrorCount r)%Z
  /\ (FileResult.syncedCount r + FileResult.unmappedCount r
      + FileResult.outOfSyncCount r + FileResult.validationErrorCount r
      = FileResult.testCount r)%Z.

(** A lower-case hexadecimal digit. *)
Definition isHexDigit (c : ascii) : bool :=
  (JsString.between 48 57 c || JsString.between 97 102 c)%bool.

(** The steps with every line number sent through [f]. *)
Definition relined (f : Z -> Z) (steps : list TestStep.t) : list TestStep.t :=
  List.map (fun s => TestStep.mk (TestStep.text s) (f (TestStep.lineNumber s))) steps.

(** [f] keeps the order of line numbers. *)
Definition orderPreserving (f : Z -> Z) : Prop :=
  forall a b, (a <= b)%Z <-> (f a <= f b)%Z.

(** What every issue of a validation of [test] has in common. *)
Definition wellFormedIssue (test : ParsedTest.t) (i : Validator.ValidationIssue) : Prop :=
  Validator.lineNumber i = Some (ParsedTest.lineNumber test)
  /\ Validator.suggestedFix i <> None
  /\ Validator.severity i <> Validator.info
  /\ (Validator.category i = Validator.documentation
      \/ Validator.category i = Validator.action_steps
      \/ Validator.category i = Validator.verification_steps ->
      Validator.severity i = Validator.error)
  /\ (Validator.category i = Validator.test_title -> Validator.severity i = Validator.warning).

(** The two states are the same. *)
Definition isStatus (s x : SyncStatus) : bool :=
  match s, x with
  | Synced, Synced | Unsynced, Unsynced | NeedsUpdate, NeedsUpdate
  | Conflict, Conflict | Orphaned, Orphaned => true
  | _, _ => false
  end.

(** The mapping [scanFile] looks up for a test. *)
Definition mappingOf (mappingMap : gmap string TestCaseMapping.t) (test : ParsedTest.t)
  : option TestCaseMapping.t :=
  match ParsedTest.testCaseId test with
  | Some id => if JsString.truthy id then mappingMap !! id else None
  | None => None
  end.

(** The state [scanFile] gives a test. *)
Definition statusOf (config : ValidationConfig.t) (mappingMap : gmap string TestCaseMapping.t)
    (test : ParsedTest.t) : SyncStatus :=
  Scanner.detectSyncStatus config test (mappingOf mappingMap test)
    (ChangeDetector.calculateHash test).

(** The number of members of [l] that satisfy [p]. *)
Definition count {A} (p : A -> bool) (l : list A) : Z :=
  Z.of_nat (List.length (List.filter p l)).

(** The test and the state an issue of a file result names. *)
Definition labelOf (i : FileResult.issue) : string * SyncStatus :=
  (FileResult.testTitle i, FileResult.syncStatus i).

(** The mappings of a file that carry the case ID [id], in file order. *)
Definition mappingsWith (id : string) (mappings : list json) : list TestCaseMapping.t :=
  List.filter
    (fun m => match TestCaseMapping.testCaseId m with
              | Some k => String.eqb k id
              | None => false
              end)
    (List.map Scanner.asMapping mappings).

(** The state a test of a scanned file is counted under, read off the
    entries of the mapping file: [Unsynced] when validation has an error
    issue; otherwise [Unsynced] when the test has no case ID or no entry
    carries it; otherwise, going by the last entry that carries it, [Synced]
    when the entry stores the digest of the test and [NeedsUpdate] when it
    does not. *)
Definition expectedStatus (config : ValidationConfig.t) (mappings : list json)
    (test : ParsedTest.t) : SyncStatus :=
  if existsb Validator.isError (Validator.issues (Validator.validate config test))
  then Unsynced
  else
    match ParsedTest.testCaseId test with
    | None => Unsynced
    | Some id =>
        if JsString.truthy id then
          match last (mappingsWith id mappings) with
          | None => Unsynced
          | Some m =>
              match TestCaseMapping.lastSyncedHash m with
              | Some h =>
                  if String.eqb h (ChangeDetector.calculateHash test)
                  then Synced else NeedsUpdate
              | None => NeedsUpdate
              end
          end
        else Unsynced
    end.

(** The result of a file scanned normally, its [tests] parsed and its
    [mappings] loaded: every test is counted once, under its state, a test
    with an error issue as a validation error and any other unsynced test
    as unmapped; the issues name, in order, the tests that are not synced. *)
Definition scannedNormally (config : ValidationConfig.t) (filePath : string)
    (tests : list ParsedTest.t) (mappings : list json) (r : FileResult.t) : Prop :=
  let status := expectedStatus config mappings in
  let invalid :=
    fun t => existsb Validator.isError (Validator.issues (Validator.validate config t)) in
  FileResult.filePath r = filePath
  /\ FileResult.testCount r = Z.of_nat (List.length tests)
  /\ FileResult.syncedCount r = count (fun t => isStatus Synced (status t)) tests
  /\ FileResult.outOfSyncCount r = count (fun t => isStatus NeedsUpdate (status t)) tests
  /\ FileResult.validationErrorCount r = count invalid tests
  /\ FileResult.unmappedCount r
     = count (fun t => (negb (invalid t) && isStatus Unsynced (status t))%bool) tests
  /\ List.map labelOf (FileResult.issues r)
     = List.map (fun t => (ParsedTest.title t, status t))
         (List.filter (fun t => negb (isStatus Synced (status t))) tests).

(** The comments of [comments] that stand at a position not in [seen] and
    not taken by an earlier one of them. *)
Fixpoint firstAtPosition (seen : gset Z) (comments : list TestParser.Comment)
  : list TestParser.Comment :=
  match comments with
  | [] => []
  | c :: r =>
      if decide (TestParser.pos c ∈ seen) then firstAtPosition seen r
      else c :: firstAtPosition ({[ TestParser.pos c ]} ∪ seen) r
  end.

(** The tags a test shares with the other tests of its file. *)
Definition documentation (test : ParsedTest.t)
  : option string * option Precondition * option string :=
  (JSDocTags.objective (ParsedTest.jsdocTags test),
   JSDocTags.precondition (ParsedTest.jsdocTags test),
   JSDocTags.knownIssue (ParsedTest.jsdocTags test)).

(** The messages [validateMapping] throws. *)
Definition entryMessage (message : string) : Prop :=
  message = "Mapping must be an object"
  \/ (exists f, In f MappingManager.requiredFields
                /\ message = "Missing required field: " ++ f)
  \/ (exists f, In f MappingManager.requiredMetadataFields
                /\ message = "Missing required metadata field: " ++ f).



(** A line as [hashTestContent] leaves it: not empty, without line feed,
    without white space at either end, its white space single blanks. *)
Definition clean (line : string) : Prop :=
  line <> ""
  /\ lineFree line
  /\ JsString.trim line = line
  /\ HashUtils.collapse false line = line.

(** A tally whose numbers are those of its results. *)
Definition coherent (t : ValidateCommand.tally) : Prop :=
  ValidateCommand.totalTests t = Z.of_nat (List.length (ValidateCommand.results t))
  /\ ValidateCommand.validTests t
     = Z.of_nat (List.length (List.filter ValidateCommand.valid (ValidateCommand.results t)))
  /\ ValidateCommand.totalIssues t
     = Z.of_nat (List.length (List.concat (List.map ValidateCommand.issues
                                             (ValidateCommand.results t))))
  /\ Forall (fun i => ValidateCommand.valid i
                      = negb (existsb Validator.isError (ValidateCommand.issues i)))
       (ValidateCommand.results t).

(** One call of [updateSyncStatus]: the time, the status and the hash, if any. *)
Definition update : Type := string * SyncStatus * option string.

(** The mapping after the calls of [updates], the first one first. *)
Definition replay (mapping : MappingModel.t) (updates : list update) : MappingModel.t :=
  fold_left (fun m u => MappingModel.updateSyncStatus u.1.1 m u.1.2 u.2) updates mapping.

(** The time of the last call that set [Synced]. *)
Definition lastSync (updates : list update) : option string :=
  last (List.map (fun u : update => u.1.1)
          (List.filter (fun u : update => MappingModel.isSynced u.1.2) updates)).

(** The number of issues of category [c] in the results. *)
Definition occurrences (c : ValidationResultModel.ValidationCategory)
    (testResults : list ValidationResultModel.TestValidationResult) : Z :=
  Z.of_nat (List.length
              (List.filter (fun i => ValidationResultModel.sameCategory
                                       (ValidationResultModel.category i) c)
                 (List.concat (List.map ValidationResultModel.issues testResults)))).

(** The counts after the issues [seen]: one entry for each category that
    occurs, with the number of its occurrences. *)
Definition counted (seen : list ValidationResultModel.ValidationIssue)
    (counts : list (ValidationResultModel.ValidationCategory * Z)) : Prop :=
  NoDup (List.map fst counts)
  /\ forall k n,
       In (k, n) counts
       <-> n = Z.of_nat (List.length
                           (List.filter (fun i => ValidationResultModel.sameCategory
                                                    (ValidationResultModel.category i) k)
                              seen))
           /\ (0 < n)%Z.

(** Some file of the scan has an unmapped or an out-of-sync test. *)
Definition needsAttention (scanResult : Scanner.ScanResult) : Prop :=
  Exists (fun r => (0 < FileResult.unmappedCount r)%Z \/ (0 < FileResult.outOfSyncCount r)%Z)
    (Scanner.fileResults scanResult).

(** [--output] names a file and writing [formatted] to it throws [e]. *)
Definition writeThrows (s : Cli.System) (output : option string) (formatted : string)
    (e : thrown) : Prop :=
  exists path,
    output = Some path /\ path <> "" /\ Cli.writeFileSync s path formatted = Throw e.

(** [--output] names the file [path] and [content], the formatted results,
    is written to it. *)
Definition writes (s : Cli.System) (output : option string) (formatted : string)
    (path content : string) : Prop :=
  output = Some path /\ path <> "" /\ content = formatted
  /\ Cli.writeFileSync s path formatted = Ok tt.

(** The result of the scan the scan command runs for a path, once the
    enumeration of the files has resolved. *)
Definition scanned (w : World) (c : ScanCommand.Collaborators) (path : string)
  : Scanner.ScanResult :=
  Scanner.scanDirectory w DEFAULT_VALIDATION
    (ScanCommand.target (ScanCommand.system c) path).1
    (ScanCommand.target (ScanCommand.system c) path).2.

(** The enumeration of the files of the scan command is not rejected. *)
Definition enumerated (c : ScanCommand.Collaborators) (path : string) : Prop :=
  ScanCommand.enumerationError c
    (ScanCommand.target (ScanCommand.system c) path).1
    (ScanCommand.target (ScanCommand.system c) path).2 = None.

(** [e] is thrown inside the scan action: by the enumeration of the files
    or, once tests are found, by the formatter or by the writing of the
    output. *)
Definition scanThrows (w : World) (c : ScanCommand.Collaborators) (path : string)
    (options : ScanCommand.Options) (e : thrown) : Prop :=
  ScanCommand.enumerationError c
    (ScanCommand.target (ScanCommand.system c) path).1
    (ScanCommand.target (ScanCommand.system c) path).2 = Some e
  \/ (enumerated c path
      /\ Scanner.totalTests (Scanner.summary (scanned w c path)) <> 0%Z
      /\ (ScanCommand.formatScanResults c (scanned w c path) (ScanCommand.format options)
          = Throw e
          \/ exists formatted,
               ScanCommand.formatScanResults c (scanned w c path)
                 (ScanCommand.format options) = Ok formatted
               /\ writeThrows (ScanCommand.system c) (ScanCommand.output options)
                    formatted e)).

(** [e] is thrown inside the validate action, outside the loop over the
    files: by the enumeration of the files or, once files are found, by the
    formatter or by the writing of the output. *)
Definition validateThrows (w : World) (c : ValidateCommand.Collaborators) (path : string)
    (options : ValidateCommand.Options) (e : thrown) : Prop :=
  let patterns := ValidateCommand.searchPatterns (ValidateCommand.system c) path in
  ValidateCommand.fastGlob c patterns = Throw e
  \/ exists files,
       ValidateCommand.fastGlob c patterns = Ok files
       /\ files <> []
       /\ let results := ValidateCommand.results (ValidateCommand.validateFiles w files) in
          ValidateCommand.formatValidationResults c results (ValidateCommand.format options)
          = Throw e
          \/ exists formatted,
               ValidateCommand.formatValidationResults c results
                 (ValidateCommand.format options) = Ok formatted
               /\ writeThrows (ValidateCommand.system c) (ValidateCommand.output options)
                    formatted e.

(** Some row of the results has an issue of severity error. *)
Definition hasInvalidTest (t : ValidateCommand.tally) : Prop :=
  exists i, In i (ValidateCommand.results t)
            /\ existsb Validator.isError (ValidateCommand.issues i) = true.

End Spec.

(* ===================================================================== *)
(** ** The digest agrees with the published test vectors *)
(* ===================================================================== *)

Example sha256_constants :
  nth 0 Sha256.K 0%Z = 0x428a2f98%Z /\ nth 63 Sha256.K 0%Z = 0xc67178f2%Z
  /\ nth 0 Sha256.H0 0%Z = 0x6a09e667%Z /\ nth 7 Sha256.H0 0%Z = 0x5be0cd19%Z.
Proof. vm_compute. repeat split. Qed.

Example sha256_abc :
  Sha256.hex (JsString.utf8 "abc")
  = "ba7816bf8f01cfea414140de5dae2223b00361a396177a9cb410ff61f20015ad".
Proof. vm_compute. reflexivity. Qed.

Example sha256_empty :
  Sha256.hex (JsString.utf8 "")
  = "e3b0c44298fc1c149afbf4c8996fb92427ae41e4649b934ca495991b7852b855".
Proof. vm_compute. reflexivity. Qed.

(* ===================================================================== *)
(** ** The sync-status classifier *)
(* ===================================================================== *)

Section Classifier.
Variable config : ValidationConfig.t.
Variable test : ParsedTest.t.

Lemma existsb_isError_spec (l : list Validator.ValidationIssue) :
  existsb Validator.isError l = true
  <-> exists i, In i l /\ Validator.severity i = Validator.error.
Proof.
  rewrite existsb_exists. split; intros (i & Hin & Hi); exists i; split; auto.
  - unfold Validator.isError in Hi. destruct (Validator.severity i); congruence.
  - unfold Validator.isError. now rewrite Hi.
Qed.

Lemma hasValidationErrors_spec :
  Scanner.hasValidationErrors config test = true <-> Spec.hasErrorIssue config test.
Proof. apply existsb_isError_spec. Qed.

Lemma filter_nil_existsb {A} (p : A -> bool) (l : list A) :
  Nat.eqb (List.length (List.filter p l)) 0 = negb (existsb p l).
Proof.
  induction l as [|x l IH]; simpl; [reflexivity|].
  destruct (p x); simpl; [reflexivity | exact IH].
Qed.

Lemma validationPasses_spec :
  Spec.validationPasses config test <-> Scanner.hasValidationErrors config test = false.
Proof.
  unfold Spec.validationPasses, Scanner.hasValidationErrors, Validator.validate.
  cbn [Validator.isValid Validator.issues].
  rewrite filter_nil_existsb. rewrite negb_true_iff. reflexivity.
Qed.

Lemma validationPasses_iff_no_error :
  Spec.validationPasses config test <-> ~ Spec.hasErrorIssue config test.
Proof.
  rewrite validationPasses_spec, <- hasValidationErrors_spec.
  destruct (Scanner.hasValidationErrors config test); split; congruence.
Qed.

Lemma differs_spec (stored : option string) (h : string) :
  Scanner.differs stored h = true <-> stored <> Some h.
Proof.
  destruct stored as [s|]; simpl.
  - rewrite negb_true_iff. split.
    + intros H1 H2. injection H2 as ->. rewrite String.eqb_refl in H1. discriminate.
    + intros H1. apply String.eqb_neq. congruence.
  - split; [discriminate | reflexivity].
Qed.

Lemma differs_false (stored : option string) (h : string) :
  Scanner.differs stored h = false <-> stored = Some h.
Proof.
  destruct stored as [s|]; simpl.
  - rewrite negb_false_iff, String.eqb_eq. split; congruence.
  - split; discriminate.
Qed.

End Classifier.

(** C1.  [detectSyncStatus] returns a state for every test, mapping (or none)
    and current digest, by strict priority: [Unsynced] as soon as validation
    yields an error issue, whatever the mapping and the digests; otherwise
    [Unsynced] when the test has no case ID or there is no mapping; otherwise
    [NeedsUpdate] exactly when the stored digest differs from the current
    one; otherwise [Synced].  So [Synced] holds iff validation passes, a
    mapping exists and the digests agree, [NeedsUpdate] iff validation
    passes, a mapping exists and the digests differ, and no other state is
    produced. *)
Theorem detectSyncStatus_strict_priority
    (config : ValidationConfig.t) (test : ParsedTest.t)
    (mapping : option TestCaseMapping.t) (currentHash : string) :
  regexLiteral (Validator.effectiveKey config) = true ->
  let status := Scanner.detectSyncStatus config test mapping currentHash in
  (Spec.hasErrorIssue config test -> status = Unsynced)
  /\ (~ Spec.hasErrorIssue config test ->
      ~ Spec.hasCaseId test \/ mapping = None -> status = Unsynced)
  /\ (~ Spec.hasErrorIssue config test -> Spec.hasCaseId test ->
      forall m, mapping = Some m ->
        (TestCaseMapping.lastSyncedHash m <> Some currentHash -> status = NeedsUpdate)
        /\ (TestCaseMapping.lastSyncedHash m = Some currentHash -> status = Synced))
  /\ (status = Synced <->
      Spec.validationPasses config test /\ Spec.hasCaseId test
      /\ exists m, mapping = Some m /\ TestCaseMapping.lastSyncedHash m = Some currentHash)
  /\ (status = NeedsUpdate <->
      Spec.validationPasses config test /\ Spec.hasCaseId test
      /\ exists m, mapping = Some m /\ TestCaseMapping.lastSyncedHash m <> Some currentHash)
  /\ (status = Synced \/ status = Unsynced \/ status = NeedsUpdate).
Proof.
  intros _ status. subst status.
  unfold Scanner.detectSyncStatus, Spec.hasCaseId.
  rewrite (validationPasses_spec config test).
  rewrite <- (hasValidationErrors_spec config test).
  destruct (Scanner.hasValidationErrors config test) eqn:Herr;
    [ | destruct (truthyOpt (ParsedTest.testCaseId test)) eqn:Hid;
        [ destruct mapping as [m|];
          [ destruct (Scanner.differs (TestCaseMapping.lastSyncedHash m) currentHash) eqn:Hd;
            [ apply differs_spec in Hd | apply differs_false in Hd ] | ] | ] ];
    repeat split; intros;
    repeat match goal with
      | H : _ /\ _ |- _ => destruct H
      | H : exists _, _ |- _ => destruct H
      | H : Some _ = Some _ |- _ => injection H as ?; subst
      | H : _ \/ _ |- _ => destruct H
      end;
    try congruence; try tauto; eauto.
Qed.

Lemma detectSyncStatus_strict_priority_witness :
  regexLiteral (Validator.effectiveKey DEFAULT_VALIDATION) = true
  /\ Scanner.detectSyncStatus DEFAULT_VALIDATION
       (ParsedTest.mk "MM-T12345: User can log in" (Some "MM-T12345") TypeTest
          (JSDocTags.mk (Some "Verify login") None None None)
          [TestStep.mk "Navigate to login page" 5] [TestStep.mk "User is logged in" 7] 1)
       (Some (TestCaseMapping.mk (Some "MM-T12345") (Some "stale")))
       "fresh"
     = NeedsUpdate.
Proof.
  split; [reflexivity|].
  apply (detectSyncStatus_strict_priority DEFAULT_VALIDATION
           (ParsedTest.mk "MM-T12345: User can log in" (Some "MM-T12345") TypeTest
              (JSDocTags.mk (Some "Verify login") None None None)
              [TestStep.mk "Navigate to login page" 5] [TestStep.mk "User is logged in" 7] 1)
           (Some (TestCaseMapping.mk (Some "MM-T12345") (Some "stale")))
           "fresh" eq_refl).
  split; [reflexivity|].
  split; [reflexivity|].
  exists (TestCaseMapping.mk (Some "MM-T12345") (Some "stale")).
  split; [reflexivity | discriminate].
Defined.

(* ===================================================================== *)
(** ** The files of a directory scan *)
(* ===================================================================== *)

Section Isolation.
Variable w : World.
Variable config : ValidationConfig.t.

Lemma scanAllFiles_from (files : list string) (acc : list FileResult.t) :
  fold_left
    (fun fileResults filePath =>
       match Scanner.scanFile w config filePath with
       | Ok fileResult => (fileResults ++ [fileResult])%list
       | Throw e => (fileResults ++ [Scanner.createErrorFileResult filePath e])%list
       end)
    files acc
  = (acc ++ List.map (Spec.contribution w config) files)%list.
Proof.
  revert acc. induction files as [|f files IH]; intros acc; simpl.
  - now rewrite app_nil_r.
  - rewrite IH. unfold Spec.contribution at 2.
    destruct (Scanner.scanFile w config f); now rewrite <- app_assoc.
Qed.

Lemma scanAllFiles_map (files : list string) :
  Scanner.scanAllFiles w config files = List.map (Spec.contribution w config) files.
Proof. unfold Scanner.scanAllFiles. now rewrite scanAllFiles_from. Qed.

Lemma createErrorFileResult_synthetic (filePath : string) (e : thrown) :
  Spec.synthetic filePath e (Scanner.createErrorFileResult filePath e).
Proof.
  unfold Spec.synthetic. cbn. repeat (split; [reflexivity|]).
  exists (Scanner.messageOf e). split; [reflexivity|]. now destruct e.
Qed.

Lemma scanFile_parse_throws (filePath : string) (e : thrown) :
  ParserIO.parseTestFile w (Scanner.parserKey config) filePath = Throw e ->
  Scanner.scanFile w config filePath = Throw e.
Proof. intros H. unfold Scanner.scanFile. now rewrite H. Qed.

Lemma scanFile_mapping_throws (filePath : string) (r : TestParser.ParseResult) (e : thrown) :
  ParserIO.parseTestFile w (Scanner.parserKey config) filePath = Ok r ->
  MappingManager.loadMapping w (filePath ++ ".mapping.json") = Throw e ->
  Scanner.scanFile w config filePath = Throw e.
Proof. intros H1 H2. unfold Scanner.scanFile. now rewrite H1, H2. Qed.

End Isolation.

(** A documented test whose mapping holds another digest: no validation
    error, [NeedsUpdate], one out-of-sync test with its message. *)
Example stale_mapping_is_out_of_sync :
  Scanner.scanFile Samples.mapped DEFAULT_VALIDATION "login.spec.ts"
  = Ok (FileResult.mk "login.spec.ts" 1 0 0 1 0
          [FileResult.mkIssue "MM-T7: Open the channel" NeedsUpdate
             "Test content has changed since last sync"]).
Proof. vm_compute. reflexivity. Qed.

(* ===================================================================== *)
(** ** Loading a mapping file *)
(* ===================================================================== *)

Section Mapping.

Lemma hasKey_get (key : string) (members : list (string * json)) :
  Json.hasKey key members = true <-> Json.get key members <> None.
Proof.
  induction members as [|[k v] r IH]; simpl.
  - split; [discriminate | congruence].
  - unfold Json.hasKey in *. simpl.
    destruct (Json.get key r) as [v'|].
    + split; [discriminate|]. intros _. apply orb_true_iff. right. now apply IH.
    + destruct (String.eqb key k); simpl.
      * split; [discriminate | reflexivity].
      * rewrite IH. reflexivity.
Qed.

Lemma firstMissing_none (fields : list string) (members : list (string * json)) :
  MappingManager.firstMissing fields members = None
  <-> forall f, In f fields -> Json.get f members <> None.
Proof.
  unfold MappingManager.firstMissing. split.
  - intros H f Hf. apply hasKey_get.
    pose proof (find_none _ _ H f Hf) as Hn. simpl in Hn.
    now apply negb_false_iff in Hn.
  - intros H.
    destruct (List.find _ fields) as [f|] eqn:E; [|reflexivity].
    apply find_some in E. destruct E as [Hf Hn].
    apply negb_true_iff in Hn. apply H, hasKey_get in Hf. congruence.
Qed.

Lemma validateMapping_ok (entry : json) :
  MappingManager.validateMapping entry = Ok tt <-> Spec.complete entry.
Proof.
  unfold MappingManager.validateMapping, Spec.complete, Spec.hasField. split.
  - intros H.
    destruct entry as [| | | |items|members];
      cbn [MappingManager.membersOf] in H; try discriminate.
    destruct (MappingManager.firstMissing MappingManager.requiredFields members) eqn:E1;
      [discriminate|].
    pose proof (proj1 (firstMissing_none _ _) E1) as F1.
    split; [exact F1|].
    intros metadata Hmd f Hf. cbn [Spec.fieldOf] in Hmd. rewrite Hmd in H.
    destruct metadata as [| | | |items|mm];
      cbn [MappingManager.membersOf] in H; try discriminate.
    destruct (MappingManager.firstMissing MappingManager.requiredMetadataFields mm) eqn:E2;
      [discriminate|].
    cbn [Spec.fieldOf]. now apply (proj1 (firstMissing_none _ _) E2).
  - intros [H1 H2].
    destruct entry as [| | | |items|members];
      try (exfalso; apply (H1 "id"); [simpl; tauto | reflexivity]).
    cbn [MappingManager.membersOf Spec.fieldOf] in *.
    rewrite (proj2 (firstMissing_none MappingManager.requiredFields members) H1).
    destruct (Json.get "metadata" members) as [metadata|] eqn:Hmd.
    2:{ exfalso. apply (H1 "metadata"); [simpl; tauto | exact Hmd]. }
    specialize (H2 metadata eq_refl).
    destruct metadata as [| | | |items|mm];
      try (exfalso; apply (H2 "createdAt"); [simpl; tauto | reflexivity]).
    cbn [MappingManager.membersOf Spec.fieldOf] in *.
    now rewrite (proj2 (firstMissing_none MappingManager.requiredMetadataFields mm) H2).
Qed.

Lemma validateAll_ok (items : list json) :
  MappingManager.validateAll items = Ok tt <-> forall entry, In entry items -> Spec.complete entry.
Proof.
  induction items as [|x items IH]; simpl.
  - split; [intros _ e [] | reflexivity].
  - destruct (MappingManager.validateMapping x) as [[]|e] eqn:E.
    + rewrite IH. apply validateMapping_ok in E. split.
      * intros H entry [<-|Hin]; auto.
      * intros H entry Hin. apply H. now right.
    + split; [discriminate|]. intros H.
      assert (Hx : MappingManager.validateMapping x = Ok tt)
        by (apply validateMapping_ok, H; now left).
      congruence.
Qed.

Lemma validateAll_throw (items : list json) (e : thrown) :
  MappingManager.validateAll items = Throw e ->
  exists entry, In entry items /\ ~ Spec.complete entry.
Proof.
  induction items as [|x items IH]; simpl; [discriminate|].
  destruct (MappingManager.validateMapping x) as [[]|e'] eqn:E.
  - intros H. destruct (IH H) as (entry & Hin & Hc). exists entry. auto.
  - intros _. exists x. split; [now left|].
    intros Hc. apply validateMapping_ok in Hc. congruence.
Qed.

End Mapping.

(** C9.  [loadMapping] answers a missing file with the empty array and no
    error.  For a file whose content is read, it throws exactly when the
    content is not valid JSON, or is valid JSON that is no array, or is an
    array with an entry that lacks one of id, testFilePath, testTitle,
    syncStatus, metadata, or whose metadata lacks one of createdAt, updatedAt,
    createdBy, syncCount; otherwise it returns the entries as they were
    parsed. *)
Theorem loadMapping_contract (w : World) (filePath : string) :
  (existsSync w filePath = false -> MappingManager.loadMapping w filePath = Ok [])
  /\ (forall content,
        existsSync w filePath = true -> readFile w filePath = Ok content ->
        ((exists e, MappingManager.loadMapping w filePath = Throw e)
         <-> (JSON_parse w content = None
              \/ (exists v, JSON_parse w content = Some v /\ forall items, v <> JArray items)
              \/ (exists items entry, JSON_parse w content = Some (JArray items)
                                      /\ In entry items /\ ~ Spec.complete entry)))
        /\ (forall items,
              JSON_parse w content = Some (JArray items) ->
              (forall entry, In entry items -> Spec.complete entry) ->
              MappingManager.loadMapping w filePath = Ok items)).
Proof.
  split.
  { intros H. unfold MappingManager.loadMapping. now rewrite H. }
  intros content Hex Hread. unfold MappingManager.loadMapping.
  rewrite Hex, Hread. cbn [negb].
  destruct (JSON_parse w content) as [v|] eqn:Hp.
  2:{ split.
      - split; [intros _; now left | intros _; eexists; reflexivity].
      - intros items H. discriminate. }
  destruct v as [| | | |items|members];
    try (split;
         [ split;
           [ intros _; right; left; eexists; split; [reflexivity | intros; discriminate]
           | intros _; eexists; reflexivity ]
         | intros items H; discriminate ]).
  destruct (MappingManager.validateAll items) as [[]|e] eqn:Hv.
  - split.
    + split.
      * intros [e He]. discriminate.
      * intros [H|[(v & Hv' & Hn)|(items' & entry & Hi & Hin & Hc)]].
        -- discriminate.
        -- injection Hv' as <-. exfalso. now apply (Hn items).
        -- injection Hi as <-. exfalso. apply Hc.
           now apply (proj1 (validateAll_ok items) Hv).
    + intros items' Hi _. now injection Hi as <-.
  - split.
    + split.
      * intros _. right. right. destruct (validateAll_throw _ _ Hv) as (entry & Hin & Hc).
        exists items, entry. auto.
      * intros _. eexists. reflexivity.
    + intros items' Hi Hall. injection Hi as <-.
      apply validateAll_ok in Hall. congruence.
Qed.

(* ===================================================================== *)
(** ** Facts about strings *)
(* ===================================================================== *)

Section StringFacts.

Lemma append_assoc (a b c : string) : (a ++ b) ++ c = a ++ b ++ c.
Proof. induction a as [|x a IH]; simpl; [reflexivity | now rewrite IH]. Qed.

Lemma append_nil_r (a : string) : a ++ "" = a.
Proof. induction a as [|x a IH]; simpl; [reflexivity | now rewrite IH]. Qed.

Lemma length_append (a b : string) :
  String.length (a ++ b) = (String.length a + String.length b)%nat.
Proof. induction a as [|x a IH]; simpl; [reflexivity | now rewrite IH]. Qed.

Lemma append_inv_head (a b c : string) : a ++ b = a ++ c -> b = c.
Proof. induction a as [|x a IH]; simpl; intros H; [exact H | injection H as H; auto]. Qed.

Lemma truthy_iff (s : string) : JsString.truthy s = true <-> s <> "".
Proof. destruct s; simpl; split; congruence. Qed.

Lemma stripPrefix_spec (pre s rest : string) :
  JsString.stripPrefix pre s = Some rest <-> s = pre ++ rest.
Proof.
  revert s. induction pre as [|c pre IH]; intros s; simpl.
  - split; congruence.
  - destruct s as [|d s]; [split; discriminate|].
    destruct (Ascii.eqb_spec c d) as [->|Hne].
    + rewrite IH. split; congruence.
    + split; [discriminate | congruence].
Qed.

Lemma stripPrefix_append (pre rest : string) :
  JsString.stripPrefix pre (pre ++ rest) = Some rest.
Proof. now apply stripPrefix_spec. Qed.

Lemma span_spec (p : ascii -> bool) (s a b : string) :
  JsString.span p s = (a, b)
  <-> s = a ++ b /\ JsString.all p a = true /\ Spec.stops p b.
Proof.
  revert a b. induction s as [|c s IH]; intros a b; simpl.
  - split.
    + intros H. injection H as <- <-. simpl. auto.
    + intros (H & _ & _). destruct a; [|discriminate]. simpl in H. now subst.
  - destruct (p c) eqn:Hc.
    + destruct (JsString.span p s) as [a' b'] eqn:Hs. split.
      * intros H. injection H as <- <-.
        destruct (proj1 (IH a' b') eq_refl) as (-> & Ha & Hb).
        simpl. rewrite Hc. auto.
      * intros (H & Ha & Hb). destruct a as [|x a].
        -- simpl in H. subst b. simpl in Hb. congruence.
        -- simpl in H. injection H as <- ->. simpl in Ha.
           apply andb_true_iff in Ha. destruct Ha as [_ Ha].
           assert (E : (a', b') = (a, b)) by (apply IH; auto).
           now injection E as -> ->.
    + split.
      * intros H. injection H as <- <-. simpl. auto.
      * intros (H & Ha & Hb). destruct a as [|x a].
        -- simpl in H. now subst.
        -- simpl in H. injection H as <- ->. simpl in Ha. rewrite Hc in Ha. discriminate.
Qed.

Lemma span_append (p : ascii -> bool) (a b : string) :
  JsString.all p a = true -> Spec.stops p b -> JsString.span p (a ++ b) = (a, b).
Proof. intros Ha Hb. apply span_spec. auto. Qed.

End StringFacts.

(* ===================================================================== *)
(** ** Case IDs: extraction by the parser, check by the validator *)
(* ===================================================================== *)

Section CaseId.

Lemma extractTestCaseId_spec (projectKey title id : string) :
  TestParser.extractTestCaseId projectKey title = Some id
  <-> Spec.matchesCasePattern projectKey title id.
Proof.
  unfold TestParser.extractTestCaseId, Spec.matchesCasePattern. split.
  - destruct (JsString.stripPrefix (projectKey ++ "-T") title) as [r|] eqn:E1;
      [|discriminate].
    apply stripPrefix_spec in E1.
    destruct (JsString.span JsString.isDigit r) as [digits r'] eqn:E2.
    apply span_spec in E2. destruct E2 as (-> & Hd & _).
    destruct (JsString.truthy digits) eqn:E3; [|discriminate].
    apply truthy_iff in E3.
    destruct (JsString.stripPrefix ":" r') as [rest|] eqn:E4; [|discriminate].
    apply stripPrefix_spec in E4. subst r'.
    intros H. injection H as <-.
    exists digits, rest. repeat split; auto.
    rewrite E1. now rewrite !append_assoc.
  - intros (digits & rest & Hne & Hd & -> & ->).
    replace ((projectKey ++ "-T" ++ digits) ++ ":" ++ rest)
      with ((projectKey ++ "-T") ++ digits ++ ":" ++ rest)
      by now rewrite !append_assoc.
    rewrite stripPrefix_append.
    rewrite (span_append JsString.isDigit digits (":" ++ rest) Hd) by reflexivity.
    apply truthy_iff in Hne. rewrite Hne. reflexivity.
Qed.


Lemma parse_keeps_title (projectKey : string) (node : TestParser.CallExpression)
    (sourceFile : TestParser.SourceFile) (test : ParsedTest.t) :
  TestParser.parseTestCallExpression projectKey node sourceFile = Some test ->
  (exists rest,
      TestParser.arguments node = TestParser.StringLiteral (ParsedTest.title test) :: rest)
  /\ ParsedTest.testCaseId test
     = TestParser.extractTestCaseId projectKey (ParsedTest.title test).
Proof.
  unfold TestParser.parseTestCallExpression.
  destruct (TestParser.testTypeOf (TestParser.expression node)); [|discriminate].
  destruct (TestParser.arguments node) as [|[title| | | |] [|second rest]]; try discriminate.
  destruct rest as [|third rest'].
  - destruct (TestParser.bodyOf second) as [[descendants|]|]; try discriminate.
    intros H. injection H as <-. simpl. eauto.
  - destruct (TestParser.bodyOf third) as [[descendants|]|]; try discriminate.
    intros H. injection H as <-. simpl. eauto.
Qed.

Lemma testCasePattern_spec (projectKey id : string) :
  Validator.testCasePattern projectKey id = true <-> Spec.wellFormedCaseId projectKey id.
Proof.
  unfold Validator.testCasePattern, Spec.wellFormedCaseId. split.
  - destruct (JsString.stripPrefix (projectKey ++ "-T") id) as [digits|] eqn:E;
      [|discriminate].
    apply stripPrefix_spec in E. intros H. apply andb_true_iff in H.
    destruct H as [H1 H2]. apply truthy_iff in H1.
    exists digits. repeat split; auto. now rewrite E, append_assoc.
  - intros (digits & Hne & Hd & ->).
    rewrite <- append_assoc, stripPrefix_append.
    apply truthy_iff in Hne. now rewrite Hne, Hd.
Qed.

(** The issues of validation that concern the case ID are those of
    [caseIdIssue]. *)
Lemma caseId_issues (config : ValidationConfig.t) (test : ParsedTest.t)
    (i : Validator.ValidationIssue) :
  In i (Validator.issues (Validator.validate config test)) ->
  Spec.isCaseIdIssue i ->
  In i (Validator.caseIdIssue config test).
Proof.
  unfold Validator.validate, Spec.isCaseIdIssue. cbn [Validator.issues].
  rewrite !in_app_iff.
  unfold Validator.objectiveIssue, Validator.actionIssue, Validator.verificationIssue,
    Validator.titleIssue.
  intros H Hc.
  repeat match goal with
    | H : _ \/ _ |- _ => destruct H as [H|H]
    | H : In _ (if ?b then _ else _) |- _ => destruct b
    | H : In _ [_] |- _ => destruct H as [<-|[]]
    | H : In _ [] |- _ => destruct H
    end; try discriminate; auto.
Qed.


Lemma testTypeOf_spec (e : TestParser.Expression) :
  (exists testType, TestParser.testTypeOf e = Some testType)
  <-> e = TestParser.Identifier "test"
      \/ e = TestParser.PropertyAccessExpression (TestParser.Identifier "test") "skip"
      \/ e = TestParser.PropertyAccessExpression (TestParser.Identifier "test") "fixme".
Proof.
  split.
  - intros [testType H]. destruct e as [text|[object| |] name|]; cbn in H; try discriminate.
    + destruct (String.eqb_spec text "test") as [->|]; [now left|discriminate].
    + destruct (String.eqb_spec object "test") as [->|]; [|discriminate].
      destruct (String.eqb_spec name "skip") as [->|]; [right; now left|].
      destruct (String.eqb_spec name "fixme") as [->|]; [right; now right|discriminate].
  - intros [->|[->| ->]]; cbn; eauto.
Qed.

Lemma bodyOf_block (functionArg : TestParser.Argument) (descendants : list (list TestParser.Comment)) :
  TestParser.bodyOf functionArg = Some (TestParser.Block descendants)
  <-> functionArg = TestParser.ArrowFunction (TestParser.Block descendants)
      \/ functionArg = TestParser.FunctionExpression (TestParser.Block descendants).
Proof.
  split.
  - destruct functionArg; cbn; intros H; try discriminate; injection H as ->; auto.
  - intros [->| ->]; reflexivity.
Qed.

(** The parser reads a call as a test exactly when it is a test call. *)
Lemma parse_test_call (projectKey : string) (node : TestParser.CallExpression)
    (sourceFile : TestParser.SourceFile) :
  Spec.isTestCall node
  <-> exists test, TestParser.parseTestCallExpression projectKey node sourceFile = Some test.
Proof.
  unfold Spec.isTestCall, TestParser.parseTestCallExpression. split.
  - intros [E (title & second & rest & descendants & A & F)].
    apply testTypeOf_spec in E as [testType ->]. rewrite A. cbv zeta in F.
    apply bodyOf_block in F. destruct rest as [|third rest']; rewrite F; eauto.
  - intros [test H].
    destruct (TestParser.testTypeOf (TestParser.expression node)) as [testType|] eqn:E;
      [|discriminate].
    split; [apply testTypeOf_spec; eauto|].
    destruct (TestParser.arguments node) as [|[title| | | |] [|second rest]]; try discriminate.
    exists title, second, rest. cbv zeta.
    destruct rest as [|third rest'].
    + destruct (TestParser.bodyOf second) as [[descendants|]|] eqn:B; try discriminate.
      exists descendants. split; [reflexivity|]. now apply bodyOf_block.
    + destruct (TestParser.bodyOf third) as [[descendants|]|] eqn:B; try discriminate.
      exists descendants. split; [reflexivity|]. now apply bodyOf_block.
Qed.

End CaseId.



Section FormatError.

Lemma extracted_id_wellFormed (projectKey title id : string) :
  TestParser.extractTestCaseId projectKey title = Some id ->
  Spec.wellFormedCaseId projectKey id.
Proof.
  intros H. apply extractTestCaseId_spec in H.
  destruct H as (digits & rest & Hne & Hd & Hid & _). exists digits. auto.
Qed.

(** The parser and the validator work with one key unless the configured
    key is the empty string. *)
Lemma keys_agree (config : ValidationConfig.t) :
  ValidationConfig.projectKey config <> Some "" ->
  Scanner.parserKey config = Validator.effectiveKey config.
Proof.
  unfold Scanner.parserKey, TestParser.new, Validator.effectiveKey.
  destruct (ValidationConfig.projectKey config) as [[|c k]|]; simpl; congruence.
Qed.

(** With one key on both sides, no parsed test draws the format error. *)
Lemma format_error_unreachable (config : ValidationConfig.t)
    (node : TestParser.CallExpression) (sourceFile : TestParser.SourceFile)
    (test : ParsedTest.t) :
  Scanner.parserKey config = Validator.effectiveKey config ->
  TestParser.parseTestCallExpression (Scanner.parserKey config) node sourceFile = Some test ->
  forall i, In i (Validator.issues (Validator.validate config test)) ->
            ~ Spec.isFormatError i.
Proof.
  intros Hk Hp i Hin [Hcat Hsev].
  apply parse_keeps_title in Hp. destruct Hp as [_ Hid].
  apply caseId_issues in Hin; [|exact Hcat].
  unfold Validator.caseIdIssue in Hin.
  destruct (ParsedTest.testCaseId test) as [id|] eqn:E.
  - destruct (JsString.truthy id).
    + symmetry in Hid. apply extracted_id_wellFormed in Hid.
      rewrite Hk in Hid. apply testCasePattern_spec in Hid. rewrite Hid in Hin.
      destruct Hin.
    + destruct Hin as [<-|[]]. discriminate.
  - destruct Hin as [<-|[]]. discriminate.
Qed.

Lemma extractTests_from_calls (projectKey : string) (sourceFile : TestParser.SourceFile)
    (test : ParsedTest.t) :
  In test (TestParser.extractTests projectKey sourceFile)
  <-> exists node, In node (TestParser.callExpressions sourceFile)
                   /\ TestParser.parseTestCallExpression projectKey node sourceFile = Some test.
Proof.
  unfold TestParser.extractTests. rewrite in_flat_map. split.
  - intros (node & N & T). exists node. split; [exact N|].
    destruct (TestParser.parseTestCallExpression projectKey node sourceFile) as [t|];
      [destruct T as [->|[]]; reflexivity | destruct T].
  - intros (node & N & T). exists node. split; [exact N|]. rewrite T. now left.
Qed.

Lemma parseTestFile_tests (w : World) (projectKey filePath : string)
    (parsed : TestParser.ParseResult) :
  ParserIO.parseTestFile w projectKey filePath = Ok parsed ->
  exists content sourceFile,
    readFileSync w filePath = Ok content
    /\ createSourceFile w filePath content = Ok sourceFile
    /\ TestParser.filePath parsed = filePath
    /\ TestParser.tests parsed = TestParser.extractTests projectKey sourceFile.
Proof.
  unfold ParserIO.parseTestFile, ParserIO.parseTestCode.
  destruct (readFileSync w filePath) as [content|e]; [|discriminate].
  destruct (createSourceFile w filePath content) as [sourceFile|e] eqn:S; [|discriminate].
  intros H. injection H as <-. exists content, sourceFile. now repeat split.
Qed.

Lemma parsed_test_issues (config : ValidationConfig.t)
    (node : TestParser.CallExpression) (sourceFile : TestParser.SourceFile)
    (test : ParsedTest.t) :
  Scanner.parserKey config = Validator.effectiveKey config ->
  TestParser.parseTestCallExpression (Scanner.parserKey config) node sourceFile = Some test ->
  Spec.caseIdIssuesAreWarnings config test.
Proof.
  intros K P i Hin. split; [exact (format_error_unreachable config node sourceFile test K P i Hin)|].
  intros C. pose proof (caseId_issues config test i Hin C) as I.
  apply parse_keeps_title in P as [_ E].
  unfold Validator.caseIdIssue in I. cbv zeta in I. unfold Spec.hasCaseId, truthyOpt.
  destruct (ParsedTest.testCaseId test) as [id|].
  - destruct (JsString.truthy id).
    + symmetry in E. apply extracted_id_wellFormed in E. rewrite K in E.
      apply testCasePattern_spec in E. rewrite E in I. destruct I.
    + destruct I as [<-|[]]. split; [repeat split|discriminate].
  - destruct I as [<-|[]]. split; [repeat split|discriminate].
Qed.

End FormatError.

(** C10.  When the parser and the validator work with one project key, every
    case ID the parser extracts matches the validator's pattern [^KEY-T\d+$].
    So every test call is parsed to a test for which validation reports no
    "Invalid test case ID format": on the parser's output, from a call or
    from a file, an issue about the case ID can only be the warning for a
    missing one, drawn when the test has none. *)
Theorem parsed_case_ids_are_well_formed (config : ValidationConfig.t) :
  Scanner.parserKey config = Validator.effectiveKey config ->
  regexLiteral (Validator.effectiveKey config) = true ->
  (forall title id,
     TestParser.extractTestCaseId (Scanner.parserKey config) title = Some id ->
     Spec.wellFormedCaseId (Validator.effectiveKey config) id
     /\ Validator.testCasePattern (Validator.effectiveKey config) id = true)
  /\ (forall node sourceFile,
        Spec.isTestCall node ->
        exists test,
          TestParser.parseTestCallExpression (Scanner.parserKey config) node sourceFile
          = Some test
          /\ Spec.caseIdIssuesAreWarnings config test)
  /\ (forall node sourceFile test,
        TestParser.parseTestCallExpression (Scanner.parserKey config) node sourceFile
        = Some test ->
        Spec.caseIdIssuesAreWarnings config test)
  /\ (forall w filePath parsed,
        ParserIO.parseTestFile w (Scanner.parserKey config) filePath = Ok parsed ->
        Forall (Spec.caseIdIssuesAreWarnings config) (TestParser.tests parsed)).
Proof.
  intros K _. split; [|split; [|split]].
  - intros title id E. apply extracted_id_wellFormed in E. rewrite K in E.
    split; [exact E|]. now apply testCasePattern_spec.
  - intros node sourceFile C.
    apply (parse_test_call (Scanner.parserKey config) node sourceFile) in C as [test P].
    exists test. split; [exact P|]. exact (parsed_test_issues config node sourceFile test K P).
  - intros node sourceFile test. now apply parsed_test_issues.
  - intros w filePath parsed P.
    apply parseTestFile_tests in P as (content & sourceFile & _ & _ & _ & ->).
    apply List.Forall_forall. intros test T.
    apply extractTests_from_calls in T as (node & _ & P).
    exact (parsed_test_issues config node sourceFile test K P).
Qed.

Lemma parsed_case_ids_are_well_formed_witness :
  Scanner.parserKey DEFAULT_VALIDATION = Validator.effectiveKey DEFAULT_VALIDATION
  /\ regexLiteral (Validator.effectiveKey DEFAULT_VALIDATION) = true
  /\ exists test,
       TestParser.parseTestCallExpression (Scanner.parserKey DEFAULT_VALIDATION)
         (Samples.call "MM-T7: Open the channel") Samples.documented = Some test
       /\ Spec.caseIdIssuesAreWarnings DEFAULT_VALIDATION test.
Proof.
  split; [reflexivity|]. split; [reflexivity|].
  destruct (parsed_case_ids_are_well_formed DEFAULT_VALIDATION eq_refl eq_refl)
    as (_ & P & _).
  apply (P (Samples.call "MM-T7: Open the channel") Samples.documented).
  split; [now left|]. do 4 eexists. split; [reflexivity|]. left. reflexivity.
Defined.

(** The proviso is needed.  A scanner built with the empty project key hands
    the empty key to the parser while its validator falls back to [MM]: the
    title ["-T1: open the channel"] then parses to the case ID ["-T1"], for
    which validation reports the format error. *)
Theorem empty_project_key_reaches_format_error :
  let config := ValidationConfig.mk ["@objective"] [] true true (Some "") in
  let node :=
    TestParser.mkCall (TestParser.Identifier "test")
      [ TestParser.StringLiteral "-T1: open the channel";
        TestParser.ArrowFunction
          (TestParser.Block
             [ [TestParser.mkComment 40 "// # Open the channel" 3];
               [TestParser.mkComment 90 "// * The channel is shown" 5] ]) ] 1 in
  let sourceFile :=
    TestParser.mkSourceFile (JSDocTags.mk (Some "Open a channel") None None None) [node] in
  Scanner.parserKey config = ""
  /\ Validator.effectiveKey config = "MM"
  /\ exists test,
       TestParser.parseTestCallExpression (Scanner.parserKey config) node sourceFile = Some test
       /\ ParsedTest.testCaseId test = Some "-T1"
       /\ exists i, In i (Validator.issues (Validator.validate config test))
                    /\ Spec.isFormatError i
                    /\ Validator.message i = "Invalid test case ID format: -T1".
Proof.
  cbv zeta. split; [reflexivity|]. split; [reflexivity|].
  eexists. split; [vm_compute; reflexivity|]. split; [reflexivity|].
  eexists. split; [vm_compute; left; reflexivity|].
  repeat split.
Qed.

(* ===================================================================== *)
(** ** The title-length rule *)
(* ===================================================================== *)

Section TitleRule.

Lemma trimStart_append (spaces rest : string) :
  JsString.all JsString.isWhiteSpace spaces = true ->
  Spec.stops JsString.isWhiteSpace rest ->
  JsString.trimStart (spaces ++ rest) = rest.
Proof.
  intros Hs Hr. induction spaces as [|c spaces IH]; simpl.
  - destruct rest as [|d rest]; simpl in *; [reflexivity | now rewrite Hr].
  - simpl in Hs. apply andb_true_iff in Hs. destruct Hs as [Hc Hs].
    rewrite Hc. now apply IH.
Qed.

Lemma trimStart_split (s : string) :
  exists spaces,
    JsString.all JsString.isWhiteSpace spaces = true
    /\ Spec.stops JsString.isWhiteSpace (JsString.trimStart s)
    /\ s = spaces ++ JsString.trimStart s.
Proof.
  induction s as [|c s (spaces & H1 & H2 & H3)]; simpl.
  - exists "". simpl. auto.
  - destruct (JsString.isWhiteSpace c) eqn:Hc.
    + exists (String c spaces). simpl. rewrite Hc, H1. repeat split; auto. now f_equal.
    + exists "". simpl. auto.
Qed.

Lemma titlePrefixMatch_computes (title rest : string) :
  Spec.titlePrefixMatch title rest -> Validator.titleWithoutId title = rest.
Proof.
  intros (letters & digits & spaces & Hl & Hu & Hd & Hdd & Hs & Hr & ->).
  unfold Validator.titleWithoutId.
  rewrite (span_append JsString.isUpper letters _ Hu) by reflexivity.
  apply truthy_iff in Hl. rewrite Hl.
  change ("-T" ++ digits ++ ":" ++ spaces ++ rest)
    with ("-T" ++ (digits ++ ":" ++ spaces ++ rest)).
  rewrite stripPrefix_append.
  rewrite (span_append JsString.isDigit digits _ Hdd) by reflexivity.
  apply truthy_iff in Hd. rewrite Hd.
  change (":" ++ spaces ++ rest) with (":" ++ (spaces ++ rest)).
  rewrite stripPrefix_append.
  now apply trimStart_append.
Qed.

Lemma titlePrefixMatch_shorter (title rest : string) :
  Spec.titlePrefixMatch title rest -> (String.length rest < String.length title)%nat.
Proof.
  intros (letters & digits & spaces & _ & _ & _ & _ & _ & _ & ->).
  rewrite !length_append. simpl. lia.
Qed.

Lemma titleWithoutId_cases (title : string) :
  Spec.titlePrefixMatch title (Validator.titleWithoutId title)
  \/ Validator.titleWithoutId title = title.
Proof.
  unfold Validator.titleWithoutId.
  destruct (JsString.span JsString.isUpper title) as [letters r1] eqn:E1.
  apply span_spec in E1. destruct E1 as (-> & Hu & _).
  destruct (JsString.truthy letters) eqn:Hl; [|now right].
  destruct (JsString.stripPrefix "-T" r1) as [r2|] eqn:E2; [|now right].
  apply stripPrefix_spec in E2. subst r1.
  destruct (JsString.span JsString.isDigit r2) as [digits r3] eqn:E3.
  apply span_spec in E3. destruct E3 as (-> & Hd & _).
  destruct (JsString.truthy digits) eqn:Hdd; [|now right].
  destruct (JsString.stripPrefix ":" r3) as [r4|] eqn:E4; [|now right].
  apply stripPrefix_spec in E4. subst r3.
  left. destruct (trimStart_split r4) as (spaces & Hs & Hr & Hr4).
  exists letters, digits, spaces.
  apply truthy_iff in Hl. apply truthy_iff in Hdd.
  repeat split; auto.
  now rewrite <- Hr4.
Qed.

Lemma titleWithoutId_spec (title rest : string) :
  Spec.titleRemainder title rest <-> rest = Validator.titleWithoutId title.
Proof.
  split.
  - intros [H|[Hn ->]].
    + symmetry. now apply titlePrefixMatch_computes.
    + destruct (titleWithoutId_cases title) as [H|H]; [|now symmetry].
      exfalso. apply Hn. eauto.
  - intros ->. destruct (titleWithoutId_cases title) as [H|H]; [now left|].
    right. split; [|exact H].
    intros [r Hr]. pose proof (titlePrefixMatch_shorter _ _ Hr) as Hlt.
    apply titlePrefixMatch_computes in Hr. rewrite H in Hr. subst r. lia.
Qed.

Lemma title_issue_iff (config : ValidationConfig.t) (test : ParsedTest.t) :
  (exists i, In i (Validator.issues (Validator.validate config test))
             /\ Spec.isTitleTooShort i)
  <-> (String.length (Validator.titleWithoutId (ParsedTest.title test)) < 10)%nat.
Proof.
  unfold Validator.validate. cbn [Validator.issues]. split.
  - intros (i & Hin & Hcat & _).
    rewrite !in_app_iff in Hin.
    unfold Validator.objectiveIssue, Validator.actionIssue, Validator.verificationIssue,
      Validator.caseIdIssue, Validator.titleIssue in Hin.
    destruct (Nat.ltb_spec
                (String.length (Validator.titleWithoutId (ParsedTest.title test))) 10)
      as [Hlt|Hge]; [exact Hlt|].
    exfalso.
    repeat match goal with
      | H : _ \/ _ |- _ => destruct H as [H|H]
      | H : In _ (match ?o with Some _ => _ | None => _ end) |- _ => destruct o
      | H : In _ (if ?b then _ else _) |- _ => destruct b
      | H : In _ [_] |- _ => destruct H as [<-|[]]
      | H : In _ [] |- _ => destruct H
      end; discriminate.
  - intros Hlt. apply Nat.ltb_lt in Hlt.
    eexists. split.
    + rewrite !in_app_iff. do 4 right.
      unfold Validator.titleIssue. rewrite Hlt. left. reflexivity.
    + repeat split.
Qed.

End TitleRule.

(** C7 as stated fails on the code.  With the key [MM], the title
    ["PROJ-T123: abc"] has no leading [MM-T####:] to strip and is 14
    characters long, yet it draws the warning; and the title
    ["MM-T1: abcdefghi"] leaves 10 characters once [MM-T1:] is stripped, yet
    it draws the warning too. *)
Lemma title_rule_is_not_keyed :
  ~ ((exists i, In i (Validator.issues
                        (Validator.validate DEFAULT_VALIDATION
                           (ParsedTest.mk "PROJ-T123: abc" None TypeTest JSDocTags.empty [] [] 1)))
                /\ Spec.isTitleTooShort i)
     <-> (String.length (Spec.titleAfterKeyPrefix "MM" "PROJ-T123: abc") < 10)%nat)
  /\ ~ ((exists i, In i (Validator.issues
                           (Validator.validate DEFAULT_VALIDATION
                              (ParsedTest.mk "MM-T1: abcdefghi" (Some "MM-T1") TypeTest
                                 JSDocTags.empty [] [] 1)))
                   /\ Spec.isTitleTooShort i)
        <-> (String.length (Spec.titleAfterKeyPrefix "MM" "MM-T1: abcdefghi") < 10)%nat).
Proof.
  assert (E1 : Validator.titleWithoutId "PROJ-T123: abc" = "abc") by reflexivity.
  assert (E2 : Validator.titleWithoutId "MM-T1: abcdefghi" = "abcdefghi") by reflexivity.
  assert (F1 : Spec.titleAfterKeyPrefix "MM" "PROJ-T123: abc" = "PROJ-T123: abc")
    by reflexivity.
  assert (F2 : Spec.titleAfterKeyPrefix "MM" "MM-T1: abcdefghi" = " abcdefghi")
    by reflexivity.
  split; intros [H _]; rewrite title_issue_iff in H; cbn [ParsedTest.title] in H.
  - rewrite E1, F1 in H. simpl in H. lia.
  - rewrite E2, F2 in H. simpl in H. lia.
Qed.

(** C7, amended.  [validate] emits the title-too-short issue (a warning of
    the title category) iff the title has fewer than 10 characters once a
    leading match of [^[A-Z]+-T\d+:\s*] is removed from it: a run of capital
    letters (of any project key, configured or not), [-T], a run of digits, a
    colon, and the white space that follows the colon. *)
Theorem title_too_short_iff (config : ValidationConfig.t) (test : ParsedTest.t) :
  (exists i, In i (Validator.issues (Validator.validate config test))
             /\ Spec.isTitleTooShort i)
  <-> exists rest, Spec.titleRemainder (ParsedTest.title test) rest
                   /\ (String.length rest < 10)%nat.
Proof.
  rewrite title_issue_iff. split.
  - intros H. exists (Validator.titleWithoutId (ParsedTest.title test)).
    split; [now apply titleWithoutId_spec | exact H].
  - intros (rest & Hr & Hlt). apply titleWithoutId_spec in Hr. now subst rest.
Qed.

(* ===================================================================== *)
(** ** The fingerprint and the order of the steps in memory *)
(* ===================================================================== *)

(** [sortSteps] is the stable sort by line: its result is a rearrangement of
    the steps, in line order, in which the steps of one line keep the order
    they had. *)
Section SortModel.
Import ChangeDetector.

Lemma insertStep_permutation (x : TestStep.t) (l : list TestStep.t) :
  Permutation (x :: l) (insertStep x l).
Proof.
  induction l as [|y l IH]; simpl; [reflexivity|].
  destruct (TestStep.lineNumber x <=? TestStep.lineNumber y)%Z; [reflexivity|].
  rewrite perm_swap. now apply perm_skip.
Qed.

Lemma sortSteps_rearranges (l : list TestStep.t) : Permutation l (sortSteps l).
Proof.
  induction l as [|x l IH]; simpl; [reflexivity|].
  rewrite <- insertStep_permutation. now apply perm_skip.
Qed.

Lemma insertStep_sorted (x : TestStep.t) (l : list TestStep.t) :
  StronglySorted Spec.byLine l -> StronglySorted Spec.byLine (insertStep x l).
Proof.
  induction 1 as [|y l Hs IH Hy]; simpl.
  - repeat constructor.
  - destruct (Z.leb_spec (TestStep.lineNumber x) (TestStep.lineNumber y)).
    + constructor; [now constructor|].
      constructor; [exact H|].
      eapply Forall_impl; [exact Hy|]. unfold Spec.byLine. intros z Hz. lia.
    + constructor; [exact IH|].
      rewrite <- insertStep_permutation. constructor; [unfold Spec.byLine; lia | exact Hy].
Qed.

Lemma sortSteps_sorted (l : list TestStep.t) : StronglySorted Spec.byLine (sortSteps l).
Proof.
  induction l as [|x l IH]; simpl; [constructor | now apply insertStep_sorted].
Qed.

Lemma insertStep_on_line (k : Z) (x : TestStep.t) (l : list TestStep.t) :
  List.filter (fun s => Z.eqb (TestStep.lineNumber s) k) (insertStep x l)
  = List.filter (fun s => Z.eqb (TestStep.lineNumber s) k) (x :: l).
Proof.
  induction l as [|y l IH]; [reflexivity|].
  cbn [insertStep].
  destruct (Z.leb_spec (TestStep.lineNumber x) (TestStep.lineNumber y)); [reflexivity|].
  cbn [List.filter] in *. rewrite IH.
  destruct (Z.eqb_spec (TestStep.lineNumber x) k); destruct (Z.eqb_spec (TestStep.lineNumber y) k);
    try reflexivity. lia.
Qed.

(** The sort is stable: the steps of one line keep their order. *)
Lemma sortSteps_stable (k : Z) (l : list TestStep.t) :
  List.filter (fun s => Z.eqb (TestStep.lineNumber s) k) (sortSteps l)
  = List.filter (fun s => Z.eqb (TestStep.lineNumber s) k) l.
Proof.
  induction l as [|x l IH]; [reflexivity|].
  cbn [sortSteps fold_right]. fold (sortSteps l).
  rewrite insertStep_on_line. cbn [List.filter]. now rewrite IH.
Qed.

End SortModel.

Section StepOrder.
Import ChangeDetector.

Lemma insertStep_comm (x y : TestStep.t) (l : list TestStep.t) :
  TestStep.lineNumber x <> TestStep.lineNumber y ->
  insertStep x (insertStep y l) = insertStep y (insertStep x l).
Proof.
  intros Hne. induction l as [|z l IH]; simpl.
  - destruct (Z.leb_spec (TestStep.lineNumber x) (TestStep.lineNumber y));
      destruct (Z.leb_spec (TestStep.lineNumber y) (TestStep.lineNumber x));
      try reflexivity; lia.
  - destruct (Z.leb_spec (TestStep.lineNumber y) (TestStep.lineNumber z));
      destruct (Z.leb_spec (TestStep.lineNumber x) (TestStep.lineNumber z)); simpl;
      repeat match goal with
        | |- context [Z.leb ?a ?b] => destruct (Z.leb_spec a b)
        end; try reflexivity; try lia.
    now rewrite IH.
Qed.

Lemma sortSteps_permutation (l l' : list TestStep.t) :
  Permutation l l' -> Spec.distinctLines l -> sortSteps l = sortSteps l'.
Proof.
  unfold Spec.distinctLines.
  induction 1 as [|x l l' Hp IH|x y l|l l' l'' Hp1 IH1 Hp2 IH2]; intros Hd.
  - reflexivity.
  - simpl in *. inversion Hd; subst. f_equal. auto.
  - simpl in *. inversion Hd as [|? ? Hin Hd']; subst.
    apply insertStep_comm. intros E. apply Hin. rewrite E. constructor.
  - rewrite IH1 by exact Hd. apply IH2.
    assert (Hm : List.map TestStep.lineNumber l ≡ₚ List.map TestStep.lineNumber l')
      by now apply Permutation_map.
    now rewrite <- Hm.
Qed.

Lemma normalizedContent_steps (t t' : ParsedTest.t) :
  ParsedTest.jsdocTags t' = ParsedTest.jsdocTags t ->
  sortSteps (ParsedTest.actionSteps t') = sortSteps (ParsedTest.actionSteps t) ->
  sortSteps (ParsedTest.verificationSteps t') = sortSteps (ParsedTest.verificationSteps t) ->
  (ParsedTest.actionSteps t' = [] <-> ParsedTest.actionSteps t = []) ->
  (ParsedTest.verificationSteps t' = [] <-> ParsedTest.verificationSteps t = []) ->
  normalizedContent t' = normalizedContent t.
Proof.
  intros Ht Ha Hv Hna Hnv.
  unfold normalizedContent, parts, objectivePart, preconditionPart, knownIssuePart.
  rewrite Ht. do 3 f_equal.
  assert (Ea : actionsPart t' = actionsPart t).
  { unfold actionsPart, stepTexts.
    destruct (ParsedTest.actionSteps t') as [|a' l'] eqn:E';
      destruct (ParsedTest.actionSteps t) as [|a l] eqn:E; try reflexivity.
    - destruct Hna as [Hna _]. now specialize (Hna eq_refl).
    - destruct Hna as [_ Hna]. now specialize (Hna eq_refl).
    - now rewrite Ha. }
  assert (Ev : verificationsPart t' = verificationsPart t).
  { unfold verificationsPart, stepTexts.
    destruct (ParsedTest.verificationSteps t') as [|a' l'] eqn:E';
      destruct (ParsedTest.verificationSteps t) as [|a l] eqn:E; try reflexivity.
    - destruct Hnv as [Hnv _]. now specialize (Hnv eq_refl).
    - destruct Hnv as [_ Hnv]. now specialize (Hnv eq_refl).
    - now rewrite Hv. }
  now rewrite Ea, Ev.
Qed.

Lemma permutation_nil_iff {A} (l l' : list A) : Permutation l l' -> (l' = [] <-> l = []).
Proof.
  intros Hp. split; intros ->.
  - now apply Permutation_nil, Permutation_sym.
  - now apply Permutation_nil.
Qed.

End StepOrder.

(** C6 as stated fails on the code.  Two action steps recorded on one line
    keep, after the sort, the order they have in memory: swapping them leaves
    every step's line as it was and changes the fingerprint. *)
Lemma reorder_on_shared_line_changes_hash :
  let t := ParsedTest.mk "MM-T1: Open the channel" (Some "MM-T1") TypeTest JSDocTags.empty
             [TestStep.mk "a" 1; TestStep.mk "b" 1] [] 1 in
  let t' := Spec.withActionSteps t [TestStep.mk "b" 1; TestStep.mk "a" 1] in
  Permutation (ParsedTest.actionSteps t) (ParsedTest.actionSteps t')
  /\ ChangeDetector.calculateHash t' <> ChangeDetector.calculateHash t.
Proof.
  cbv zeta. split.
  - apply perm_swap.
  - intros H. vm_compute in H. discriminate.
Qed.

(** C6, amended.  For a test whose action steps are recorded on pairwise
    distinct lines, and whose verification steps are, every permutation of
    the action steps in memory, and of the verification steps, gives the same
    fingerprint: the steps are sorted by line before they are joined. *)
Theorem calculateHash_reorder_invariant
    (t : ParsedTest.t) (actions verifications : list TestStep.t) :
  Spec.distinctLines (ParsedTest.actionSteps t) ->
  Spec.distinctLines (ParsedTest.verificationSteps t) ->
  Permutation (ParsedTest.actionSteps t) actions ->
  Permutation (ParsedTest.verificationSteps t) verifications ->
  ChangeDetector.calculateHash
    (Spec.withVerificationSteps (Spec.withActionSteps t actions) verifications)
  = ChangeDetector.calculateHash t.
Proof.
  intros Da Dv Pa Pv. unfold ChangeDetector.calculateHash. do 2 f_equal.
  apply normalizedContent_steps; simpl.
  - reflexivity.
  - symmetry. now apply sortSteps_permutation.
  - symmetry. now apply sortSteps_permutation.
  - now apply permutation_nil_iff.
  - now apply permutation_nil_iff.
Qed.

Lemma calculateHash_reorder_invariant_witness :
  let t := ParsedTest.mk "MM-T1: Open the channel" (Some "MM-T1") TypeTest JSDocTags.empty
             [TestStep.mk "Open the menu" 4; TestStep.mk "Pick the channel" 6]
             [TestStep.mk "The channel is shown" 8] 1 in
  ChangeDetector.calculateHash
    (Spec.withVerificationSteps
       (Spec.withActionSteps t [TestStep.mk "Pick the channel" 6; TestStep.mk "Open the menu" 4])
       [TestStep.mk "The channel is shown" 8])
  = ChangeDetector.calculateHash t.
Proof.
  cbv zeta.
  apply (calculateHash_reorder_invariant
           (ParsedTest.mk "MM-T1: Open the channel" (Some "MM-T1") TypeTest JSDocTags.empty
              [TestStep.mk "Open the menu" 4; TestStep.mk "Pick the channel" 6]
              [TestStep.mk "The channel is shown" 8] 1)).
  - apply (bool_decide_unpack _). vm_compute. exact I.
  - apply (bool_decide_unpack _). vm_compute. exact I.
  - apply perm_swap.
  - apply Permutation_refl.
Defined.

(* ===================================================================== *)
(** ** The fingerprint and white space *)
(* ===================================================================== *)

Section Trim.

Lemma trimStart_spaces (l s : string) :
  JsString.all JsString.isWhiteSpace l = true ->
  JsString.trimStart (l ++ s) = JsString.trimStart s.
Proof.
  intros Hl. induction l as [|c l IH]; simpl; [reflexivity|].
  simpl in Hl. apply andb_true_iff in Hl. destruct Hl as [Hc Hl].
  rewrite Hc. now apply IH.
Qed.

Lemma trimStart_only_spaces (r : string) :
  JsString.all JsString.isWhiteSpace r = true -> JsString.trimStart r = "".
Proof.
  induction r as [|c r IH]; simpl; [reflexivity|].
  intros H. apply andb_true_iff in H. destruct H as [Hc Hr].
  rewrite Hc. now apply IH.
Qed.

Lemma trimEnd_only_spaces (r : string) :
  JsString.all JsString.isWhiteSpace r = true -> JsString.trimEnd r = "".
Proof.
  induction r as [|c r IH]; simpl; [reflexivity|].
  intros H. apply andb_true_iff in H. destruct H as [Hc Hr].
  rewrite (IH Hr). now rewrite Hc.
Qed.

Lemma trimEnd_spaces (s r : string) :
  JsString.all JsString.isWhiteSpace r = true ->
  JsString.trimEnd (s ++ r) = JsString.trimEnd s.
Proof.
  intros Hr. induction s as [|c s IH]; simpl.
  - now apply trimEnd_only_spaces.
  - now rewrite IH.
Qed.

Lemma trim_spaces_right (s r : string) :
  JsString.all JsString.isWhiteSpace r = true ->
  JsString.trim (s ++ r) = JsString.trim s.
Proof.
  intros Hr. unfold JsString.trim. induction s as [|c s IH]; simpl.
  - now rewrite trimStart_only_spaces.
  - destruct (JsString.isWhiteSpace c); [exact IH|].
    now apply (trimEnd_spaces (String c s) r).
Qed.

Lemma trim_padded (s s' : string) : Spec.padded s s' -> JsString.trim s' = JsString.trim s.
Proof.
  intros (l & r & Hl & Hr & ->).
  unfold JsString.trim. rewrite trimStart_spaces by exact Hl.
  now apply trim_spaces_right.
Qed.

Lemma trim_sameUpToOuterSpace (s s' : string) :
  Spec.sameUpToOuterSpace s s' -> JsString.trim s' = JsString.trim s.
Proof. intros [H|H]; [|symmetry]; now apply trim_padded. Qed.

Lemma trimStart_ink (a x : string) :
  Spec.hasInk a -> JsString.trimStart (a ++ x) = JsString.trimStart a ++ x.
Proof.
  unfold Spec.hasInk. induction a as [|c a IH]; simpl; [discriminate|].
  destruct (JsString.isWhiteSpace c); simpl; [exact IH | reflexivity].
Qed.

Lemma trimEnd_of_ink (b : string) : Spec.hasInk b -> JsString.trimEnd b <> "".
Proof.
  unfold Spec.hasInk. induction b as [|c b IH]; simpl; [discriminate|].
  destruct (JsString.isWhiteSpace c); simpl.
  - intros H. specialize (IH H). destruct (JsString.trimEnd b); congruence.
  - intros _. destruct (JsString.trimEnd b); discriminate.
Qed.

Lemma trimEnd_ink (x b : string) :
  Spec.hasInk b -> JsString.trimEnd (x ++ b) = x ++ JsString.trimEnd b.
Proof.
  intros Hb. induction x as [|c x IH]; simpl; [reflexivity|].
  rewrite IH. pose proof (trimEnd_of_ink b Hb) as Hne.
  destruct (x ++ JsString.trimEnd b) as [|d r] eqn:E; [|reflexivity].
  destruct x; simpl in E; [contradiction | discriminate].
Qed.

(** White space put inside a text stays after the trim. *)
Lemma trim_interior (a w b : string) :
  Spec.hasInk a -> Spec.hasInk b ->
  JsString.trim (a ++ w ++ b) = JsString.trimStart a ++ w ++ JsString.trimEnd b
  /\ JsString.trim (a ++ b) = JsString.trimStart a ++ JsString.trimEnd b.
Proof.
  intros Ha Hb. unfold JsString.trim. split.
  - rewrite trimStart_ink by exact Ha.
    rewrite <- append_assoc, trimEnd_ink by exact Hb.
    apply append_assoc.
  - rewrite trimStart_ink by exact Ha. now apply trimEnd_ink.
Qed.

End Trim.

Section TrimModel.

Lemma trimEnd_split (s : string) :
  exists spaces,
    JsString.all JsString.isWhiteSpace spaces = true /\ s = JsString.trimEnd s ++ spaces.
Proof.
  induction s as [|c s (spaces & H1 & H2)]; simpl.
  - exists "". auto.
  - destruct (JsString.trimEnd s) as [|d r] eqn:E.
    + simpl in H2. destruct (JsString.isWhiteSpace c) eqn:Hc.
      * exists (String c spaces). simpl. rewrite Hc, H1. split; [reflexivity | now f_equal].
      * exists spaces. split; [exact H1 | simpl; now f_equal].
    + exists spaces. split; [exact H1 | simpl; now f_equal].
Qed.

(** A string is its trimmed form with white space around it, and the
    trimmed form has none left to take off. *)
Lemma trim_is_padding (s : string) :
  Spec.padded (JsString.trim s) s /\ JsString.trim (JsString.trim s) = JsString.trim s.
Proof.
  assert (P : Spec.padded (JsString.trim s) s).
  { destruct (trimStart_split s) as (l & Hl & _ & El).
    destruct (trimEnd_split (JsString.trimStart s)) as (r & Hr & Er).
    exists l, r. repeat split; auto. unfold JsString.trim. now rewrite <- Er. }
  split; [exact P|]. symmetry. now apply trim_padded.
Qed.

End TrimModel.

Section ByteLength.

Lemma byteLength_append (a b : string) :
  Spec.byteLength (a ++ b) = (Spec.byteLength a + Spec.byteLength b)%nat.
Proof.
  unfold Spec.byteLength. induction a as [|c a IH]; simpl; [reflexivity|].
  destruct (Z.of_N (JsString.code c) <? 128)%Z; simpl; rewrite IH; reflexivity.
Qed.

Lemma byteLength_pos (w : string) : w <> "" -> (0 < Spec.byteLength w)%nat.
Proof.
  unfold Spec.byteLength. destruct w as [|c w]; [congruence|]. intros _. simpl.
  destruct (Z.of_N (JsString.code c) <? 128)%Z; simpl; lia.
Qed.

Lemma byteLengths_app (l1 l2 : list string) :
  Spec.byteLengths (l1 ++ l2) = (Spec.byteLengths l1 + Spec.byteLengths l2)%nat.
Proof. unfold Spec.byteLengths. now rewrite List.map_app, list_sum_app. Qed.

Lemma byteLength_join (sep : string) (l : list string) :
  Spec.byteLength (JsString.join sep l)
  = (Spec.byteLengths l + (List.length l - 1) * Spec.byteLength sep)%nat.
Proof.
  unfold Spec.byteLengths. induction l as [|x l IH]; [reflexivity|].
  destruct l as [|y l].
  - simpl. lia.
  - change (JsString.join sep (x :: y :: l)) with (x ++ sep ++ JsString.join sep (y :: l)).
    rewrite !byteLength_append, IH. simpl. lia.
Qed.

(** Replacing one string of a joined list by one that is [k] bytes longer
    makes the result [k] bytes longer. *)
Lemma byteLength_join_replace (sep x x' : string) (l1 l2 : list string) (k : nat) :
  Spec.byteLength x' = (Spec.byteLength x + k)%nat ->
  Spec.byteLength (JsString.join sep (l1 ++ x' :: l2))
  = (Spec.byteLength (JsString.join sep (l1 ++ x :: l2)) + k)%nat.
Proof.
  intros Hx. rewrite !byteLength_join, !byteLengths_app, !length_app.
  unfold Spec.byteLengths. simpl. rewrite Hx. lia.
Qed.

End ByteLength.

Section Respacing.
Import ChangeDetector.

Lemma sameStep_refl (l : list TestStep.t) : Forall2 Spec.sameStep l l.
Proof. induction l; constructor; [split; reflexivity | assumption]. Qed.

Lemma insertStep_same (x x' : TestStep.t) (s s' : list TestStep.t) :
  Spec.sameStep x x' -> Forall2 Spec.sameStep s s' ->
  Forall2 Spec.sameStep (insertStep x s) (insertStep x' s').
Proof.
  intros Hx Hs. induction Hs as [|y y' s s' Hy Hs IH]; simpl.
  - constructor; [exact Hx | constructor].
  - destruct Hx as [Hl Ht], Hy as [Hl' Ht']. rewrite <- Hl, <- Hl'.
    destruct (TestStep.lineNumber x <=? TestStep.lineNumber y)%Z.
    + constructor; [now split|]. constructor; [now split | exact Hs].
    + constructor; [now split|]. apply IH.
Qed.

Lemma sortSteps_same (l l' : list TestStep.t) :
  Forall2 Spec.sameStep l l' -> Forall2 Spec.sameStep (sortSteps l) (sortSteps l').
Proof.
  induction 1 as [|x x' l l' Hx Hl IH]; simpl; [constructor|].
  now apply insertStep_same.
Qed.

Lemma stepTexts_same (l l' : list TestStep.t) :
  Forall2 Spec.sameStep l l' -> stepTexts l' = stepTexts l.
Proof.
  intros H. apply sortSteps_same in H. unfold stepTexts.
  induction H as [|x x' s s' [_ Hx] Hs IH]; simpl; [reflexivity|].
  now rewrite Hx, IH.
Qed.

Lemma insert_sameStep (l : list TestStep.t) (i : nat) (st st' : TestStep.t) :
  l !! i = Some st -> Spec.sameStep st st' -> Forall2 Spec.sameStep l (<[ i := st' ]> l).
Proof.
  revert i. induction l as [|x l IH]; intros i Hi Hs; [discriminate|].
  destruct i as [|i]; simpl in *.
  - injection Hi as ->. constructor; [exact Hs | apply sameStep_refl].
  - constructor; [split; reflexivity | now apply IH].
Qed.

Lemma retext_same (st : TestStep.t) (s' : string) :
  JsString.trim s' = JsString.trim (TestStep.text st) ->
  Spec.sameStep st (Spec.retext s' st).
Proof. intros H. split; [reflexivity | now symmetry]. Qed.

Lemma normalizedContent_parts (t t' : ParsedTest.t) :
  objectivePart t' = objectivePart t ->
  preconditionPart t' = preconditionPart t ->
  actionsPart t' = actionsPart t ->
  verificationsPart t' = verificationsPart t ->
  knownIssuePart t' = knownIssuePart t ->
  normalizedContent t' = normalizedContent t.
Proof.
  intros H1 H2 H3 H4 H5. unfold normalizedContent, parts.
  now rewrite H1, H2, H3, H4, H5.
Qed.

Lemma stepsPart_respaced (tag : string) (steps : list TestStep.t) (i : nat)
    (st : TestStep.t) (s' : string) :
  steps !! i = Some st ->
  JsString.trim s' = JsString.trim (TestStep.text st) ->
  match <[ i := Spec.retext s' st ]> steps with
  | [] => []
  | x :: r => [tag ++ JsString.join "|" (stepTexts (x :: r))]
  end
  = match steps with
    | [] => []
    | x :: r => [tag ++ JsString.join "|" (stepTexts (x :: r))]
    end.
Proof.
  intros Hi Ht.
  pose proof (stepTexts_same _ _ (insert_sameStep steps i st _ Hi (retext_same st s' Ht)))
    as E.
  destruct steps as [|x r]; [discriminate|].
  destruct (<[ i := Spec.retext s' st ]> (x :: r)) as [|x' r'] eqn:E'.
  - destruct i; discriminate.
  - now rewrite E.
Qed.

Lemma truthy_same (s s' : string) :
  (s = "" <-> s' = "") -> JsString.truthy s' = JsString.truthy s.
Proof.
  intros [H1 H2]. destruct s, s'; simpl; try reflexivity.
  - now specialize (H1 eq_refl).
  - now specialize (H2 eq_refl).
Qed.

Lemma respaced_content (t t' : ParsedTest.t) :
  Spec.Respaced t t' -> normalizedContent t' = normalizedContent t.
Proof.
  intros H. destruct H as
    [t i st s' Hi Hs | t i st s' Hi Hs | t o o' Ho Hs He | t p p' Hp Hs He
    | t l j p p' Hl Hj Hs | t k k' Hk Hs He];
    apply trim_sameUpToOuterSpace in Hs;
    apply normalizedContent_parts; try reflexivity.
  - unfold actionsPart. cbn [Spec.withActionSteps ParsedTest.actionSteps].
    now apply stepsPart_respaced.
  - unfold verificationsPart. cbn [Spec.withVerificationSteps ParsedTest.verificationSteps].
    now apply stepsPart_respaced.
  - unfold objectivePart. simpl. rewrite Ho, (truthy_same o o' He), Hs. reflexivity.
  - unfold preconditionPart. simpl. rewrite Hp, (truthy_same p p' He), Hs. reflexivity.
  - unfold preconditionPart.
    cbn [Spec.withTags Spec.withPrecondition ParsedTest.jsdocTags JSDocTags.precondition].
    rewrite Hl.
    replace (List.map JsString.trim (<[ j := p' ]> l)) with (List.map JsString.trim l);
      [reflexivity|].
    change (List.map JsString.trim) with (fmap (M := list) JsString.trim).
    rewrite list_fmap_insert, Hs. symmetry. apply list_insert_id.
    now rewrite list_lookup_fmap, Hj.
  - unfold knownIssuePart. simpl. rewrite Hk, (truthy_same k k' He), Hs. reflexivity.
Qed.

Lemma insertStep_weight (x : TestStep.t) (s : list TestStep.t) :
  Spec.weight (insertStep x s)
  = (Spec.byteLength (JsString.trim (TestStep.text x)) + Spec.weight s)%nat.
Proof.
  unfold Spec.weight. induction s as [|y s IH]; simpl; [reflexivity|].
  destruct (TestStep.lineNumber x <=? TestStep.lineNumber y)%Z; simpl; [reflexivity|].
  rewrite IH. lia.
Qed.

Lemma sortSteps_weight (steps : list TestStep.t) : Spec.weight (sortSteps steps) = Spec.weight steps.
Proof.
  induction steps as [|x steps IH]; simpl; [reflexivity|].
  rewrite insertStep_weight, IH. reflexivity.
Qed.

Lemma insertStep_length (x : TestStep.t) (s : list TestStep.t) :
  List.length (insertStep x s) = S (List.length s).
Proof.
  induction s as [|y s IH]; simpl; [reflexivity|].
  destruct (TestStep.lineNumber x <=? TestStep.lineNumber y)%Z; simpl; [reflexivity|].
  now rewrite IH.
Qed.

Lemma sortSteps_length (steps : list TestStep.t) :
  List.length (sortSteps steps) = List.length steps.
Proof.
  induction steps as [|x steps IH]; simpl; [reflexivity|].
  now rewrite insertStep_length, IH.
Qed.

Lemma stepTexts_bytes (steps : list TestStep.t) :
  Spec.byteLengths (stepTexts steps) = Spec.weight steps
  /\ List.length (stepTexts steps) = List.length steps.
Proof.
  unfold stepTexts, Spec.byteLengths. rewrite List.map_map, length_map, sortSteps_length.
  split; [apply sortSteps_weight | reflexivity].
Qed.

Lemma weight_insert (steps : list TestStep.t) (i : nat) (st st' : TestStep.t) (k : nat) :
  steps !! i = Some st ->
  Spec.byteLength (JsString.trim (TestStep.text st'))
  = (Spec.byteLength (JsString.trim (TestStep.text st)) + k)%nat ->
  Spec.weight (<[ i := st' ]> steps) = (Spec.weight steps + k)%nat.
Proof.
  unfold Spec.weight. revert i. induction steps as [|x steps IH]; intros i Hi Hk; [discriminate|].
  destruct i as [|i]; simpl in *.
  - injection Hi as ->. lia.
  - rewrite (IH i Hi Hk). lia.
Qed.

(** A step text that grows by [k] bytes once trimmed makes its section
    grow by [k] bytes. *)
Lemma stepsPart_grows (tag : string) (steps : list TestStep.t) (i : nat)
    (st st' : TestStep.t) (k : nat) :
  steps !! i = Some st ->
  Spec.byteLength (JsString.trim (TestStep.text st'))
  = (Spec.byteLength (JsString.trim (TestStep.text st)) + k)%nat ->
  exists x x',
    match steps with [] => [] | y :: r => [tag ++ JsString.join "|" (stepTexts (y :: r))] end
    = [x]
    /\ match <[ i := st' ]> steps with
       | [] => []
       | y :: r => [tag ++ JsString.join "|" (stepTexts (y :: r))]
       end = [x']
    /\ Spec.byteLength x' = (Spec.byteLength x + k)%nat.
Proof.
  intros Hi Hk.
  pose proof (weight_insert steps i st st' k Hi Hk) as Hw.
  assert (Hlen : List.length (<[ i := st' ]> steps) = List.length steps)
    by apply length_insert.
  destruct (stepTexts_bytes steps) as [B1 L1].
  destruct (stepTexts_bytes (<[ i := st' ]> steps)) as [B2 L2].
  destruct steps as [|y r]; [discriminate|].
  destruct (<[ i := st' ]> (y :: r)) as [|y' r'] eqn:E; [destruct i; discriminate|].
  eexists. eexists. split; [reflexivity|]. split; [reflexivity|].
  rewrite !byteLength_append, !byteLength_join. rewrite B1, B2, L1, L2, Hw, Hlen. lia.
Qed.

Lemma interior_space_grows (a w b : string) :
  Spec.hasInk a -> Spec.hasInk b ->
  Spec.byteLength (JsString.trim (a ++ w ++ b))
  = (Spec.byteLength (JsString.trim (a ++ b)) + Spec.byteLength w)%nat.
Proof.
  intros Ha Hb. destruct (trim_interior a w b Ha Hb) as [-> ->].
  rewrite !byteLength_append. lia.
Qed.

Lemma utf8_differs (s s' : string) (k : nat) :
  Spec.byteLength s' = (Spec.byteLength s + k)%nat -> (0 < k)%nat ->
  JsString.utf8 s' <> JsString.utf8 s.
Proof. unfold Spec.byteLength. intros H Hk E. rewrite E in H. lia. Qed.

Lemma interior_space_in_action (t : ParsedTest.t) (i : nat) (st : TestStep.t)
    (a w b : string) :
  ParsedTest.actionSteps t !! i = Some st ->
  TestStep.text st = a ++ b ->
  Spec.hasInk a -> Spec.hasInk b -> w <> "" ->
  JsString.utf8
    (normalizedContent
       (Spec.withActionSteps t
          (<[ i := Spec.retext (a ++ w ++ b) st ]> (ParsedTest.actionSteps t))))
  <> JsString.utf8 (normalizedContent t).
Proof.
  intros Hi Ht Ha Hb Hw.
  apply utf8_differs with (k := Spec.byteLength w); [|now apply byteLength_pos].
  assert (Hk : Spec.byteLength (JsString.trim (TestStep.text (Spec.retext (a ++ w ++ b) st)))
               = (Spec.byteLength (JsString.trim (TestStep.text st)) + Spec.byteLength w)%nat).
  { simpl. rewrite Ht. now apply interior_space_grows. }
  destruct (stepsPart_grows "actions:" _ i st _ _ Hi Hk) as (x & x' & E & E' & Hx).
  unfold normalizedContent, parts.
  unfold actionsPart at 1 2. cbn [Spec.withActionSteps ParsedTest.actionSteps].
  rewrite E, E'.
  change (objectivePart
            (Spec.withActionSteps t
               (<[ i := Spec.retext (a ++ w ++ b) st ]> (ParsedTest.actionSteps t))))
    with (objectivePart t).
  change (preconditionPart
            (Spec.withActionSteps t
               (<[ i := Spec.retext (a ++ w ++ b) st ]> (ParsedTest.actionSteps t))))
    with (preconditionPart t).
  change (verificationsPart
            (Spec.withActionSteps t
               (<[ i := Spec.retext (a ++ w ++ b) st ]> (ParsedTest.actionSteps t))))
    with (verificationsPart t).
  change (knownIssuePart
            (Spec.withActionSteps t
               (<[ i := Spec.retext (a ++ w ++ b) st ]> (ParsedTest.actionSteps t))))
    with (knownIssuePart t).
  rewrite !(app_assoc (objectivePart t) (preconditionPart t)).
  now apply byteLength_join_replace.
Qed.

Lemma interior_space_in_verification (t : ParsedTest.t) (i : nat) (st : TestStep.t)
    (a w b : string) :
  ParsedTest.verificationSteps t !! i = Some st ->
  TestStep.text st = a ++ b ->
  Spec.hasInk a -> Spec.hasInk b -> w <> "" ->
  JsString.utf8
    (normalizedContent
       (Spec.withVerificationSteps t
          (<[ i := Spec.retext (a ++ w ++ b) st ]> (ParsedTest.verificationSteps t))))
  <> JsString.utf8 (normalizedContent t).
Proof.
  intros Hi Ht Ha Hb Hw.
  apply utf8_differs with (k := Spec.byteLength w); [|now apply byteLength_pos].
  assert (Hk : Spec.byteLength (JsString.trim (TestStep.text (Spec.retext (a ++ w ++ b) st)))
               = (Spec.byteLength (JsString.trim (TestStep.text st)) + Spec.byteLength w)%nat).
  { simpl. rewrite Ht. now apply interior_space_grows. }
  destruct (stepsPart_grows "verifications:" _ i st _ _ Hi Hk) as (x & x' & E & E' & Hx).
  unfold normalizedContent, parts.
  unfold verificationsPart at 1 2.
  cbn [Spec.withVerificationSteps ParsedTest.verificationSteps].
  rewrite E, E'.
  change (objectivePart
            (Spec.withVerificationSteps t
               (<[ i := Spec.retext (a ++ w ++ b) st ]> (ParsedTest.verificationSteps t))))
    with (objectivePart t).
  change (preconditionPart
            (Spec.withVerificationSteps t
               (<[ i := Spec.retext (a ++ w ++ b) st ]> (ParsedTest.verificationSteps t))))
    with (preconditionPart t).
  change (actionsPart
            (Spec.withVerificationSteps t
               (<[ i := Spec.retext (a ++ w ++ b) st ]> (ParsedTest.verificationSteps t))))
    with (actionsPart t).
  change (knownIssuePart
            (Spec.withVerificationSteps t
               (<[ i := Spec.retext (a ++ w ++ b) st ]> (ParsedTest.verificationSteps t))))
    with (knownIssuePart t).
  rewrite !(app_assoc (objectivePart t) (preconditionPart t)).
  rewrite !(app_assoc (objectivePart t ++ preconditionPart t)%list (actionsPart t)).
  now apply byteLength_join_replace.
Qed.

End Respacing.

(** C5 as stated fails on the code.  An objective that is the empty string
    contributes no section; the same objective with one space added
    contributes the section [objective:], and the fingerprint changes.  (The
    known issue and a precondition given as one string behave alike.) *)
Lemma padding_an_empty_objective_changes_hash :
  let t := ParsedTest.mk "MM-T1: Open the channel" (Some "MM-T1") TypeTest
             (JSDocTags.mk (Some "") None None None)
             [TestStep.mk "Open the menu" 4] [TestStep.mk "The channel is shown" 8] 1 in
  let t' := Spec.withTags t (Spec.withObjective (ParsedTest.jsdocTags t) (Some " ")) in
  Spec.sameUpToOuterSpace "" " "
  /\ ChangeDetector.calculateHash t' <> ChangeDetector.calculateHash t.
Proof.
  cbv zeta. split.
  - left. exists " ", "". repeat split.
  - intros H. vm_compute in H. discriminate.
Qed.

(** C5, amended.  Replacing a step's text, the objective, a precondition or
    the known issue by the same string with leading and trailing white space
    added or removed leaves the fingerprint unchanged, provided that an
    objective, a known issue or a precondition given as one string is not
    turned from empty into non-empty or back.  Inserting a run of white space
    inside a step's text, between two of its characters that are no white
    space, changes the bytes that are hashed: interior white space survives
    canonicalization. *)
Theorem calculateHash_white_space :
  (forall t t', Spec.Respaced t t' ->
                ChangeDetector.calculateHash t' = ChangeDetector.calculateHash t)
  /\ (forall t i st a w b,
        ParsedTest.actionSteps t !! i = Some st ->
        TestStep.text st = a ++ b ->
        Spec.hasInk a -> Spec.hasInk b ->
        w <> "" -> JsString.all JsString.isWhiteSpace w = true ->
        JsString.utf8
          (ChangeDetector.normalizedContent
             (Spec.withActionSteps t
                (<[ i := Spec.retext (a ++ w ++ b) st ]> (ParsedTest.actionSteps t))))
        <> JsString.utf8 (ChangeDetector.normalizedContent t))
  /\ (forall t i st a w b,
        ParsedTest.verificationSteps t !! i = Some st ->
        TestStep.text st = a ++ b ->
        Spec.hasInk a -> Spec.hasInk b ->
        w <> "" -> JsString.all JsString.isWhiteSpace w = true ->
        JsString.utf8
          (ChangeDetector.normalizedContent
             (Spec.withVerificationSteps t
                (<[ i := Spec.retext (a ++ w ++ b) st ]> (ParsedTest.verificationSteps t))))
        <> JsString.utf8 (ChangeDetector.normalizedContent t)).
Proof.
  split; [|split].
  - intros t t' H. unfold ChangeDetector.calculateHash.
    now rewrite (respaced_content t t' H).
  - intros t i st a w b Hi Ht Ha Hb Hw _. now apply interior_space_in_action.
  - intros t i st a w b Hi Ht Ha Hb Hw _. now apply interior_space_in_verification.
Qed.

(** Two steps that differ by a run of interior spaces: the digests differ. *)
Example interior_spaces_change_the_digest :
  ChangeDetector.calculateHash
    (ParsedTest.mk "MM-T1: Open the channel" (Some "MM-T1") TypeTest JSDocTags.empty
       [TestStep.mk "Open the   menu" 4] [] 1)
  <> ChangeDetector.calculateHash
       (ParsedTest.mk "MM-T1: Open the channel" (Some "MM-T1") TypeTest JSDocTags.empty
          [TestStep.mk "Open the menu" 4] [] 1).
Proof. intros H. vm_compute in H. discriminate. Qed.

(* ===================================================================== *)
(** ** The separators of the hashed string *)
(* ===================================================================== *)

Section Separators.
Import ChangeDetector.

Lemma contains_append (c : ascii) (a b : string) :
  JsString.contains c (a ++ b) = (JsString.contains c a || JsString.contains c b)%bool.
Proof.
  induction a as [|x a IH]; simpl; [reflexivity|].
  rewrite IH. now rewrite orb_assoc.
Qed.

(** Two strings free of [c], each followed by [c], are told apart by the
    first [c]. *)
Lemma split_at_char (c : ascii) (x y r1 r2 : string) :
  JsString.contains c x = false -> JsString.contains c y = false ->
  x ++ String c r1 = y ++ String c r2 -> x = y /\ r1 = r2.
Proof.
  revert y. induction x as [|a x IH]; intros [|b y] Hx Hy H; simpl in *.
  - injection H as ->. auto.
  - injection H as <- _. rewrite Ascii.eqb_refl in Hy. discriminate.
  - injection H as -> _. rewrite Ascii.eqb_refl in Hx. discriminate.
  - injection H as <- H.
    apply orb_false_iff in Hx. destruct Hx as [_ Hx].
    apply orb_false_iff in Hy. destruct Hy as [_ Hy].
    destruct (IH y Hx Hy H) as [-> ->]. auto.
Qed.

Lemma contains_separator (c : ascii) (y r : string) :
  JsString.contains c (y ++ String c r) = true.
Proof. rewrite contains_append. simpl. rewrite Ascii.eqb_refl. apply orb_true_r. Qed.

Lemma join_char_inj (c : ascii) (l1 l2 : list string) :
  Forall (fun s => JsString.contains c s = false) l1 ->
  Forall (fun s => JsString.contains c s = false) l2 ->
  l1 <> [] -> l2 <> [] ->
  JsString.join (String c "") l1 = JsString.join (String c "") l2 -> l1 = l2.
Proof.
  revert l2. induction l1 as [|x l1 IH]; intros l2 H1 H2 N1 N2 H; [congruence|].
  destruct l2 as [|y l2]; [congruence|].
  inversion H1 as [|? ? Hx H1']; subst. inversion H2 as [|? ? Hy H2']; subst.
  destruct l1 as [|x' l1], l2 as [|y' l2].
  - simpl in H. now subst.
  - change (JsString.join (String c "") [x]) with x in H.
    change (JsString.join (String c "") (y :: y' :: l2))
      with (y ++ String c (JsString.join (String c "") (y' :: l2))) in H.
    rewrite H, contains_separator in Hx. discriminate.
  - change (JsString.join (String c "") [y]) with y in H.
    change (JsString.join (String c "") (x :: x' :: l1))
      with (x ++ String c (JsString.join (String c "") (x' :: l1))) in H.
    rewrite <- H, contains_separator in Hy. discriminate.
  - change (JsString.join (String c "") (x :: x' :: l1))
      with (x ++ String c (JsString.join (String c "") (x' :: l1))) in H.
    change (JsString.join (String c "") (y :: y' :: l2))
      with (y ++ String c (JsString.join (String c "") (y' :: l2))) in H.
    destruct (split_at_char c x y _ _ Hx Hy H) as [-> HJ].
    f_equal. apply IH; auto; congruence.
Qed.

Lemma contains_join (c d : ascii) (l : list string) :
  Ascii.eqb c d = false ->
  Forall (fun s => JsString.contains c s = false) l ->
  JsString.contains c (JsString.join (String d "") l) = false.
Proof.
  intros Hcd H. induction H as [|x l Hx Hl IH]; [reflexivity|].
  destruct l as [|y l]; [exact Hx|].
  change (JsString.join (String d "") (x :: y :: l))
    with (x ++ String d (JsString.join (String d "") (y :: l))).
  rewrite contains_append. cbn [JsString.contains]. rewrite Hx, Hcd, IH. reflexivity.
Qed.

Lemma stepsPart_sections (tag : string) (steps : list TestStep.t) :
  match steps with
  | [] => []
  | x :: r => [tag ++ JsString.join "|" (stepTexts (x :: r))]
  end
  = Spec.optPart tag (Spec.listBody (stepTexts steps)).
Proof.
  destruct steps as [|x r]; [reflexivity|].
  destruct (stepTexts_bytes (x :: r)) as [_ HL].
  destruct (stepTexts (x :: r)); [discriminate | reflexivity].
Qed.

Lemma textPart_sections (tag : string) (o : option string) :
  match o with
  | Some s => if JsString.truthy s then [tag ++ JsString.trim s] else []
  | None => []
  end
  = Spec.optPart tag (Spec.optText o).
Proof. destruct o as [s|]; simpl; [destruct (JsString.truthy s)|]; reflexivity. Qed.

(** The hashed string is the sections of the canonical content joined by
    line feeds. *)
Lemma parts_sections (t : ParsedTest.t) :
  JSDocTags.precondition (ParsedTest.jsdocTags t) <> Some (Many []) ->
  parts t = Spec.sections (Spec.canonical t).
Proof.
  intros Hp. unfold parts, Spec.sections, Spec.canonical.
  cbn [Spec.c_objective Spec.c_preconditions Spec.c_actions Spec.c_verifications
       Spec.c_knownIssue].
  assert (Eo : objectivePart t
               = Spec.optPart "objective:"
                   (Spec.optText (JSDocTags.objective (ParsedTest.jsdocTags t))))
    by (unfold objectivePart; apply textPart_sections).
  assert (Ek : knownIssuePart t
               = Spec.optPart "knownIssue:"
                   (Spec.optText (JSDocTags.knownIssue (ParsedTest.jsdocTags t))))
    by (unfold knownIssuePart; apply textPart_sections).
  assert (Ea : actionsPart t
               = Spec.optPart "actions:"
                   (Spec.listBody (stepTexts (ParsedTest.actionSteps t))))
    by (unfold actionsPart; apply stepsPart_sections).
  assert (Ev : verificationsPart t
               = Spec.optPart "verifications:"
                   (Spec.listBody (stepTexts (ParsedTest.verificationSteps t))))
    by (unfold verificationsPart; apply stepsPart_sections).
  rewrite Eo, Ek, Ea, Ev. do 2 f_equal.
  unfold preconditionPart.
  destruct (JSDocTags.precondition (ParsedTest.jsdocTags t)) as [[s|[|x l]]|];
    try reflexivity.
  - destruct (JsString.truthy s); reflexivity.
  - congruence.
Qed.

End Separators.

Section Injectivity.
Import ChangeDetector.

Lemma Forall_optPart (P : string -> Prop) (tag : string) (b : option string) :
  (forall x, P (tag ++ x)) -> Forall P (Spec.optPart tag b).
Proof. intros H. destruct b; simpl; constructor; [apply H | constructor]. Qed.

(** A section is recognised by the first letter of its tag. *)
Lemma optPart_peel (c : ascii) (tag : string) (b1 b2 : option string)
    (r1 r2 : list string) :
  Forall (fun s => ~ Spec.headIs c s) r1 ->
  Forall (fun s => ~ Spec.headIs c s) r2 ->
  (Spec.optPart (String c tag) b1 ++ r1 = Spec.optPart (String c tag) b2 ++ r2)%list ->
  b1 = b2 /\ r1 = r2.
Proof.
  intros H1 H2 H. destruct b1 as [x|], b2 as [y|]; simpl in H.
  - injection H as H ->. apply append_inv_head in H. now subst.
  - subst r2. inversion H2 as [|? ? Hh _]; subst. exfalso. now apply Hh.
  - subst r1. inversion H1 as [|? ? Hh _]; subst. exfalso. now apply Hh.
  - auto.
Qed.

Lemma listBody_inj (l1 l2 : list string) :
  Forall Spec.barFree l1 -> Forall Spec.barFree l2 ->
  Spec.listBody l1 = Spec.listBody l2 -> l1 = l2.
Proof.
  intros H1 H2 H. destruct l1 as [|x l1], l2 as [|y l2]; try discriminate; [reflexivity|].
  assert (HJ : JsString.join "|" (x :: l1) = JsString.join "|" (y :: l2))
    by now apply (inj Some).
  now apply (join_char_inj "|"%char) in HJ.
Qed.

Lemma separable_lists (c : Spec.Canonical) :
  Spec.separable c ->
  Forall Spec.barFree (Spec.c_preconditions c)
  /\ Forall Spec.barFree (Spec.c_actions c)
  /\ Forall Spec.barFree (Spec.c_verifications c)
  /\ Forall Spec.lineFree (Spec.c_preconditions c)
  /\ Forall Spec.lineFree (Spec.c_actions c)
  /\ Forall Spec.lineFree (Spec.c_verifications c).
Proof.
  intros (_ & _ & H). rewrite !Forall_app in H. destruct H as (Hp & Ha & Hv).
  repeat split; eapply Forall_impl; eauto; simpl; tauto.
Qed.

Lemma sections_inj (c1 c2 : Spec.Canonical) :
  Spec.separable c1 -> Spec.separable c2 ->
  Spec.sections c1 = Spec.sections c2 -> c1 = c2.
Proof.
  intros S1 S2 H.
  destruct (separable_lists c1 S1) as (Bp1 & Ba1 & Bv1 & _).
  destruct (separable_lists c2 S2) as (Bp2 & Ba2 & Bv2 & _).
  destruct c1 as [o1 p1 a1 v1 k1], c2 as [o2 p2 a2 v2 k2].
  unfold Spec.sections in H. simpl in *.
  apply optPart_peel in H;
    [ | repeat (rewrite Forall_app; split); apply Forall_optPart; intros x; simpl; discriminate
      | repeat (rewrite Forall_app; split); apply Forall_optPart; intros x; simpl; discriminate ].
  destruct H as [-> H].
  apply optPart_peel in H;
    [ | repeat (rewrite Forall_app; split); apply Forall_optPart; intros x; simpl; discriminate
      | repeat (rewrite Forall_app; split); apply Forall_optPart; intros x; simpl; discriminate ].
  destruct H as [Hp H].
  apply optPart_peel in H;
    [ | repeat (rewrite Forall_app; split); apply Forall_optPart; intros x; simpl; discriminate
      | repeat (rewrite Forall_app; split); apply Forall_optPart; intros x; simpl; discriminate ].
  destruct H as [Ha H].
  apply optPart_peel in H;
    [ | apply Forall_optPart; intros x; simpl; discriminate
      | apply Forall_optPart; intros x; simpl; discriminate ].
  destruct H as [Hv H].
  rewrite <- (app_nil_r (Spec.optPart "knownIssue:" k1)) in H.
  rewrite <- (app_nil_r (Spec.optPart "knownIssue:" k2)) in H.
  apply optPart_peel in H; [ | constructor | constructor ].
  destruct H as [-> _].
  apply listBody_inj in Hp; auto. apply listBody_inj in Ha; auto.
  apply listBody_inj in Hv; auto. now subst.
Qed.

Lemma listBody_lineFree (l : list string) (b : string) :
  Forall Spec.lineFree l -> Spec.listBody l = Some b -> Spec.lineFree b.
Proof.
  intros Hl H. destruct l as [|x l]; [discriminate|].
  cbn [Spec.listBody] in H. apply (inj Some) in H. rewrite <- H.
  now apply (contains_join Spec.LFchar "|"%char).
Qed.

(** Every section is a tag followed by a body without line feed. *)
Lemma sections_clean (c : Spec.Canonical) :
  Spec.separable c ->
  Forall (fun s => JsString.contains Spec.LFchar s = false /\ s <> "") (Spec.sections c).
Proof.
  intros S. destruct (separable_lists c S) as (_ & _ & _ & Lp & La & Lv).
  destruct S as (So & Sk & _).
  assert (P : forall tag body,
             JsString.contains Spec.LFchar tag = false -> tag <> "" ->
             (forall b, body = Some b -> Spec.lineFree b) ->
             Forall (fun s => JsString.contains Spec.LFchar s = false /\ s <> "")
               (Spec.optPart tag body)).
  { intros tag [b|] Ht Hne Hb; simpl; constructor; [|constructor].
    split.
    - rewrite contains_append, Ht. now apply Hb.
    - destruct tag; [congruence | discriminate]. }
  unfold Spec.sections. repeat (rewrite Forall_app; split);
    apply P; try reflexivity; try discriminate; auto.
  - intros b. now apply listBody_lineFree.
  - intros b. now apply listBody_lineFree.
  - intros b. now apply listBody_lineFree.
Qed.

Lemma join_nonempty (sep x : string) (r : list string) :
  x <> "" -> JsString.join sep (x :: r) <> "".
Proof.
  intros Hx. destruct r as [|y r]; [exact Hx|].
  change (JsString.join sep (x :: y :: r)) with (x ++ sep ++ JsString.join sep (y :: r)).
  destruct x; [congruence | discriminate].
Qed.

Lemma join_lines_inj (l1 l2 : list string) :
  Forall (fun s => JsString.contains Spec.LFchar s = false /\ s <> "") l1 ->
  Forall (fun s => JsString.contains Spec.LFchar s = false /\ s <> "") l2 ->
  JsString.join LF l1 = JsString.join LF l2 -> l1 = l2.
Proof.
  intros H1 H2 H.
  destruct l1 as [|x l1], l2 as [|y l2]; [reflexivity | | |].
  - inversion H2 as [|? ? [_ Hy] _]; subst.
    exfalso. apply (join_nonempty LF y l2 Hy). now symmetry.
  - inversion H1 as [|? ? [_ Hx] _]; subst.
    exfalso. now apply (join_nonempty LF x l1 Hx).
  - apply (join_char_inj Spec.LFchar); try discriminate; try exact H.
    + eapply Forall_impl; [exact H1 | simpl; tauto].
    + eapply Forall_impl; [exact H2 | simpl; tauto].
Qed.

Lemma normalizedContent_inj (t1 t2 : ParsedTest.t) :
  Spec.wellSeparated t1 -> Spec.wellSeparated t2 ->
  normalizedContent t1 = normalizedContent t2 ->
  Spec.canonical t1 = Spec.canonical t2.
Proof.
  intros [S1 P1] [S2 P2] H. unfold normalizedContent in H.
  rewrite (parts_sections t1 P1), (parts_sections t2 P2) in H.
  apply sections_inj; auto.
  apply join_lines_inj; auto using sections_clean.
Qed.

End Injectivity.

(** C2 as stated fails on the code.  The separators are written into the
    hashed string as they are and the texts are not escaped.  One action step
    ["a|b"] and the two action steps ["a"], ["b"] have different canonical
    contents and one hashed string; so have the objective made of the two
    lines ["a"] and ["knownIssue:b"] and the objective ["a"] with the known
    issue ["b"]. *)
Lemma separators_are_ambiguous :
  (let t1 := ParsedTest.mk "MM-T1: Open the channel" (Some "MM-T1") TypeTest JSDocTags.empty
               [TestStep.mk "a|b" 1] [] 1 in
   let t2 := ParsedTest.mk "MM-T1: Open the channel" (Some "MM-T1") TypeTest JSDocTags.empty
               [TestStep.mk "a" 1; TestStep.mk "b" 2] [] 1 in
   Spec.canonical t1 <> Spec.canonical t2
   /\ ChangeDetector.normalizedContent t1 = ChangeDetector.normalizedContent t2)
  /\ (let t3 := ParsedTest.mk "MM-T1: Open the channel" (Some "MM-T1") TypeTest
                  (JSDocTags.mk (Some ("a" ++ LF ++ "knownIssue:b")) None None None) [] [] 1 in
      let t4 := ParsedTest.mk "MM-T1: Open the channel" (Some "MM-T1") TypeTest
                  (JSDocTags.mk (Some "a") None (Some "b") None) [] [] 1 in
      Spec.canonical t3 <> Spec.canonical t4
      /\ ChangeDetector.normalizedContent t3 = ChangeDetector.normalizedContent t4).
Proof.
  cbv zeta. split; split; try reflexivity; intros H; vm_compute in H; discriminate.
Qed.

(** C2, amended.  The canonicalization is injective on the tests whose
    trimmed texts hold no separator: when no objective and no known issue
    holds a line feed, no precondition and no step text holds a line feed or
    a bar, and no precondition is given as an empty array, two tests with
    different canonical contents (objective, preconditions in order, action
    step texts in line order, verification step texts in line order, known
    issue, absent sections left out) have different hashed strings. *)
Theorem canonicalization_injective_without_separators (t1 t2 : ParsedTest.t) :
  Spec.wellSeparated t1 -> Spec.wellSeparated t2 ->
  Spec.canonical t1 <> Spec.canonical t2 ->
  ChangeDetector.normalizedContent t1 <> ChangeDetector.normalizedContent t2.
Proof.
  intros W1 W2 Hne H. apply Hne. now apply normalizedContent_inj.
Qed.

Lemma canonicalization_injective_without_separators_witness :
  let t1 := ParsedTest.mk "MM-T1: Open the channel" (Some "MM-T1") TypeTest
              (JSDocTags.mk (Some "Open a channel") (Some (Many ["Logged in"; "In a team"]))
                 None None)
              [TestStep.mk "Open the menu" 4] [TestStep.mk "The channel is shown" 8] 1 in
  let t2 := ParsedTest.mk "MM-T1: Open the channel" (Some "MM-T1") TypeTest
              (JSDocTags.mk (Some "Open a channel") (Some (Single "Logged in"))
                 None None)
              [TestStep.mk "Open the menu" 4; TestStep.mk "Pick the channel" 6]
              [TestStep.mk "The channel is shown" 8] 1 in
  ChangeDetector.normalizedContent t1 <> ChangeDetector.normalizedContent t2.
Proof.
  cbv zeta.
  apply canonicalization_injective_without_separators.
  - split; [|discriminate]. repeat split.
    + intros o H. vm_compute in H. injection H as <-. reflexivity.
    + intros k H. discriminate.
    + vm_compute. repeat constructor.
  - split; [|discriminate]. repeat split.
    + intros o H. vm_compute in H. injection H as <-. reflexivity.
    + intros k H. discriminate.
    + vm_compute. repeat constructor.
  - intros H. vm_compute in H. discriminate.
Defined.

(* ===================================================================== *)
(** ** The aggregate metrics *)
(* ===================================================================== *)

Section Binary64Facts.
Local Open Scope Z_scope.

Lemma scale_positive (n d e : Z) :
  0 < n -> 0 < d -> 0 < fst (Binary64.scale n d e) /\ 0 < snd (Binary64.scale n d e).
Proof.
  intros Hn Hd. unfold Binary64.scale.
  destruct (Z.ltb_spec e 0); simpl.
  - assert (0 < 2 ^ (- e)) by (apply Z.pow_pos_nonneg; lia). split; nia.
  - assert (0 < 2 ^ e) by (apply Z.pow_pos_nonneg; lia). split; nia.
Qed.

(** One step down in the exponent doubles the scaled fraction. *)
Lemma scale_pred (n d e : Z) :
  fst (Binary64.scale n d (e - 1)) * snd (Binary64.scale n d e)
  = 2 * fst (Binary64.scale n d e) * snd (Binary64.scale n d (e - 1)).
Proof.
  unfold Binary64.scale.
  destruct (Z.ltb_spec (e - 1) 0); destruct (Z.ltb_spec e 0); simpl; try lia.
  - replace (- (e - 1)) with (Z.succ (- e)) by lia.
    rewrite Z.pow_succ_r by lia. lia.
  - assert (e = 0) by lia. subst e. simpl. lia.
  - replace e with (Z.succ (e - 1)) at 1 by lia.
    rewrite Z.pow_succ_r by lia. lia.
Qed.

Lemma scale_log2 (n d : Z) :
  0 < n -> 0 < d ->
  2 ^ 51 * snd (Binary64.scale n d (Z.log2 n - Z.log2 d - 52))
  <= fst (Binary64.scale n d (Z.log2 n - Z.log2 d - 52)).
Proof.
  intros Hn Hd.
  destruct (Z.log2_spec n Hn) as [Ln _]. destruct (Z.log2_spec d Hd) as [_ Ld].
  pose proof (Z.log2_nonneg n) as Nn. pose proof (Z.log2_nonneg d) as Nd.
  set (ln := Z.log2 n) in *. set (ld := Z.log2 d) in *.
  unfold Binary64.scale. destruct (Z.ltb_spec (ln - ld - 52) 0); simpl.
  - assert (E : 2 ^ ln * 2 ^ (- (ln - ld - 52)) = 2 ^ 51 * 2 ^ Z.succ ld).
    { rewrite <- !Z.pow_add_r by lia. f_equal. lia. }
    assert (0 < 2 ^ (- (ln - ld - 52))) by (apply Z.pow_pos_nonneg; lia).
    nia.
  - assert (E : 2 ^ 51 * 2 ^ Z.succ ld * 2 ^ (ln - ld - 52) = 2 ^ ln).
    { rewrite <- !Z.pow_add_r by lia. f_equal. lia. }
    assert (0 < 2 ^ (ln - ld - 52)) by (apply Z.pow_pos_nonneg; lia).
    nia.
Qed.

Lemma exponent_lower (n d : Z) :
  0 < n -> 0 < d ->
  2 ^ 52 * snd (Binary64.scale n d (Binary64.exponent n d))
  <= fst (Binary64.scale n d (Binary64.exponent n d)).
Proof.
  intros Hn Hd. unfold Binary64.exponent.
  set (e0 := Z.log2 n - Z.log2 d - 52).
  pose proof (scale_log2 n d Hn Hd) as H0. fold e0 in H0.
  pose proof (scale_pred n d e0) as HP.
  destruct (scale_positive n d e0 Hn Hd) as [Pa0 Pb0].
  destruct (scale_positive n d (e0 - 1) Hn Hd) as [Pa Pb].
  destruct (Binary64.scale n d e0) as [a0 b0] eqn:E0. simpl in *.
  destruct (Z.ltb_spec a0 (2 ^ 52 * b0)).
  - destruct (Binary64.scale n d (e0 - 1)) as [a b] eqn:E1. simpl in *.
    change (2 ^ 52) with (2 * 2 ^ 51). nia.
  - rewrite E0. simpl. lia.
Qed.

Lemma roundHalfEven_upper (a b N : Z) :
  0 < b -> a <= N * b -> Binary64.roundHalfEven a b <= N.
Proof.
  intros Hb H. unfold Binary64.roundHalfEven.
  pose proof (Z.div_mod a b ltac:(lia)) as E.
  pose proof (Z.mod_pos_bound a b Hb) as R.
  destruct (Z.ltb_spec (2 * (a mod b)) b); [nia|].
  destruct (Z.ltb_spec b (2 * (a mod b))); [nia|].
  destruct (Z.even (a / b)); nia.
Qed.

Lemma roundHalfEven_nonneg (a b : Z) :
  0 < b -> 0 <= a -> 0 <= Binary64.roundHalfEven a b.
Proof.
  intros Hb Ha. unfold Binary64.roundHalfEven.
  pose proof (Z.div_pos a b Ha Hb).
  destruct (Z.ltb_spec (2 * (a mod b)) b); [lia|].
  destruct (Z.ltb_spec b (2 * (a mod b))); [lia|].
  destruct (Z.even (a / b)); lia.
Qed.

(** Rounding does not cross a bound that is an integer of at most 52 bits. *)
Lemma roundPositive_upper (n d B : Z) :
  0 < n -> 0 < d -> 0 < B <= 2 ^ 52 -> n <= B * d ->
  0 <= fst (Binary64.roundPositive n d)
  /\ 0 < snd (Binary64.roundPositive n d)
  /\ fst (Binary64.roundPositive n d) <= B * snd (Binary64.roundPositive n d).
Proof.
  intros Hn Hd HB H. unfold Binary64.roundPositive.
  pose proof (exponent_lower n d Hn Hd) as HL.
  destruct (scale_positive n d (Binary64.exponent n d) Hn Hd) as [Pa Pb].
  set (e := Binary64.exponent n d) in *.
  assert (HS : Binary64.scale n d e
               = if e <? 0 then (n * 2 ^ (- e), d) else (n, d * 2 ^ e)) by reflexivity.
  destruct (Binary64.scale n d e) as [a b] eqn:E. simpl in *.
  pose proof (roundHalfEven_nonneg a b Pb ltac:(lia)) as M0.
  unfold Binary64.ofMantissa.
  destruct (Z.ltb_spec e 0); simpl.
  - injection HS as -> ->.
    assert (P : 0 < 2 ^ (- e)) by (apply Z.pow_pos_nonneg; lia).
    repeat split; try lia.
    apply roundHalfEven_upper; [lia | nia].
  - injection HS as -> ->.
    assert (P : 0 < 2 ^ e) by (apply Z.pow_pos_nonneg; lia).
    assert (P1 : 2 ^ e = 1) by nia.
    rewrite P1 in *. repeat split; try lia.
    assert (Binary64.roundHalfEven n (d * 1) <= B)
      by (apply roundHalfEven_upper; [lia | nia]).
    lia.
Qed.

Lemma round_upper (n d B : Z) :
  0 <= n -> 0 < d -> 0 < B <= 2 ^ 52 -> n <= B * d ->
  0 <= fst (Binary64.round n d)
  /\ 0 < snd (Binary64.round n d)
  /\ fst (Binary64.round n d) <= B * snd (Binary64.round n d).
Proof.
  intros Hn Hd HB H. unfold Binary64.round.
  destruct (Z.eqb_spec n 0); [simpl; lia|].
  destruct (Z.ltb_spec 0 n); [|lia].
  apply roundPositive_upper; auto; lia.
Qed.

Lemma percentage_range (part total : Z) :
  0 <= part <= total -> 0 < total -> 0 <= Scanner.percentage part total <= 100.
Proof.
  intros Hp Ht. unfold Scanner.percentage, Binary64.div, Binary64.mul, Binary64.ofZ.
  cbn [fst snd].
  replace (1 * total <? 0) with false by (symmetry; apply Z.ltb_ge; lia).
  destruct (round_upper (part * 1) (1 * total) 1) as (Q0 & Q1 & Q2); try lia.
  set (q := Binary64.round (part * 1) (1 * total)) in *.
  destruct (round_upper (fst q * 100) (snd q * 1) 100) as (P0 & P1 & P2); try lia.
  set (p := Binary64.round (fst q * 100) (snd q * 1)) in *.
  unfold Binary64.Math_round. split.
  - apply Z.div_pos; lia.
  - assert ((2 * fst p + snd p) / (2 * snd p) < 101); [|lia].
    apply Z.div_lt_upper_bound; lia.
Qed.

End Binary64Facts.

Section Metrics.
Local Open Scope Z_scope.

Lemma metrics_of_no_tests (fileResults : list FileResult.t) :
  Scanner.totalTests (Scanner.calculateMetrics fileResults) = 0 ->
  Scanner.syncCoverage (Scanner.calculateMetrics fileResults) = 0
  /\ Scanner.documentationCompliance (Scanner.calculateMetrics fileResults) = 0.
Proof.
  unfold Scanner.calculateMetrics. cbn [Scanner.totalTests Scanner.syncCoverage
    Scanner.documentationCompliance]. intros ->. split; reflexivity.
Qed.

(** The quotient is rounded before it is multiplied: 29 of 200 is 14.5
    per cent, and is reported as 14. *)
Example percentage_29_of_200 : Scanner.percentage 29 200 = 14.
Proof. vm_compute. reflexivity. Qed.

Example percentage_of_a_single_test :
  Scanner.percentage 1 1 = 100 /\ Scanner.percentage 0 1 = 0
  /\ Scanner.percentage 1 3 = 33 /\ Scanner.percentage 2 3 = 67.
Proof. vm_compute. repeat split. Qed.

Lemma sumOf_from (f : FileResult.t -> Z) (l : list FileResult.t) (a : Z) :
  fold_left (fun acc r => acc + f r) l a = a + Scanner.sumOf f l.
Proof.
  unfold Scanner.sumOf. revert a. induction l as [|r l IH]; intros a; simpl; [lia|].
  rewrite IH, (IH (0 + f r)). lia.
Qed.

Lemma sumOf_cons (f : FileResult.t -> Z) (r : FileResult.t) (l : list FileResult.t) :
  Scanner.sumOf f (r :: l) = f r + Scanner.sumOf f l.
Proof. unfold Scanner.sumOf at 1. simpl. now rewrite sumOf_from. Qed.

(** Over consistent results the sums are those of a partition too. *)
Lemma sums_consistent (l : list FileResult.t) :
  Forall Spec.consistent l ->
  0 <= Scanner.sumOf FileResult.syncedCount l
  /\ 0 <= Scanner.sumOf FileResult.unmappedCount l
  /\ 0 <= Scanner.sumOf FileResult.outOfSyncCount l
  /\ 0 <= Scanner.sumOf FileResult.validationErrorCount l
  /\ Scanner.sumOf FileResult.syncedCount l + Scanner.sumOf FileResult.unmappedCount l
     + Scanner.sumOf FileResult.outOfSyncCount l
     + Scanner.sumOf FileResult.validationErrorCount l
     = Scanner.sumOf FileResult.testCount l.
Proof.
  induction 1 as [|r l (H1 & H2 & H3 & H4 & H5) _ IH].
  - repeat split; reflexivity.
  - rewrite !sumOf_cons. lia.
Qed.

(** Without a synthetic result both metrics are percentages. *)
Lemma metrics_in_range (l : list FileResult.t) :
  Forall Spec.consistent l ->
  0 <= Scanner.syncCoverage (Scanner.calculateMetrics l) <= 100
  /\ 0 <= Scanner.documentationCompliance (Scanner.calculateMetrics l) <= 100.
Proof.
  intros H. apply sums_consistent in H. destruct H as (H1 & H2 & H3 & H4 & H5).
  unfold Scanner.calculateMetrics.
  cbn [Scanner.syncCoverage Scanner.documentationCompliance].
  destruct (Z.ltb_spec 0 (Scanner.sumOf FileResult.testCount l)); [|lia].
  split; apply percentage_range; lia.
Qed.

Lemma detectSyncStatus_states (config : ValidationConfig.t) (test : ParsedTest.t)
    (mapping : option TestCaseMapping.t) (currentHash : string) :
  Scanner.detectSyncStatus config test mapping currentHash = Synced
  \/ (Scanner.detectSyncStatus config test mapping currentHash = Unsynced)
  \/ Scanner.detectSyncStatus config test mapping currentHash = NeedsUpdate.
Proof.
  unfold Scanner.detectSyncStatus.
  destruct (Scanner.hasValidationErrors config test); [tauto|].
  destruct (truthyOpt (ParsedTest.testCaseId test)); [|tauto].
  destruct mapping as [m|]; [|tauto].
  destruct (Scanner.differs (TestCaseMapping.lastSyncedHash m) currentHash); tauto.
Qed.

(** Every test of a file is counted once. *)
Lemma analyze_counts (config : ValidationConfig.t) (map : gmap string TestCaseMapping.t)
    (c : Scanner.counters) (test : ParsedTest.t) (k : Z) :
  0 <= Scanner.synced c -> 0 <= Scanner.unmapped c -> 0 <= Scanner.outOfSync c ->
  0 <= Scanner.validationError c ->
  Scanner.synced c + Scanner.unmapped c + Scanner.outOfSync c + Scanner.validationError c = k ->
  let c' := Scanner.analyze config map c test in
  0 <= Scanner.synced c' /\ 0 <= Scanner.unmapped c' /\ 0 <= Scanner.outOfSync c'
  /\ 0 <= Scanner.validationError c'
  /\ Scanner.synced c' + Scanner.unmapped c' + Scanner.outOfSync c'
     + Scanner.validationError c' = k + 1.
Proof.
  intros H1 H2 H3 H4 H5. unfold Scanner.analyze.
  match goal with
  | |- context [Scanner.detectSyncStatus ?a ?b ?m ?h] =>
      destruct (detectSyncStatus_states a b m h) as [E|[E|E]]; rewrite E
  end; unfold Scanner.categorizeTestResult, Scanner.handleUnsyncedStatus;
    try match goal with |- context [if ?b then _ else _] => destruct b end;
    simpl; lia.
Qed.

Lemma scanFile_consistent (w : World) (config : ValidationConfig.t) (filePath : string)
    (r : FileResult.t) :
  Scanner.scanFile w config filePath = Ok r -> Spec.consistent r.
Proof.
  unfold Scanner.scanFile.
  destruct (ParserIO.parseTestFile w (Scanner.parserKey config) filePath) as [pr|];
    [|discriminate].
  destruct (MappingManager.loadMapping w (filePath ++ ".mapping.json")) as [ms|];
    [|discriminate].
  intros H. injection H as <-. unfold Spec.consistent. simpl.
  set (map := Scanner.createMappingMap ms).
  assert (G : forall tests c k,
             0 <= Scanner.synced c -> 0 <= Scanner.unmapped c -> 0 <= Scanner.outOfSync c ->
             0 <= Scanner.validationError c ->
             Scanner.synced c + Scanner.unmapped c + Scanner.outOfSync c
             + Scanner.validationError c = k ->
             let c' := fold_left (Scanner.analyze config map) tests c in
             0 <= Scanner.synced c' /\ 0 <= Scanner.unmapped c' /\ 0 <= Scanner.outOfSync c'
             /\ 0 <= Scanner.validationError c'
             /\ Scanner.synced c' + Scanner.unmapped c' + Scanner.outOfSync c'
                + Scanner.validationError c' = k + Z.of_nat (List.length tests)).
  { induction tests as [|t tests IH]; intros c k H1 H2 H3 H4 H5.
    - simpl. lia.
    - destruct (analyze_counts config map c t k H1 H2 H3 H4 H5) as (A1 & A2 & A3 & A4 & A5).
      cbn [fold_left List.length].
      specialize (IH _ _ A1 A2 A3 A4 A5). cbv zeta in IH. cbv zeta.
      replace (k + Z.of_nat (S (List.length tests)))
        with (k + 1 + Z.of_nat (List.length tests)) by lia.
      exact IH. }
  apply (G (TestParser.tests pr) (Scanner.mkCounters 0 0 0 0 []) 0); simpl; lia.
Qed.

(** A scan in which no file throws reports percentages. *)
Lemma scan_without_failures_in_range (w : World) (config : ValidationConfig.t)
    (files : list string) :
  (forall f, In f files -> exists r, Scanner.scanFile w config f = Ok r) ->
  let m := Scanner.calculateMetrics (Scanner.scanAllFiles w config files) in
  0 <= Scanner.syncCoverage m <= 100 /\ 0 <= Scanner.documentationCompliance m <= 100.
Proof.
  intros H. apply metrics_in_range. rewrite scanAllFiles_map.
  apply List.Forall_forall. intros r Hr. apply in_map_iff in Hr.
  destruct Hr as (f & <- & Hf). destruct (H f Hf) as [r Hr].
  unfold Spec.contribution. rewrite Hr. now apply scanFile_consistent in Hr.
Qed.

End Metrics.

(** C3.  Both metrics should be 0 when there is no test and integers from 0
    to 100 otherwise, also when the results hold the synthetic result of a
    file that failed to parse.  The code leaves the range there: a directory
    with one file that cannot be read and one file whose only test fails
    validation has one test and two validation errors, and its documentation
    compliance is -100. *)
Theorem synthetic_result_drives_compliance_below_zero :
  let test :=
    TestParser.mkCall (TestParser.Identifier "test")
      [ TestParser.StringLiteral "MM-T7: Open the channel";
        TestParser.ArrowFunction
          (TestParser.Block
             [ [TestParser.mkComment 40 "// # Open the channel" 3];
               [TestParser.mkComment 90 "// * The channel is shown" 5] ]) ] 1 in
  let w :=
    mkWorld
      (fun path =>
         if String.eqb path "broken.spec.ts"
         then Throw (ErrorObject ClassSystemError "EACCES: permission denied")
         else Ok "source")
      (fun path code => Ok (TestParser.mkSourceFile JSDocTags.empty [test]))
      (fun path => false)
      (fun path => Throw (ErrorObject ClassSystemError "ENOENT"))
      (fun content => None)
      (fun directoryPath patterns => ["broken.spec.ts"; "login.spec.ts"]) in
  let result := Scanner.scanDirectory w DEFAULT_VALIDATION "tests" ["**/*.spec.ts"] in
  List.map FileResult.testCount (Scanner.fileResults result) = [0; 1]%Z
  /\ List.map FileResult.validationErrorCount (Scanner.fileResults result) = [1; 1]%Z
  /\ Scanner.totalTests (Scanner.summary result) = 1%Z
  /\ Scanner.validationErrors (Scanner.summary result) = 2%Z
  /\ Scanner.documentationCompliance (Scanner.summary result) = (-100)%Z
  /\ ~ (0 <= Scanner.documentationCompliance (Scanner.summary result) <= 100)%Z.
Proof.
  cbv zeta.
  repeat split; try (vm_compute; reflexivity).
  intros [H _]. vm_compute in H. now apply H.
Qed.

(* ===================================================================== *)
(** ** The change detector: digest, comparison, ordering *)
(* ===================================================================== *)

Section Digest.

Lemma hexDigit_hex (x : Z) : JsString.all Spec.isHexDigit (String (Sha256.hexDigit (Z.land x 15)) "") = true.
Proof.
  assert (H : (0 <= Z.land x 15 < 16)%Z).
  { change 15%Z with (Z.ones 4). rewrite Z.land_ones by lia. apply Z.mod_pos_bound. lia. }
  remember (Z.land x 15) as d eqn:E. clear E.
  assert (C : (d = 0 \/ d = 1 \/ d = 2 \/ d = 3 \/ d = 4 \/ d = 5 \/ d = 6 \/ d = 7 \/ d = 8
               \/ d = 9 \/ d = 10 \/ d = 11 \/ d = 12 \/ d = 13 \/ d = 14 \/ d = 15)%Z) by lia.
  repeat (destruct C as [-> | C]; [reflexivity|]). subst d. reflexivity.
Qed.

Lemma hexWord_shape (n : nat) (x : Z) :
  String.length (Sha256.hexWord n x) = n
  /\ JsString.all Spec.isHexDigit (Sha256.hexWord n x) = true.
Proof.
  induction n as [|n [IH1 IH2]]; [now split|].
  cbn [Sha256.hexWord String.length JsString.all]. split; [now rewrite IH1|].
  rewrite IH2, andb_true_r.
  pose proof (hexDigit_hex (Z.shiftr x (4 * Z.of_nat n))) as H.
  cbn [JsString.all] in H. now rewrite andb_true_r in H.
Qed.

Lemma all_append (p : ascii -> bool) (a b : string) :
  JsString.all p (a ++ b) = (JsString.all p a && JsString.all p b)%bool.
Proof. induction a as [|c a IH]; simpl; [reflexivity|]. now rewrite IH, andb_assoc. Qed.

Lemma concat_shape (p : ascii -> bool) (n : nat) (l : list string) :
  Forall (fun s => String.length s = n /\ JsString.all p s = true) l ->
  String.length (String.concat "" l) = (List.length l * n)%nat
  /\ JsString.all p (String.concat "" l) = true.
Proof.
  induction 1 as [|s l [Hs1 Hs2] Hl [IH1 IH2]]; [now split|].
  destruct l as [|s' l].
  - simpl. split; [lia|assumption].
  - change (String.concat "" (s :: s' :: l)) with (s ++ "" ++ String.concat "" (s' :: l)).
    change ("" ++ String.concat "" (s' :: l)) with (String.concat "" (s' :: l)).
    rewrite length_append, all_append, IH1, IH2, Hs1, Hs2. split; [simpl; lia|reflexivity].
Qed.

Lemma hex_shape (msg : list Z) :
  String.length (Sha256.hex msg) = 64%nat
  /\ JsString.all Spec.isHexDigit (Sha256.hex msg) = true.
Proof.
  unfold Sha256.hex. cbv zeta.
  apply (concat_shape Spec.isHexDigit 8).
  repeat (constructor; [apply hexWord_shape|]). constructor.
Qed.

End Digest.

(** X2.  [calculateHash] returns 64 characters, each a decimal digit or a
    letter from a to f. *)
Theorem calculateHash_is_a_hex_digest (t : ParsedTest.t) :
  String.length (ChangeDetector.calculateHash t) = 64%nat
  /\ JsString.all Spec.isHexDigit (ChangeDetector.calculateHash t) = true.
Proof. apply hex_shape. Qed.

(** X4.  [hasChanged] is false exactly for the hash [calculateHash] gives the
    test; [detectChanges] then returns no changed field, and otherwise the
    single field [content].  A previous hash that is not 64 characters long
    is always reported as a change. *)
Theorem detectChanges_reports (t : ParsedTest.t) (previousHash : string) :
  (ChangeDetector.hasChanged t previousHash = false
   <-> previousHash = ChangeDetector.calculateHash t)
  /\ (ChangeDetector.detectChanges t previousHash = (false, [])
      <-> previousHash = ChangeDetector.calculateHash t)
  /\ (ChangeDetector.detectChanges t previousHash = (true, ["content"])
      <-> previousHash <> ChangeDetector.calculateHash t)
  /\ (String.length previousHash <> 64%nat ->
      ChangeDetector.detectChanges t previousHash = (true, ["content"])).
Proof.
  destruct (hex_shape (JsString.utf8 (ChangeDetector.normalizedContent t))) as [L _].
  fold (ChangeDetector.calculateHash t) in L.
  assert (E : ChangeDetector.hasChanged t previousHash = false
              <-> previousHash = ChangeDetector.calculateHash t).
  { unfold ChangeDetector.hasChanged. rewrite negb_false_iff, String.eqb_eq.
    split; intros ->; reflexivity. }
  split; [exact E|]. unfold ChangeDetector.detectChanges.
  destruct (ChangeDetector.hasChanged t previousHash).
  - assert (N : previousHash <> ChangeDetector.calculateHash t).
    { intros P. apply E in P. discriminate. }
    split; [split; [discriminate|intros P; now elim N]|].
    split; [split; [intros _; exact N|reflexivity]|reflexivity].
  - pose proof (proj1 E eq_refl) as P.
    split; [split; [intros _; exact P|reflexivity]|].
    split; [split; [discriminate|intros N; now elim N]|].
    intros N. elim N. now rewrite P.
Qed.

Section Relining.
Variable f : Z -> Z.
Hypothesis f_order : Spec.orderPreserving f.

Lemma insertStep_relined (s : TestStep.t) (l : list TestStep.t) :
  ChangeDetector.insertStep (TestStep.mk (TestStep.text s) (f (TestStep.lineNumber s)))
    (Spec.relined f l)
  = Spec.relined f (ChangeDetector.insertStep s l).
Proof.
  induction l as [|x l IH]; [reflexivity|].
  cbn [Spec.relined List.map ChangeDetector.insertStep TestStep.lineNumber].
  destruct (Z.leb_spec (TestStep.lineNumber s) (TestStep.lineNumber x)) as [L|L].
  - apply f_order in L. apply Z.leb_le in L. now rewrite L.
  - assert (N : (f (TestStep.lineNumber s) <=? f (TestStep.lineNumber x))%Z = false).
    { apply Z.leb_gt. destruct (Z.lt_ge_cases (f (TestStep.lineNumber x)) (f (TestStep.lineNumber s)))
        as [G|G]; [exact G|]. apply f_order in G. lia. }
    rewrite N. cbn [List.map]. f_equal. exact IH.
Qed.

Lemma sortSteps_relined (l : list TestStep.t) :
  ChangeDetector.sortSteps (Spec.relined f l) = Spec.relined f (ChangeDetector.sortSteps l).
Proof.
  induction l as [|s l IH]; [reflexivity|].
  cbn [Spec.relined List.map ChangeDetector.sortSteps fold_right].
  change (fold_right ChangeDetector.insertStep [] (List.map
            (fun s0 => TestStep.mk (TestStep.text s0) (f (TestStep.lineNumber s0))) l))
    with (ChangeDetector.sortSteps (Spec.relined f l)).
  rewrite IH. apply insertStep_relined.
Qed.

Lemma stepTexts_relined (l : list TestStep.t) :
  ChangeDetector.stepTexts (Spec.relined f l) = ChangeDetector.stepTexts l.
Proof.
  unfold ChangeDetector.stepTexts. rewrite sortSteps_relined.
  unfold Spec.relined. rewrite List.map_map. reflexivity.
Qed.

End Relining.

Lemma sortSteps_of_sorted (l : list TestStep.t) :
  StronglySorted Spec.byLine l -> ChangeDetector.sortSteps l = l.
Proof.
  induction 1 as [|x l Hl IH Hx]; [reflexivity|].
  cbn [ChangeDetector.sortSteps fold_right].
  change (fold_right ChangeDetector.insertStep [] l) with (ChangeDetector.sortSteps l).
  rewrite IH. destruct l as [|y l]; [reflexivity|].
  cbn [ChangeDetector.insertStep]. apply Forall_inv in Hx. unfold Spec.byLine in Hx.
  apply Z.leb_le in Hx. now rewrite Hx.
Qed.

(** X3.  The hash does not read the title, the case ID, the type, the line of
    the test or the Playwright tags, and it reads the lines of the steps only
    to order them: a test renamed, retagged and moved, its step lines sent
    through an order-preserving map, has the hash it had. *)
Theorem calculateHash_ignores_title_and_position
    (f : Z -> Z) (t : ParsedTest.t) (title : string) (testCaseId : option string)
    (type_ : TestType) (lineNumber : Z) (playwrightTags : option (list string)) :
  Spec.orderPreserving f ->
  ChangeDetector.calculateHash
    (ParsedTest.mk title testCaseId type_
       (JSDocTags.mk (JSDocTags.objective (ParsedTest.jsdocTags t))
          (JSDocTags.precondition (ParsedTest.jsdocTags t))
          (JSDocTags.knownIssue (ParsedTest.jsdocTags t)) playwrightTags)
       (Spec.relined f (ParsedTest.actionSteps t))
       (Spec.relined f (ParsedTest.verificationSteps t)) lineNumber)
  = ChangeDetector.calculateHash t.
Proof.
  intros Hf. unfold ChangeDetector.calculateHash. do 2 f_equal.
  apply normalizedContent_parts; try reflexivity.
  - unfold ChangeDetector.actionsPart. cbn [ParsedTest.actionSteps].
    destruct (ParsedTest.actionSteps t) as [|s l] eqn:E; [reflexivity|].
    rewrite <- (stepTexts_relined f Hf (s :: l)). reflexivity.
  - unfold ChangeDetector.verificationsPart. cbn [ParsedTest.verificationSteps].
    destruct (ParsedTest.verificationSteps t) as [|s l] eqn:E; [reflexivity|].
    rewrite <- (stepTexts_relined f Hf (s :: l)). reflexivity.
Qed.

Lemma calculateHash_ignores_title_and_position_witness :
  Spec.orderPreserving (fun line => (line + 40)%Z)
  /\ ChangeDetector.calculateHash
       (ParsedTest.mk "MM-T9: Renamed" (Some "MM-T9") TypeSkip
          (JSDocTags.mk (Some "Open a channel") None None (Some ["@smoke"]))
          [TestStep.mk "Open the menu" 44; TestStep.mk "Pick the channel" 46]
          [TestStep.mk "The channel is shown" 48] 41)
     = ChangeDetector.calculateHash
         (ParsedTest.mk "Open the channel" None TypeTest
            (JSDocTags.mk (Some "Open a channel") None None None)
            [TestStep.mk "Open the menu" 4; TestStep.mk "Pick the channel" 6]
            [TestStep.mk "The channel is shown" 8] 1).
Proof.
  assert (H : Spec.orderPreserving (fun line => (line + 40)%Z)) by (intros a b; lia).
  split; [exact H|].
  exact (calculateHash_ignores_title_and_position (fun line => (line + 40)%Z)
           (ParsedTest.mk "Open the channel" None TypeTest
              (JSDocTags.mk (Some "Open a channel") None None None)
              [TestStep.mk "Open the menu" 4; TestStep.mk "Pick the channel" 6]
              [TestStep.mk "The channel is shown" 8] 1)
           "MM-T9: Renamed" (Some "MM-T9") TypeSkip 41%Z (Some ["@smoke"]) H).
Defined.

(** X1.  [sortSteps] is a stable sort by line number: its result is a
    rearrangement of the steps, in ascending order of line, in which the
    steps of one line keep the order they had; sorting a second time changes
    nothing. *)
Theorem sortSteps_is_a_stable_sort (steps : list TestStep.t) :
  Permutation steps (ChangeDetector.sortSteps steps)
  /\ StronglySorted Spec.byLine (ChangeDetector.sortSteps steps)
  /\ (forall line,
        List.filter (fun s => Z.eqb (TestStep.lineNumber s) line) (ChangeDetector.sortSteps steps)
        = List.filter (fun s => Z.eqb (TestStep.lineNumber s) line) steps)
  /\ ChangeDetector.sortSteps (ChangeDetector.sortSteps steps) = ChangeDetector.sortSteps steps.
Proof.
  split; [apply sortSteps_rearranges|].
  split; [apply sortSteps_sorted|].
  split; [intros line; apply sortSteps_stable|].
  apply sortSteps_of_sorted, sortSteps_sorted.
Qed.

(* ===================================================================== *)
(** ** The validator: validity and the shape of the issues *)
(* ===================================================================== *)

Section Validation.
Variable config : ValidationConfig.t.
Variable test : ParsedTest.t.

Lemma includes_In (x : string) (l : list string) :
  Validator.includes x l = true <-> In x l.
Proof.
  unfold Validator.includes. rewrite existsb_exists. split.
  - intros (y & Hy & E). apply String.eqb_eq in E. now subst.
  - intros H. exists x. split; [exact H|apply String.eqb_refl].
Qed.

Lemma isValid_parts :
  Validator.isValid (Validator.validate config test) = true
  <-> Validator.objectiveIssue config test = []
      /\ Validator.actionIssue config test = []
      /\ Validator.verificationIssue config test = []
      /\ List.filter Validator.isError (Validator.caseIdIssue config test) = [].
Proof.
  unfold Validator.validate. cbn [Validator.isValid].
  rewrite Nat.eqb_eq, length_zero_iff_nil.
  rewrite !List.filter_app.
  assert (T : List.filter Validator.isError (Validator.titleIssue test) = []).
  { unfold Validator.titleIssue. now destruct (Nat.ltb _ _). }
  rewrite T, app_nil_r.
  assert (O : List.filter Validator.isError (Validator.objectiveIssue config test)
              = Validator.objectiveIssue config test).
  { unfold Validator.objectiveIssue. now destruct (_ && _)%bool. }
  assert (A : List.filter Validator.isError (Validator.actionIssue config test)
              = Validator.actionIssue config test).
  { unfold Validator.actionIssue. now destruct (_ && _)%bool. }
  assert (V : List.filter Validator.isError (Validator.verificationIssue config test)
              = Validator.verificationIssue config test).
  { unfold Validator.verificationIssue. now destruct (_ && _)%bool. }
  rewrite O, A, V. split.
  - intros H. apply app_eq_nil in H as [H1 H]. apply app_eq_nil in H as [H2 H].
    apply app_eq_nil in H as [H3 H]. auto.
  - intros (-> & -> & -> & ->). reflexivity.
Qed.

End Validation.

(** X5.  A test is valid exactly when the objective is there if the
    configuration requires it, there are action steps and verification steps
    if the configuration enforces them, and the case ID, if the test has one,
    is the project key, [-T] and digits.  The title and a missing case ID
    play no part. *)
Theorem validate_isValid_iff (config : ValidationConfig.t) (test : ParsedTest.t) :
  regexLiteral (Validator.effectiveKey config) = true ->
  (Validator.isValid (Validator.validate config test) = true
   <-> ((In "objective" (ValidationConfig.requiredTags config)
         \/ In "@objective" (ValidationConfig.requiredTags config)) ->
        truthyOpt (JSDocTags.objective (ParsedTest.jsdocTags test)) = true)
       /\ (ValidationConfig.enforceActionComments config = true ->
           ParsedTest.actionSteps test <> [])
       /\ (ValidationConfig.enforceVerificationComments config = true ->
           ParsedTest.verificationSteps test <> [])
       /\ (forall id, ParsedTest.testCaseId test = Some id -> id <> "" ->
             Spec.wellFormedCaseId (Validator.effectiveKey config) id)).
Proof.
  intros _. rewrite isValid_parts.
  assert (O : Validator.objectiveIssue config test = []
              <-> ((In "objective" (ValidationConfig.requiredTags config)
                    \/ In "@objective" (ValidationConfig.requiredTags config)) ->
                   truthyOpt (JSDocTags.objective (ParsedTest.jsdocTags test)) = true)).
  { unfold Validator.objectiveIssue. rewrite <- !includes_In, <- orb_true_iff.
    destruct (_ || _)%bool, (truthyOpt _); cbn; intuition congruence. }
  assert (A : Validator.actionIssue config test = []
              <-> (ValidationConfig.enforceActionComments config = true ->
                   ParsedTest.actionSteps test <> [])).
  { unfold Validator.actionIssue.
    destruct (ValidationConfig.enforceActionComments config), (ParsedTest.actionSteps test);
      cbn; split; intros H; try reflexivity; try discriminate; try (intros; discriminate).
    now elim H. }
  assert (V : Validator.verificationIssue config test = []
              <-> (ValidationConfig.enforceVerificationComments config = true ->
                   ParsedTest.verificationSteps test <> [])).
  { unfold Validator.verificationIssue.
    destruct (ValidationConfig.enforceVerificationComments config),
      (ParsedTest.verificationSteps test);
      cbn; split; intros H; try reflexivity; try discriminate; try (intros; discriminate).
    now elim H. }
  assert (I : List.filter Validator.isError (Validator.caseIdIssue config test) = []
              <-> (forall id, ParsedTest.testCaseId test = Some id -> id <> "" ->
                     Spec.wellFormedCaseId (Validator.effectiveKey config) id)).
  { unfold Validator.caseIdIssue. cbv zeta.
    destruct (ParsedTest.testCaseId test) as [id|].
    - destruct id as [|c id].
      + cbn. split; [intros _ id' E N; injection E as <-; now elim N|reflexivity].
      + cbn [JsString.truthy].
        destruct (Validator.testCasePattern (Validator.effectiveKey config) (String c id)) eqn:P.
        * cbn. split; [|reflexivity]. intros _ id' E _. injection E as <-.
          now apply testCasePattern_spec.
        * cbn. split; [discriminate|]. intros H. exfalso.
          assert (W : Spec.wellFormedCaseId (Validator.effectiveKey config) (String c id))
            by (apply H; [reflexivity|discriminate]).
          apply testCasePattern_spec in W. congruence.
    - cbn. split; [intros _ id E; discriminate|reflexivity]. }
  rewrite O, A, V, I. reflexivity.
Qed.

Lemma validate_isValid_iff_witness :
  regexLiteral (Validator.effectiveKey DEFAULT_VALIDATION) = true
  /\ (Validator.isValid
        (Validator.validate DEFAULT_VALIDATION
           (ParsedTest.mk "Open it" None TypeTest
              (JSDocTags.mk (Some "Open a channel") None None None)
              [TestStep.mk "Open the menu" 4] [TestStep.mk "The channel is shown" 8] 1)) = true
      <-> ((In "objective" ["@objective"] \/ In "@objective" ["@objective"]) ->
           truthyOpt (Some "Open a channel") = true)
          /\ (true = true -> [TestStep.mk "Open the menu" 4] <> [])
          /\ (true = true -> [TestStep.mk "The channel is shown" 8] <> [])
          /\ (forall id, @None string = Some id -> id <> "" ->
                Spec.wellFormedCaseId "MM" id)).
Proof.
  split; [reflexivity|].
  exact (validate_isValid_iff DEFAULT_VALIDATION
           (ParsedTest.mk "Open it" None TypeTest
              (JSDocTags.mk (Some "Open a channel") None None None)
              [TestStep.mk "Open the menu" 4] [TestStep.mk "The channel is shown" 8] 1)
           eq_refl).
Defined.

Ltac issue_cases :=
  unfold Validator.validate, Validator.objectiveIssue, Validator.actionIssue,
    Validator.verificationIssue, Validator.caseIdIssue, Validator.titleIssue;
  cbv zeta; cbn [Validator.issues];
  repeat match goal with
         | |- context [if ?b then _ else _] => destruct b
         | |- context [match ?o with Some _ => _ | None => _ end] => destruct o
         end.

(** X6.  [validate] reports at most one issue of each category, in the order
    documentation, action steps, verification steps, case ID, title, and
    never one of category syntax or of severity info.  Every issue carries
    the line of the test and a suggested fix; the first three categories are
    errors, a title issue is a warning. *)
Theorem validate_issues_shape (config : ValidationConfig.t) (test : ParsedTest.t) :
  sublist (List.map Validator.category (Validator.issues (Validator.validate config test)))
    [ Validator.documentation; Validator.action_steps; Validator.verification_steps;
      Validator.test_case_id; Validator.test_title ]
  /\ Forall (Spec.wellFormedIssue test) (Validator.issues (Validator.validate config test)).
Proof.
  split.
  - issue_cases; cbn [List.app List.map Validator.category];
      repeat first [apply sublist_nil | apply sublist_skip | apply sublist_cons].
  - issue_cases; cbn [List.app];
      repeat (constructor; [unfold Spec.wellFormedIssue; cbn; intuition congruence|]);
      constructor.
Qed.

(** X7.  [validate] reports no issue at all exactly when the test is valid,
    has a case ID and has a title of at least ten characters once a leading
    case ID is taken off. *)
Theorem validate_reports_nothing_iff (config : ValidationConfig.t) (test : ParsedTest.t) :
  Validator.issues (Validator.validate config test) = []
  <-> Validator.isValid (Validator.validate config test) = true
      /\ truthyOpt (ParsedTest.testCaseId test) = true
      /\ (10 <= String.length (Validator.titleWithoutId (ParsedTest.title test)))%nat.
Proof.
  rewrite isValid_parts.
  assert (T : Validator.titleIssue test = []
              <-> (10 <= String.length (Validator.titleWithoutId (ParsedTest.title test)))%nat).
  { unfold Validator.titleIssue.
    destruct (Nat.ltb_spec (String.length (Validator.titleWithoutId (ParsedTest.title test))) 10);
      split; intros; try reflexivity; try discriminate; lia. }
  assert (I : Validator.caseIdIssue config test = []
              <-> List.filter Validator.isError (Validator.caseIdIssue config test) = []
                  /\ truthyOpt (ParsedTest.testCaseId test) = true).
  { unfold Validator.caseIdIssue. cbv zeta.
    destruct (ParsedTest.testCaseId test) as [id|]; cbn [truthyOpt].
    - destruct (JsString.truthy id).
      + destruct (Validator.testCasePattern _ id); cbn; intuition congruence.
      + cbn; intuition congruence.
    - cbn; intuition congruence. }
  rewrite <- T. unfold Validator.validate at 1. cbn [Validator.issues]. split.
  - intros H. apply app_eq_nil in H as [H1 H]. apply app_eq_nil in H as [H2 H].
    apply app_eq_nil in H as [H3 H]. apply app_eq_nil in H as [H4 H].
    apply I in H4. tauto.
  - intros ((H1 & H2 & H3 & H4) & H5 & H6).
    rewrite H1, H2, H3, H6, (proj2 I (conj H4 H5)). reflexivity.
Qed.

(* ===================================================================== *)
(** ** The scanner: counts of a file, the mapping map, the files of a scan *)
(* ===================================================================== *)

Section ScanFile.
Local Open Scope Z_scope.
Variable config : ValidationConfig.t.
Variable mappingMap : gmap string TestCaseMapping.t.

Local Abbreviation status := (Spec.statusOf config mappingMap).
Local Abbreviation invalid := (Scanner.hasValidationErrors config).

Lemma count_cons {A} (p : A -> bool) (x : A) (l : list A) :
  Spec.count p (x :: l) = (if p x then 1 else 0) + Spec.count p l.
Proof. unfold Spec.count. cbn [List.filter]. destruct (p x); cbn [List.length]; lia. Qed.

Lemma invalid_is_unsynced (test : ParsedTest.t) :
  invalid test = true -> status test = Unsynced.
Proof.
  unfold Spec.statusOf, Scanner.detectSyncStatus. now intros ->.
Qed.

Lemma analyze_step (c : Scanner.counters) (test : ParsedTest.t) :
  let c' := Scanner.analyze config mappingMap c test in
  Scanner.synced c' = Scanner.synced c + (if Spec.isStatus Synced (status test) then 1 else 0)
  /\ Scanner.outOfSync c'
     = Scanner.outOfSync c + (if Spec.isStatus NeedsUpdate (status test) then 1 else 0)
  /\ Scanner.validationError c' = Scanner.validationError c + (if invalid test then 1 else 0)
  /\ Scanner.unmapped c'
     = Scanner.unmapped c
       + (if (negb (invalid test) && Spec.isStatus Unsynced (status test))%bool then 1 else 0)
  /\ List.map Spec.labelOf (Scanner.collected c')
     = (List.map Spec.labelOf (Scanner.collected c)
        ++ (if negb (Spec.isStatus Synced (status test))
            then [(ParsedTest.title test, status test)] else []))%list.
Proof.
  cbv zeta. unfold Scanner.analyze. cbv zeta.
  change (Scanner.detectSyncStatus config test _ (ChangeDetector.calculateHash test))
    with (status test).
  change (existsb Validator.isError (Validator.issues (Validator.validate config test)))
    with (invalid test).
  pose proof (invalid_is_unsynced test) as U.
  pose proof (detectSyncStatus_states config test (Spec.mappingOf mappingMap test)
                (ChangeDetector.calculateHash test)) as S.
  change (Scanner.detectSyncStatus config test _ _) with (status test) in S.
  destruct (invalid test).
  - rewrite (U eq_refl). cbn. rewrite map_app. repeat split; try lia.
  - destruct S as [-> | [-> | ->]]; cbn; rewrite ?map_app, ?app_nil_r; repeat split; lia.
Qed.

Lemma analyze_all (tests : list ParsedTest.t) (c : Scanner.counters) :
  let c' := fold_left (Scanner.analyze config mappingMap) tests c in
  Scanner.synced c'
  = Scanner.synced c + Spec.count (fun t => Spec.isStatus Synced (status t)) tests
  /\ Scanner.outOfSync c'
     = Scanner.outOfSync c + Spec.count (fun t => Spec.isStatus NeedsUpdate (status t)) tests
  /\ Scanner.validationError c' = Scanner.validationError c + Spec.count invalid tests
  /\ Scanner.unmapped c'
     = Scanner.unmapped c
       + Spec.count (fun t => (negb (invalid t) && Spec.isStatus Unsynced (status t))%bool) tests
  /\ List.map Spec.labelOf (Scanner.collected c')
     = (List.map Spec.labelOf (Scanner.collected c)
        ++ List.map (fun t => (ParsedTest.title t, status t))
             (List.filter (fun t => negb (Spec.isStatus Synced (status t))) tests))%list.
Proof.
  revert c. induction tests as [|t tests IH]; intros c; cbv zeta.
  - unfold Spec.count. cbn. rewrite app_nil_r. repeat split; lia.
  - cbn [fold_left]. specialize (IH (Scanner.analyze config mappingMap c t)). cbv zeta in IH.
    destruct IH as (I1 & I2 & I3 & I4 & I5).
    destruct (analyze_step c t) as (S1 & S2 & S3 & S4 & S5).
    rewrite I1, I2, I3, I4, I5, S1, S2, S3, S4, S5, !count_cons. cbn [List.filter].
    repeat split; try lia.
    destruct (negb (Spec.isStatus Synced (status t))); cbn [List.map];
      now rewrite <- app_assoc.
Qed.

End ScanFile.

Lemma scanFile_unfold (w : World) (config : ValidationConfig.t) (filePath : string)
    (r : FileResult.t) :
  Scanner.scanFile w config filePath = Ok r ->
  exists parsed mappings,
    ParserIO.parseTestFile w (Scanner.parserKey config) filePath = Ok parsed
    /\ MappingManager.loadMapping w (filePath ++ ".mapping.json") = Ok mappings
    /\ r = let c := fold_left (Scanner.analyze config (Scanner.createMappingMap mappings))
                      (TestParser.tests parsed) (Scanner.mkCounters 0 0 0 0 []) in
           FileResult.mk filePath (Z.of_nat (List.length (TestParser.tests parsed)))
             (Scanner.synced c) (Scanner.unmapped c) (Scanner.outOfSync c)
             (Scanner.validationError c) (Scanner.collected c).
Proof.
  unfold Scanner.scanFile.
  destruct (ParserIO.parseTestFile w (Scanner.parserKey config) filePath) as [parsed|e];
    [|discriminate].
  destruct (MappingManager.loadMapping w (filePath ++ ".mapping.json")) as [mappings|e];
    [|discriminate].
  intros E. injection E as <-. now exists parsed, mappings.
Qed.

(** X14.  The counts of a file result are those of its tests by state: synced
    and out of sync count the tests found [Synced] and [NeedsUpdate], the
    validation errors the tests with an error issue, unmapped the other
    [Unsynced] tests; the issues name, in order, the tests that are not
    synced, each with its state. *)
Theorem scanFile_counts_by_status (w : World) (config : ValidationConfig.t)
    (filePath : string) (r : FileResult.t) :
  Scanner.scanFile w config filePath = Ok r ->
  exists parsed mappings,
    ParserIO.parseTestFile w (Scanner.parserKey config) filePath = Ok parsed
    /\ MappingManager.loadMapping w (filePath ++ ".mapping.json") = Ok mappings
    /\ let tests := TestParser.tests parsed in
       let status := Spec.statusOf config (Scanner.createMappingMap mappings) in
       FileResult.filePath r = filePath
       /\ FileResult.testCount r = Z.of_nat (List.length tests)
       /\ FileResult.syncedCount r = Spec.count (fun t => Spec.isStatus Synced (status t)) tests
       /\ FileResult.outOfSyncCount r
          = Spec.count (fun t => Spec.isStatus NeedsUpdate (status t)) tests
       /\ FileResult.validationErrorCount r
          = Spec.count (Scanner.hasValidationErrors config) tests
       /\ FileResult.unmappedCount r
          = Spec.count (fun t => (negb (Scanner.hasValidationErrors config t)
                                   && Spec.isStatus Unsynced (status t))%bool) tests
       /\ List.map Spec.labelOf (FileResult.issues r)
          = List.map (fun t => (ParsedTest.title t, status t))
              (List.filter (fun t => negb (Spec.isStatus Synced (status t))) tests).
Proof.
  intros E. destruct (scanFile_unfold w config filePath r E) as (parsed & mappings & P & M & ->).
  exists parsed, mappings. split; [exact P|]. split; [exact M|]. cbv zeta.
  cbn [FileResult.filePath FileResult.testCount
    FileResult.syncedCount FileResult.outOfSyncCount FileResult.validationErrorCount
    FileResult.unmappedCount FileResult.issues].
  destruct (analyze_all config (Scanner.createMappingMap mappings) (TestParser.tests parsed)
              (Scanner.mkCounters 0 0 0 0 [])) as (I1 & I2 & I3 & I4 & I5).
  rewrite I1, I2, I3, I4, I5. cbn. repeat split; lia.
Qed.

Lemma scanFile_counts_by_status_witness :
  exists r, Scanner.scanFile Samples.mapped DEFAULT_VALIDATION "login.spec.ts" = Ok r
            /\ FileResult.outOfSyncCount r = 1%Z /\ FileResult.syncedCount r = 0%Z.
Proof.
  destruct (Scanner.scanFile Samples.mapped DEFAULT_VALIDATION "login.spec.ts") as [r|e] eqn:E;
    [|vm_compute in E; discriminate].
  exists r. split; [reflexivity|].
  destruct (scanFile_counts_by_status Samples.mapped DEFAULT_VALIDATION "login.spec.ts" r E)
    as (parsed & mappings & P & M & _ & _ & S & O & _).
  vm_compute in P. injection P as <-. vm_compute in M. injection M as <-.
  rewrite S, O. split; vm_compute; reflexivity.
Defined.

Lemma statusOf_unmapped (config : ValidationConfig.t) (test : ParsedTest.t) :
  Spec.statusOf config (Scanner.createMappingMap []) test = Unsynced.
Proof.
  unfold Spec.statusOf, Scanner.detectSyncStatus.
  destruct (Scanner.hasValidationErrors config test); [reflexivity|].
  assert (E : Spec.mappingOf (Scanner.createMappingMap []) test = None).
  { unfold Spec.mappingOf. destruct (ParsedTest.testCaseId test) as [id|]; [|reflexivity].
    destruct (JsString.truthy id); reflexivity. }
  rewrite E. now destruct (truthyOpt _).
Qed.

Lemma filter_all {A} (p : A -> bool) (l : list A) :
  (forall x, p x = true) -> List.filter p l = l.
Proof. intros H. induction l as [|x l IH]; [reflexivity|]. cbn. now rewrite H, IH. Qed.

Lemma filter_none {A} (p : A -> bool) (l : list A) :
  (forall x, p x = false) -> List.filter p l = [].
Proof. intros H. induction l as [|x l IH]; [reflexivity|]. cbn. now rewrite H. Qed.

Lemma unmapped_or_invalid (config : ValidationConfig.t) (tests : list ParsedTest.t) :
  (List.length (List.filter
     (fun t => (negb (Scanner.hasValidationErrors config t)
                && Spec.isStatus Unsynced
                     (Spec.statusOf config (Scanner.createMappingMap []) t))%bool) tests)
   + List.length (List.filter (Scanner.hasValidationErrors config) tests)
   = List.length tests)%nat.
Proof.
  induction tests as [|t l IH]; [reflexivity|].
  cbn [List.filter]. rewrite statusOf_unmapped.
  destruct (Scanner.hasValidationErrors config t);
    cbn [negb andb Spec.isStatus List.length] in *; lia.
Qed.

(** X15.  Without a mapping file no test is synced or out of sync: every test
    is unmapped or a validation error, and every test has its issue, of state
    [Unsynced]. *)
Theorem scanFile_without_mapping_file (w : World) (config : ValidationConfig.t)
    (filePath : string) (r : FileResult.t) :
  existsSync w (filePath ++ ".mapping.json") = false ->
  Scanner.scanFile w config filePath = Ok r ->
  FileResult.syncedCount r = 0%Z
  /\ FileResult.outOfSyncCount r = 0%Z
  /\ (FileResult.unmappedCount r + FileResult.validationErrorCount r = FileResult.testCount r)%Z
  /\ List.length (FileResult.issues r) = Z.to_nat (FileResult.testCount r)
  /\ Forall (fun i => FileResult.syncStatus i = Unsynced) (FileResult.issues r).
Proof.
  intros X E. destruct (scanFile_unfold w config filePath r E) as (parsed & mappings & P & M & ->).
  unfold MappingManager.loadMapping in M. rewrite X in M. cbn in M. injection M as <-.
  cbv zeta. cbn [FileResult.testCount FileResult.syncedCount FileResult.outOfSyncCount
    FileResult.validationErrorCount FileResult.unmappedCount FileResult.issues].
  destruct (analyze_all config (Scanner.createMappingMap []) (TestParser.tests parsed)
              (Scanner.mkCounters 0 0 0 0 [])) as (I1 & I2 & I3 & I4 & I5).
  rewrite I1, I2, I3, I4. cbn [Scanner.synced Scanner.outOfSync Scanner.unmapped
    Scanner.validationError Scanner.collected List.map List.app] in *.
  unfold Spec.count.
  rewrite (filter_none (fun t => Spec.isStatus Synced _)),
    (filter_none (fun t => Spec.isStatus NeedsUpdate _))
    by (intros t; now rewrite statusOf_unmapped).
  rewrite (filter_all (fun t => negb (Spec.isStatus Synced _))) in I5
    by (intros t; now rewrite statusOf_unmapped).
  pose proof (unmapped_or_invalid config (TestParser.tests parsed)) as L.
  repeat split; try lia.
  - rewrite Nat2Z.id. rewrite <- (List.length_map Spec.labelOf), I5. apply List.length_map.
  - apply List.Forall_forall. intros i Hi.
    apply (List.in_map Spec.labelOf) in Hi. rewrite I5 in Hi.
    apply List.in_map_iff in Hi. destruct Hi as (t & Ht & _).
    rewrite statusOf_unmapped in Ht. unfold Spec.labelOf in Ht. now injection Ht.
Qed.

Lemma scanFile_without_mapping_file_witness :
  existsSync Samples.tenFiles ("f01.spec.ts" ++ ".mapping.json") = false
  /\ exists r, Scanner.scanFile Samples.tenFiles DEFAULT_VALIDATION "f01.spec.ts" = Ok r
               /\ FileResult.syncedCount r = 0%Z.
Proof.
  split; [reflexivity|].
  destruct (Scanner.scanFile Samples.tenFiles DEFAULT_VALIDATION "f01.spec.ts") as [r|e] eqn:E;
    [|vm_compute in E; discriminate].
  exists r. split; [reflexivity|].
  exact (proj1 (scanFile_without_mapping_file Samples.tenFiles DEFAULT_VALIDATION
                  "f01.spec.ts" r eq_refl E)).
Defined.

Section MappingMap.

Lemma createMappingMap_from (mappings : list json) (map : gmap string TestCaseMapping.t)
    (id : string) :
  id <> "" ->
  fold_left
    (fun map value =>
       let mapping := Scanner.asMapping value in
       match TestCaseMapping.testCaseId mapping with
       | Some id => if JsString.truthy id then <[ id := mapping ]> map else map
       | None => map
       end)
    mappings map !! id
  = match last (Spec.mappingsWith id mappings) with
    | Some m => Some m
    | None => map !! id
    end.
Proof.
  intros N. revert map. induction mappings as [|v l IH]; intros map; [reflexivity|].
  cbn [fold_left]. rewrite IH. cbv zeta. unfold Spec.mappingsWith. cbn [List.map List.filter].
  fold (Spec.mappingsWith id l).
  destruct (TestCaseMapping.testCaseId (Scanner.asMapping v)) as [k|] eqn:K.
  - destruct (String.eqb_spec k id) as [->|D].
    + destruct id as [|c id]; [now elim N|]. cbn [JsString.truthy].
      rewrite lookup_insert_eq.
      destruct (Spec.mappingsWith (String c id) l) as [|m l'] eqn:L; [reflexivity|].
      rewrite !last_cons. now destruct (last l').
    + destruct (JsString.truthy k); [|reflexivity].
      rewrite lookup_insert_ne by exact D. reflexivity.
  - reflexivity.
Qed.

Lemma createMappingMap_empty_key (mappings : list json) (map : gmap string TestCaseMapping.t) :
  fold_left
    (fun map value =>
       let mapping := Scanner.asMapping value in
       match TestCaseMapping.testCaseId mapping with
       | Some id => if JsString.truthy id then <[ id := mapping ]> map else map
       | None => map
       end)
    mappings map !! ""
  = map !! "".
Proof.
  revert map. induction mappings as [|v l IH]; intros map; [reflexivity|].
  cbn [fold_left]. rewrite IH. cbv zeta.
  destruct (TestCaseMapping.testCaseId (Scanner.asMapping v)) as [k|]; [|reflexivity].
  destruct k as [|c k]; [reflexivity|]. cbn [JsString.truthy].
  now rewrite lookup_insert_ne.
Qed.

End MappingMap.

(* ===================================================================== *)
(** ** Failure isolation of the directory scan: what each file contributes *)
(* ===================================================================== *)

Section Isolated.
Local Open Scope Z_scope.

Lemma statusOf_expected (config : ValidationConfig.t) (mappings : list json)
    (test : ParsedTest.t) :
  Spec.statusOf config (Scanner.createMappingMap mappings) test
  = Spec.expectedStatus config mappings test.
Proof.
  unfold Spec.statusOf, Spec.expectedStatus, Scanner.detectSyncStatus,
    Scanner.hasValidationErrors, Spec.mappingOf, truthyOpt.
  destruct (existsb Validator.isError _); [reflexivity|].
  destruct (ParsedTest.testCaseId test) as [id|]; [|reflexivity].
  destruct (JsString.truthy id) eqn:T; [|reflexivity].
  apply truthy_iff in T. unfold Scanner.createMappingMap.
  rewrite (createMappingMap_from mappings ∅ id T), lookup_empty.
  destruct (last (Spec.mappingsWith id mappings)) as [m|]; [|reflexivity].
  unfold Scanner.differs.
  destruct (TestCaseMapping.lastSyncedHash m) as [h|]; [|reflexivity].
  now destruct (String.eqb h _).
Qed.

Lemma count_ext {A} (p q : A -> bool) (l : list A) :
  (forall x, p x = q x) -> Spec.count p l = Spec.count q l.
Proof. intros H. unfold Spec.count. now rewrite (List.filter_ext p q H). Qed.

Lemma analyze_scannedNormally (config : ValidationConfig.t) (filePath : string)
    (tests : list ParsedTest.t) (mappings : list json) :
  let c := fold_left (Scanner.analyze config (Scanner.createMappingMap mappings)) tests
             (Scanner.mkCounters 0 0 0 0 []) in
  Spec.scannedNormally config filePath tests mappings
    (FileResult.mk filePath (Z.of_nat (List.length tests))
       (Scanner.synced c) (Scanner.unmapped c) (Scanner.outOfSync c)
       (Scanner.validationError c) (Scanner.collected c)).
Proof.
  cbv zeta. unfold Spec.scannedNormally. cbv zeta.
  cbn [FileResult.filePath FileResult.testCount
    FileResult.syncedCount FileResult.outOfSyncCount FileResult.validationErrorCount
    FileResult.unmappedCount FileResult.issues].
  destruct (analyze_all config (Scanner.createMappingMap mappings) tests
              (Scanner.mkCounters 0 0 0 0 [])) as (I1 & I2 & I3 & I4 & I5).
  pose proof (statusOf_expected config mappings) as S.
  rewrite I1, I2, I3, I4, I5. cbn [Scanner.synced Scanner.outOfSync Scanner.validationError
    Scanner.unmapped Scanner.collected List.map List.app].
  split; [reflexivity|]. split; [reflexivity|].
  split; [rewrite Z.add_0_l; apply count_ext; intros t; now rewrite S|].
  split; [rewrite Z.add_0_l; apply count_ext; intros t; now rewrite S|].
  split; [rewrite Z.add_0_l; reflexivity|].
  split; [rewrite Z.add_0_l; apply count_ext; intros t; now rewrite S|].
  rewrite (List.filter_ext _ (fun t => negb (Spec.isStatus Synced
                                               (Spec.expectedStatus config mappings t))))
    by (intros t; now rewrite S).
  apply List.map_ext. intros t. now rewrite S.
Qed.

End Isolated.

(** C4.  Per-file failure isolation.  [scanDirectory] returns one file result
    for each enumerated file, in order, whatever happened to the files before
    and after it.  A file whose parse throws, or whose mapping load throws,
    contributes the synthetic result: test count 0, validation error count 1
    and the single issue [File Scan Error] whose message is the message of
    the thrown error, or the string form of a thrown value that is no error.
    Every other file is scanned normally: its result counts each parsed test
    once, under the state its validation and the entries of the mapping file
    give it, and lists, in order, the tests that are not synced. *)
Theorem scanDirectory_isolates_file_failures
    (w : World) (config : ValidationConfig.t) (directoryPath : string)
    (patterns : list string) :
  let files := fastGlob w directoryPath patterns in
  let results := Scanner.fileResults (Scanner.scanDirectory w config directoryPath patterns) in
  List.length results = List.length files
  /\ Scanner.totalFiles (Scanner.scanDirectory w config directoryPath patterns)
     = List.length files
  /\ forall (i : nat) (filePath : string), files !! i = Some filePath ->
       exists r,
         results !! i = Some r
         /\ match ParserIO.parseTestFile w (Scanner.parserKey config) filePath with
            | Throw e => Spec.synthetic filePath e r
            | Ok parsed =>
                match MappingManager.loadMapping w (filePath ++ ".mapping.json") with
                | Throw e => Spec.synthetic filePath e r
                | Ok mappings =>
                    Spec.scannedNormally config filePath (TestParser.tests parsed) mappings r
                end
            end.
Proof.
  intros files results. subst results. unfold Scanner.scanDirectory.
  cbn [Scanner.fileResults Scanner.totalFiles]. fold files.
  rewrite scanAllFiles_map.
  split; [apply length_map|]. split; [reflexivity|].
  intros i filePath Hi.
  exists (Spec.contribution w config filePath). split.
  { rewrite list_lookup_fmap, Hi. reflexivity. }
  unfold Spec.contribution, Scanner.scanFile.
  destruct (ParserIO.parseTestFile w (Scanner.parserKey config) filePath) as [parsed|e];
    [|apply createErrorFileResult_synthetic].
  destruct (MappingManager.loadMapping w (filePath ++ ".mapping.json")) as [mappings|e];
    [|apply createErrorFileResult_synthetic].
  apply analyze_scannedNormally.
Qed.

(** Ten files, the fifth of which cannot be read: ten results; the first
    holds its one test, unmapped; the fifth is synthetic and quotes the
    failure. *)
Lemma scanDirectory_isolates_file_failures_witness :
  List.length
    (Scanner.fileResults
       (Scanner.scanDirectory Samples.tenFiles DEFAULT_VALIDATION "tests" ["**/*.spec.ts"]))
  = 10%nat
  /\ exists first fifth,
       Scanner.fileResults
         (Scanner.scanDirectory Samples.tenFiles DEFAULT_VALIDATION "tests" ["**/*.spec.ts"])
       !! 0%nat = Some first
       /\ FileResult.testCount first = 1%Z
       /\ FileResult.unmappedCount first = 1%Z
       /\ Scanner.fileResults
            (Scanner.scanDirectory Samples.tenFiles DEFAULT_VALIDATION "tests" ["**/*.spec.ts"])
          !! 4%nat = Some fifth
       /\ FileResult.testCount fifth = 0%Z
       /\ FileResult.validationErrorCount fifth = 1%Z
       /\ FileResult.issues fifth
          = [FileResult.mkIssue "File Scan Error" Unsynced
               "Failed to read file f05.spec.ts: EISDIR: illegal operation on a directory"].
Proof.
  destruct (scanDirectory_isolates_file_failures Samples.tenFiles DEFAULT_VALIDATION
              "tests" ["**/*.spec.ts"]) as (L & _ & F).
  split; [exact L|].
  destruct (F 0%nat "f01.spec.ts" eq_refl) as (first & R1 & O1).
  destruct (F 4%nat "f05.spec.ts" eq_refl) as (fifth & R5 & O5).
  exists first, fifth.
  vm_compute in O1. destruct O1 as (_ & T1 & _ & _ & _ & U1 & _).
  vm_compute in O5. destruct O5 as (_ & T5 & _ & _ & _ & V5 & message & I5 & ->).
  repeat (split; [assumption|]). exact I5.
Defined.

(** Ten files, the fifth of which throws: ten results, the fifth synthetic,
    the other nine with their one test. *)
Example ten_files_fifth_throws :
  List.map (fun r => (FileResult.testCount r, FileResult.validationErrorCount r))
    (Scanner.fileResults
       (Scanner.scanDirectory Samples.tenFiles DEFAULT_VALIDATION "tests" ["**/*.spec.ts"]))
  = [ (1, 0); (1, 0); (1, 0); (1, 0); (0, 1); (1, 0); (1, 0); (1, 0); (1, 0); (1, 0) ]%Z.
Proof. vm_compute. reflexivity. Qed.


(** X13.  The map gives, for a case ID, the last mapping of the file that
    carries it; an empty ID is no key. *)
Theorem createMappingMap_lookup (mappings : list json) (id : string) :
  Scanner.createMappingMap mappings !! id
  = if JsString.truthy id then last (Spec.mappingsWith id mappings) else None.
Proof.
  unfold Scanner.createMappingMap. destruct id as [|c id]; cbn [JsString.truthy].
  - rewrite createMappingMap_empty_key. apply lookup_empty.
  - rewrite createMappingMap_from by discriminate. rewrite lookup_empty.
    now destruct (last _).
Qed.

(** X16.  The file results of a scan are those of the files found, one for
    each, in the order found, under the path found: a file that threw keeps
    its place. *)
Theorem scanDirectory_reports_each_file_in_order
    (w : World) (config : ValidationConfig.t) (directoryPath : string)
    (patterns : list string) :
  List.map FileResult.filePath
    (Scanner.fileResults (Scanner.scanDirectory w config directoryPath patterns))
  = fastGlob w directoryPath patterns.
Proof.
  unfold Scanner.scanDirectory. cbn [Scanner.fileResults].
  rewrite scanAllFiles_map, List.map_map.
  induction (fastGlob w directoryPath patterns) as [|f l IH]; [reflexivity|].
  cbn [List.map]. rewrite IH. f_equal. unfold Spec.contribution.
  destruct (Scanner.scanFile w config f) as [r|e] eqn:E; [|reflexivity].
  destruct (scanFile_unfold w config f r E) as (parsed & mappings & _ & _ & ->). reflexivity.
Qed.

Section MetricExtremes.
Local Open Scope Z_scope.

Lemma percentage_none (total : Z) : 0 < total -> Scanner.percentage 0 total = 0.
Proof.
  intros H. unfold Scanner.percentage, Binary64.div, Binary64.ofZ. cbn [fst snd].
  replace (1 * total) with total by lia. rewrite Z.mul_0_l.
  destruct (Z.ltb_spec total 0); [lia|]. reflexivity.
Qed.

Lemma percentage_all (total : Z) : 0 < total -> Scanner.percentage total total = 100.
Proof.
  intros H. unfold Scanner.percentage, Binary64.div, Binary64.ofZ. cbn [fst snd].
  replace (1 * total) with total by lia. replace (total * 1) with total by lia.
  destruct (Z.ltb_spec total 0); [lia|].
  assert (R : Binary64.round total total = (2 ^ 52, 2 ^ 52)).
  { unfold Binary64.round. destruct (Z.eqb_spec total 0); [lia|].
    destruct (Z.ltb_spec 0 total); [|lia].
    unfold Binary64.roundPositive, Binary64.exponent.
    replace (Z.log2 total - Z.log2 total - 52) with (-52) by lia.
    unfold Binary64.scale. change (-52 <? 0) with true. cbv iota.
    change (- -52) with 52.
    destruct (Z.ltb_spec (total * 2 ^ 52) (2 ^ 52 * total)); [lia|].
    change (-52 <? 0) with true. cbv iota. change (- -52) with 52.
    assert (Q : total * 2 ^ 52 / total = 2 ^ 52)
      by (rewrite (Z.mul_comm total); apply Z.div_mul; lia).
    assert (M : (total * 2 ^ 52) mod total = 0)
      by (rewrite (Z.mul_comm total); apply Z.mod_mul; lia).
    unfold Binary64.roundHalfEven. cbv zeta. rewrite Q, M.
    change (2 * 0) with 0. destruct (Z.ltb_spec 0 total); [|lia].
    reflexivity. }
  rewrite R. reflexivity.
Qed.

End MetricExtremes.

(** X17.  When no file throws, the four counts of the summary add up to the
    number of tests, both metrics are from 0 to 100, and they are exact at
    the ends: compliance is 100 without validation errors and 0 when every
    test has one, coverage is 100 when every test is synced or out of sync
    and 0 when none is. *)
Theorem metrics_of_a_scan_without_failures
    (w : World) (config : ValidationConfig.t) (files : list string) :
  (forall f, In f files -> exists r, Scanner.scanFile w config f = Ok r) ->
  let m := Scanner.calculateMetrics (Scanner.scanAllFiles w config files) in
  ((0 <= Scanner.syncCoverage m <= 100)%Z /\ (0 <= Scanner.documentationCompliance m <= 100)%Z)
  /\ (Scanner.syncedTests m + Scanner.unmappedTests m + Scanner.outOfSyncTests m
      + Scanner.validationErrors m = Scanner.totalTests m)%Z
  /\ ((0 < Scanner.totalTests m)%Z -> Scanner.validationErrors m = 0%Z ->
      Scanner.documentationCompliance m = 100%Z)
  /\ ((0 < Scanner.totalTests m)%Z ->
      (Scanner.syncedTests m + Scanner.outOfSyncTests m = Scanner.totalTests m)%Z ->
      Scanner.syncCoverage m = 100%Z)
  /\ ((Scanner.syncedTests m + Scanner.outOfSyncTests m = 0)%Z -> Scanner.syncCoverage m = 0%Z)
  /\ (Scanner.validationErrors m = Scanner.totalTests m ->
      Scanner.documentationCompliance m = 0%Z).
Proof.
  intros H. cbv zeta.
  assert (C : Forall Spec.consistent (Scanner.scanAllFiles w config files)).
  { rewrite scanAllFiles_map. apply List.Forall_forall. intros r Hr.
    apply List.in_map_iff in Hr as (f & <- & Hf). destruct (H f Hf) as [r Hr].
    unfold Spec.contribution. rewrite Hr. now apply scanFile_consistent in Hr. }
  split; [now apply metrics_in_range|].
  destruct (sums_consistent _ C) as (S1 & S2 & S3 & S4 & S5).
  unfold Scanner.calculateMetrics. cbv zeta.
  cbn [Scanner.totalTests Scanner.syncedTests Scanner.unmappedTests Scanner.outOfSyncTests
       Scanner.validationErrors Scanner.syncCoverage Scanner.documentationCompliance].
  set (results := Scanner.scanAllFiles w config files) in *.
  split; [exact S5|]. split; [|split; [|split]].
  - intros P Z0. rewrite Z0, Z.sub_0_r. apply Z.ltb_lt in P as P'. rewrite P'.
    now apply percentage_all.
  - intros P E. rewrite E. apply Z.ltb_lt in P as P'. rewrite P'. now apply percentage_all.
  - intros E. rewrite E. destruct (Z.ltb_spec 0 (Scanner.sumOf FileResult.testCount results));
      [now apply percentage_none|reflexivity].
  - intros E. rewrite E, Z.sub_diag.
    destruct (Z.ltb_spec 0 (Scanner.sumOf FileResult.testCount results));
      [now apply percentage_none|reflexivity].
Qed.

Lemma metrics_of_a_scan_without_failures_witness :
  (forall f, In f ["login.spec.ts"] ->
     exists r, Scanner.scanFile Samples.mapped DEFAULT_VALIDATION f = Ok r)
  /\ Scanner.syncCoverage
       (Scanner.calculateMetrics
          (Scanner.scanAllFiles Samples.mapped DEFAULT_VALIDATION ["login.spec.ts"])) = 100%Z.
Proof.
  assert (H : forall f, In f ["login.spec.ts"] ->
                exists r, Scanner.scanFile Samples.mapped DEFAULT_VALIDATION f = Ok r).
  { intros f [<-|[]]. eexists. vm_compute. reflexivity. }
  split; [exact H|].
  destruct (metrics_of_a_scan_without_failures Samples.mapped DEFAULT_VALIDATION
              ["login.spec.ts"] H) as (_ & _ & _ & A & _).
  apply A; vm_compute; reflexivity.
Defined.

(* ===================================================================== *)
(** ** The parser: steps, errors, shared documentation *)
(* ===================================================================== *)

Section Steps.
Variable marker : string.

Lemma visit_comments (comments : list TestParser.Comment) (seen : gset Z)
    (steps : list TestStep.t) :
  exists seen',
    fold_left (TestParser.visitComment marker) comments (seen, steps)
    = (seen', (steps ++ flat_map (TestParser.stepOf marker)
                          (Spec.firstAtPosition seen comments))%list)
    /\ forall rest, Spec.firstAtPosition seen (comments ++ rest)
                    = (Spec.firstAtPosition seen comments
                       ++ Spec.firstAtPosition seen' rest)%list.
Proof.
  revert seen steps. induction comments as [|c r IH]; intros seen steps.
  - exists seen. cbn. rewrite app_nil_r. now split.
  - cbn [fold_left Spec.firstAtPosition]. unfold TestParser.visitComment at 2. cbn [fst snd].
    destruct (decide (TestParser.pos c ∈ seen)) as [I|I].
    + destruct (IH seen steps) as (seen' & E & A). exists seen'. split; [exact E|].
      intros rest. cbn [List.app Spec.firstAtPosition].
      destruct (decide (TestParser.pos c ∈ seen)); [apply A|contradiction].
    + destruct (IH ({[ TestParser.pos c ]} ∪ seen) (steps ++ TestParser.stepOf marker c)%list)
        as (seen' & E & A).
      exists seen'. split.
      * rewrite E. cbn [flat_map]. now rewrite <- app_assoc.
      * intros rest. cbn [List.app Spec.firstAtPosition].
        destruct (decide (TestParser.pos c ∈ seen)); [contradiction|].
        cbn [List.app]. f_equal. apply A.
Qed.

Lemma visit_descendants (descendants : list (list TestParser.Comment)) (seen : gset Z)
    (steps : list TestStep.t) :
  (fold_left (fun acc comments => fold_left (TestParser.visitComment marker) comments acc)
     descendants (seen, steps)).2
  = (steps ++ flat_map (TestParser.stepOf marker)
                (Spec.firstAtPosition seen (List.concat descendants)))%list.
Proof.
  revert seen steps. induction descendants as [|d ds IH]; intros seen steps.
  - cbn. now rewrite app_nil_r.
  - cbn [fold_left List.concat].
    destruct (visit_comments d seen steps) as (seen' & E & A).
    rewrite E, IH, A, flat_map_app. now rewrite <- app_assoc.
Qed.

End Steps.

Lemma firstAtPosition_positions (comments : list TestParser.Comment) (seen : gset Z) :
  NoDup (List.map TestParser.pos (Spec.firstAtPosition seen comments))
  /\ (forall c, In c (Spec.firstAtPosition seen comments) ->
                In c comments /\ TestParser.pos c ∉ seen).
Proof.
  revert seen. induction comments as [|c r IH]; intros seen.
  - cbn. split; [constructor|intros c []].
  - cbn [Spec.firstAtPosition].
    destruct (decide (TestParser.pos c ∈ seen)) as [I|I].
    + destruct (IH seen) as [N M]. split; [exact N|].
      intros x Hx. destruct (M x Hx). split; [now right|assumption].
    + destruct (IH ({[ TestParser.pos c ]} ∪ seen)) as [N M]. split.
      * cbn [List.map]. constructor; [|exact N].
        intros Hin. apply list_elem_of_In, List.in_map_iff in Hin.
        destruct Hin as (x & Ex & Hx). destruct (M x Hx) as [_ Hn].
        apply Hn. rewrite Ex. apply elem_of_union. left. now apply elem_of_singleton.
      * intros x [<-|Hx]; [split; [now left|exact I]|].
        destruct (M x Hx) as [Hr Hn]. split; [now right|].
        intros Hs. apply Hn, elem_of_union. now right.
Qed.

Lemma stepOf_exclusive (c : TestParser.Comment) :
  TestParser.stepOf "// #" c = [] \/ TestParser.stepOf "// *" c = [].
Proof.
  unfold TestParser.stepOf, JsString.startsWith. cbv zeta.
  destruct (JsString.stripPrefix "// #" _) as [r|] eqn:A; [|left; reflexivity].
  destruct (JsString.stripPrefix "// *" _) as [r'|] eqn:B; [|right; reflexivity].
  exfalso. apply stripPrefix_spec in A, B. rewrite A in B. simpl in B. discriminate B.
Qed.

Lemma stepOf_trimmed (marker : string) (c : TestParser.Comment) :
  Forall (fun s => JsString.trim (TestStep.text s) = TestStep.text s
                   /\ TestStep.lineNumber s = TestParser.line c)
    (TestParser.stepOf marker c).
Proof.
  unfold TestParser.stepOf. cbv zeta. destruct (JsString.startsWith _ _); constructor; [|constructor].
  cbn [TestStep.text TestStep.lineNumber]. split; [apply trim_is_padding|reflexivity].
Qed.

Lemma firstAtPosition_seen (comments : list TestParser.Comment) (seen : gset Z) :
  (forall c, In c comments -> TestParser.pos c ∈ seen) ->
  Spec.firstAtPosition seen comments = [].
Proof.
  induction comments as [|c r IH]; intros H; [reflexivity|].
  cbn [Spec.firstAtPosition].
  destruct (decide (TestParser.pos c ∈ seen)) as [I|I].
  - apply IH. intros x Hx. apply H. now right.
  - elim I. apply H. now left.
Qed.

Lemma firstAtPosition_app (a b : list TestParser.Comment) (seen : gset Z) :
  exists seen',
    Spec.firstAtPosition seen (a ++ b)
    = (Spec.firstAtPosition seen a ++ Spec.firstAtPosition seen' b)%list
    /\ (forall c, In c a -> TestParser.pos c ∈ seen')
    /\ (forall p, p ∈ seen -> p ∈ seen').
Proof.
  revert seen. induction a as [|c r IH]; intros seen.
  - exists seen. cbn. split; [reflexivity|]. split; [intros c []|auto].
  - cbn [List.app Spec.firstAtPosition].
    destruct (decide (TestParser.pos c ∈ seen)) as [I|I].
    + destruct (IH seen) as (seen' & E & A & B). exists seen'. split; [exact E|].
      split; [|exact B]. intros x [<-|Hx]; [now apply B|now apply A].
    + destruct (IH ({[ TestParser.pos c ]} ∪ seen)) as (seen' & E & A & B).
      exists seen'. split; [now rewrite E|]. split.
      * intros x [<-|Hx]; [|now apply A].
        apply B, elem_of_union. left. now apply elem_of_singleton.
      * intros p Hp. apply B, elem_of_union. now right.
Qed.

Lemma firstAtPosition_length (comments : list TestParser.Comment) (seen : gset Z) :
  (List.length (Spec.firstAtPosition seen comments) <= List.length comments)%nat.
Proof.
  revert seen. induction comments as [|c r IH]; intros seen; [reflexivity|].
  cbn [Spec.firstAtPosition]. destruct (decide (TestParser.pos c ∈ seen)); cbn [List.length].
  - specialize (IH seen). lia.
  - specialize (IH ({[ TestParser.pos c ]} ∪ seen)). lia.
Qed.

Lemma extractSteps_spec (marker : string) (descendants : list (list TestParser.Comment)) :
  TestParser.extractSteps marker descendants
  = flat_map (TestParser.stepOf marker) (Spec.firstAtPosition ∅ (List.concat descendants)).
Proof. unfold TestParser.extractSteps. now rewrite visit_descendants. Qed.

(** X8.  The steps of a body are those of its comments, each position taken
    once, at its first visit, in that order: a comment met again under a
    later descendant adds nothing. *)
Theorem extractSteps_once_per_comment
    (marker : string) (descendants : list (list TestParser.Comment)) :
  TestParser.extractSteps marker descendants
  = flat_map (TestParser.stepOf marker) (Spec.firstAtPosition ∅ (List.concat descendants))
  /\ NoDup (List.map TestParser.pos (Spec.firstAtPosition ∅ (List.concat descendants)))
  /\ TestParser.extractSteps marker (descendants ++ descendants)
     = TestParser.extractSteps marker descendants.
Proof.
  split; [apply extractSteps_spec|]. split; [apply firstAtPosition_positions|].
  rewrite !extractSteps_spec, List.concat_app.
  destruct (firstAtPosition_app (List.concat descendants) (List.concat descendants) ∅)
    as (seen' & -> & A & _).
  rewrite (firstAtPosition_seen _ seen' A). now rewrite app_nil_r.
Qed.

(** X9.  The text of every extracted step has no white space at either end,
    and no comment is both an action step and a verification step: together
    the two lists are no longer than the list of comments. *)
Theorem steps_are_trimmed_and_of_one_kind (descendants : list (list TestParser.Comment)) :
  Forall (fun s => JsString.trim (TestStep.text s) = TestStep.text s)
    (TestParser.extractActionSteps descendants ++ TestParser.extractVerificationSteps descendants)
  /\ (List.length (TestParser.extractActionSteps descendants)
      + List.length (TestParser.extractVerificationSteps descendants)
      <= List.length (List.concat descendants))%nat.
Proof.
  unfold TestParser.extractActionSteps, TestParser.extractVerificationSteps.
  rewrite !extractSteps_spec. split.
  - apply Forall_app. split; apply List.Forall_flat_map, List.Forall_forall; intros c _;
      match goal with
      | |- Forall _ (TestParser.stepOf ?m c) =>
          apply (Forall_impl _ _ _ (stepOf_trimmed m c)); now intros s [H _]
      end.
  - etransitivity; [|apply (firstAtPosition_length _ ∅)].
    induction (Spec.firstAtPosition ∅ (List.concat descendants)) as [|c l IH]; [reflexivity|].
    cbn [flat_map List.length]. rewrite !List.length_app.
    assert (L : forall m, (List.length (TestParser.stepOf m c) <= 1)%nat).
    { intros m. unfold TestParser.stepOf. cbv zeta. destruct (JsString.startsWith _ _); cbn; lia. }
    pose proof (L "// #"). pose proof (L "// *").
    destruct (stepOf_exclusive c) as [E|E]; rewrite E in *; cbn [List.length] in *; lia.
Qed.

(** X10.  [parseTestFile] turns every [Error] into a [ParserError] whose
    message starts with [Failed to read file <path>: ]; an error of the
    syntax-tree library is wrapped twice, by [parseTestCode] and then by
    [parseTestFile].  A thrown value that is no [Error] passes unchanged, and
    on success the result holds the path, the tests and their number. *)
Theorem parseTestFile_wraps_errors (w : World) (projectKey filePath : string) :
  (forall cls message,
      readFileSync w filePath = Throw (ErrorObject cls message) ->
      ParserIO.parseTestFile w projectKey filePath
      = Throw (ErrorObject ClassParserError
                 ("Failed to read file " ++ filePath ++ ": " ++ message)))
  /\ (forall content cls message,
        readFileSync w filePath = Ok content ->
        createSourceFile w filePath content = Throw (ErrorObject cls message) ->
        ParserIO.parseTestFile w projectKey filePath
        = Throw (ErrorObject ClassParserError
                   ("Failed to read file " ++ filePath ++ ": Failed to parse file "
                    ++ filePath ++ ": " ++ message)))
  /\ (forall value,
        readFileSync w filePath = Throw (NonError value)
        \/ (exists content, readFileSync w filePath = Ok content
                            /\ createSourceFile w filePath content = Throw (NonError value)) ->
        ParserIO.parseTestFile w projectKey filePath = Throw (NonError value))
  /\ (forall content sourceFile,
        readFileSync w filePath = Ok content ->
        createSourceFile w filePath content = Ok sourceFile ->
        ParserIO.parseTestFile w projectKey filePath
        = Ok (TestParser.mkParseResult filePath
                (TestParser.extractTests projectKey sourceFile)
                (List.length (TestParser.extractTests projectKey sourceFile))))
  /\ (forall cls message,
        ParserIO.parseTestFile w projectKey filePath = Throw (ErrorObject cls message) ->
        cls = ClassParserError
        /\ JsString.startsWith ("Failed to read file " ++ filePath ++ ": ") message = true).
Proof.
  unfold ParserIO.parseTestFile, ParserIO.parseTestCode.
  split; [|split; [|split; [|split]]].
  - intros cls message ->. reflexivity.
  - intros content cls message -> ->. reflexivity.
  - intros value [-> | (content & -> & ->)]; reflexivity.
  - intros content sourceFile -> ->. reflexivity.
  - intros cls message.
    assert (P : forall m,
               JsString.startsWith ("Failed to read file " ++ filePath ++ ": ")
                 ("Failed to read file " ++ filePath ++ ": " ++ m) = true).
    { intros m. unfold JsString.startsWith.
      replace ("Failed to read file " ++ filePath ++ ": " ++ m)
        with (("Failed to read file " ++ filePath ++ ": ") ++ m)
        by (now rewrite !append_assoc).
      now rewrite stripPrefix_append. }
    destruct (readFileSync w filePath) as [content|[c m|v]].
    + destruct (createSourceFile w filePath content) as [sf|[c m|v]]; cbn [ParserIO.rethrow];
        try discriminate.
      intros E. injection E as <- <-. split; [reflexivity|apply P].
    + cbn [ParserIO.rethrow]. intros E. injection E as <- <-. split; [reflexivity|apply P].
    + discriminate.
Qed.

(** X11.  The tags are read off the first documentation block of the file, so
    all the tests of a file have the same objective, precondition and known
    issue, and the objective rule of the validator fails for all of them or
    for none.  There are at most as many tests as call expressions. *)
Theorem tests_of_a_file_share_documentation
    (projectKey : string) (sourceFile : TestParser.SourceFile) (config : ValidationConfig.t) :
  let tests := TestParser.extractTests projectKey sourceFile in
  Forall (fun t => Spec.documentation t
                   = (JSDocTags.objective (TestParser.jsdoc sourceFile),
                      JSDocTags.precondition (TestParser.jsdoc sourceFile),
                      JSDocTags.knownIssue (TestParser.jsdoc sourceFile))) tests
  /\ (Forall (fun t => Validator.objectiveIssue config t = []) tests
      \/ Forall (fun t => Validator.objectiveIssue config t <> []) tests)
  /\ (List.length tests <= List.length (TestParser.callExpressions sourceFile))%nat.
Proof.
  cbv zeta.
  assert (D : Forall (fun t => Spec.documentation t
                   = (JSDocTags.objective (TestParser.jsdoc sourceFile),
                      JSDocTags.precondition (TestParser.jsdoc sourceFile),
                      JSDocTags.knownIssue (TestParser.jsdoc sourceFile)))
                (TestParser.extractTests projectKey sourceFile)).
  { unfold TestParser.extractTests. apply List.Forall_flat_map, List.Forall_forall.
    intros node _. destruct (TestParser.parseTestCallExpression _ _ _) as [t|] eqn:E;
      constructor; [|constructor].
    unfold TestParser.parseTestCallExpression in E.
    destruct (TestParser.testTypeOf _); [|discriminate].
    destruct (TestParser.arguments node) as [|[title| | | |] [|second rest]]; try discriminate.
    destruct rest as [|third rest].
    - destruct (TestParser.bodyOf second) as [[ds|]|]; try discriminate.
      injection E as <-. reflexivity.
    - destruct (TestParser.bodyOf third) as [[ds|]|]; try discriminate.
      injection E as <-. unfold Spec.documentation. cbn [ParsedTest.jsdocTags].
      unfold TestParser.withPlaywrightTags. now destruct (TestParser.tagsOf second). }
  split; [exact D|]. split.
  - unfold Validator.objectiveIssue.
    destruct ((Validator.includes "objective" (ValidationConfig.requiredTags config)
               || Validator.includes "@objective" (ValidationConfig.requiredTags config))
              && negb (truthyOpt (JSDocTags.objective (TestParser.jsdoc sourceFile))))%bool eqn:C;
      [right|left]; (eapply Forall_impl; [exact D|]); intros t Ht;
      unfold Spec.documentation in Ht; injection Ht as -> _ _; now rewrite C.
  - unfold TestParser.extractTests.
    induction (TestParser.callExpressions sourceFile) as [|node l IH]; [reflexivity|].
    cbn [flat_map]. rewrite List.length_app.
    destruct (TestParser.parseTestCallExpression _ _ _); cbn [List.length]; lia.
Qed.

(* ===================================================================== *)
(** ** The mapping manager: messages and directories *)
(* ===================================================================== *)

Section MappingFiles.
Variable w : World.

Lemma validateMapping_message (entry : json) (e : thrown) :
  MappingManager.validateMapping entry = Throw e ->
  exists message, e = ErrorObject ClassError message /\ Spec.entryMessage message.
Proof.
  unfold MappingManager.validateMapping, Spec.entryMessage.
  destruct (MappingManager.membersOf entry) as [members|].
  2:{ intros E. injection E as <-. eexists. split; [reflexivity|]. now left. }
  destruct (MappingManager.firstMissing MappingManager.requiredFields members) as [f|] eqn:F.
  { intros E. injection E as <-. eexists. split; [reflexivity|]. right. left.
    exists f. split; [|reflexivity]. unfold MappingManager.firstMissing in F.
    now apply List.find_some in F. }
  assert (M : exists f, In f MappingManager.requiredFields
                        /\ "Missing required field: metadata" = "Missing required field: " ++ f).
  { exists "metadata". split; [|reflexivity]. unfold MappingManager.requiredFields. simpl. tauto. }
  destruct (Json.get "metadata" members) as [metadata|].
  2:{ intros E. injection E as <-. eexists. split; [reflexivity|]. right. left. exact M. }
  destruct (MappingManager.membersOf metadata) as [metadataMembers|].
  2:{ intros E. injection E as <-. eexists. split; [reflexivity|]. right. left. exact M. }
  destruct (MappingManager.firstMissing MappingManager.requiredMetadataFields metadataMembers)
    as [f|] eqn:G; [|discriminate].
  intros E. injection E as <-. eexists. split; [reflexivity|]. right. right.
  exists f. split; [|reflexivity]. unfold MappingManager.firstMissing in G.
  now apply List.find_some in G.
Qed.

Lemma validateAll_message (data : list json) (e : thrown) :
  MappingManager.validateAll data = Throw e ->
  exists message, e = ErrorObject ClassError message /\ Spec.entryMessage message.
Proof.
  induction data as [|entry rest IH]; [discriminate|]. cbn [MappingManager.validateAll].
  destruct (MappingManager.validateMapping entry) as [[]|e'] eqn:V; [exact IH|].
  intros E. injection E as <-. now apply validateMapping_message in V.
Qed.


End MappingFiles.

(** X20.  What [loadMapping] throws: the error of the read, unchanged unless
    it is a [SyntaxError]; [Invalid JSON in mapping file: <path>] for a text
    that does not parse; [Mapping file must contain an array]; or, for an
    entry, [Mapping must be an object] or the first missing field by name. *)
Theorem loadMapping_error_messages (w : World) (filePath : string) (e : thrown) :
  MappingManager.loadMapping w filePath = Throw e ->
  existsSync w filePath = true
  /\ ((exists e', readFile w filePath = Throw e' /\ e = MappingManager.rethrow filePath e')
      \/ (exists content,
            readFile w filePath = Ok content
            /\ ((JSON_parse w content = None
                 /\ e = ErrorObject ClassError ("Invalid JSON in mapping file: " ++ filePath))
                \/ ((exists value, JSON_parse w content = Some value
                                   /\ forall data, value <> JArray data)
                    /\ e = ErrorObject ClassError "Mapping file must contain an array")
                \/ (exists data message,
                      JSON_parse w content = Some (JArray data)
                      /\ e = ErrorObject ClassError message
                      /\ Spec.entryMessage message)))).
Proof.
  unfold MappingManager.loadMapping.
  destruct (existsSync w filePath); cbn [negb]; [|discriminate].
  intros E. split; [reflexivity|].
  destruct (readFile w filePath) as [content|e'].
  2:{ left. exists e'. split; [reflexivity|]. now injection E. }
  right. exists content. split; [reflexivity|].
  destruct (JSON_parse w content) as [value|].
  2:{ left. split; [reflexivity|]. now injection E. }
  right.
  destruct value as [|b|n|s|data|members];
    try (left; split; [eexists; split; [reflexivity|discriminate]|now injection E]).
  right. destruct (MappingManager.validateAll data) as [[]|e'] eqn:V; [discriminate|].
  destruct (validateAll_message data e' V) as (message & -> & M).
  exists data, message. split; [reflexivity|]. split; [now injection E|exact M].
Qed.

Lemma loadMapping_error_messages_witness :
  let w := mkWorld (fun path => Ok "source")
             (fun path code => Throw (NonError "unused"))
             (fun path => true) (fun path => Ok "{ 1 }") (fun content => None)
             (fun directoryPath patterns => []) in
  MappingManager.loadMapping w "a.mapping.json"
  = Throw (ErrorObject ClassError "Invalid JSON in mapping file: a.mapping.json")
  /\ existsSync w "a.mapping.json" = true.
Proof.
  split; [reflexivity|].
  exact (proj1 (loadMapping_error_messages
                  (mkWorld (fun path => Ok "source")
                     (fun path code => Throw (NonError "unused"))
                     (fun path => true) (fun path => Ok "{ 1 }") (fun content => None)
                     (fun directoryPath patterns => []))
                  "a.mapping.json"
                  (ErrorObject ClassError "Invalid JSON in mapping file: a.mapping.json")
                  eq_refl)).
Defined.



(* ===================================================================== *)
(** ** The hash utilities *)
(* ===================================================================== *)

Section HashLines.
Import HashUtils.

Lemma split_nonempty (s : string) : split s <> [].
Proof.
  destruct s as [|c r]; [discriminate|]. cbn [split].
  destruct (Ascii.eqb c (ascii_of_nat 10)); [discriminate|]. now destruct (split r).
Qed.

Lemma split_lineFree (s : string) : Spec.lineFree s -> split s = [s].
Proof.
  unfold Spec.lineFree, Spec.LFchar. induction s as [|c r IH]; [reflexivity|].
  cbn [JsString.contains split]. rewrite (Ascii.eqb_sym c).
  destruct (Ascii.eqb (ascii_of_nat 10) c); [discriminate|]. cbn [orb].
  intros H. now rewrite (IH H).
Qed.

Lemma split_app (a b : string) : split (a ++ LF ++ b) = (split a ++ split b)%list.
Proof.
  induction a as [|c r IH].
  - reflexivity.
  - change (String c r ++ LF ++ b) with (String c (r ++ LF ++ b)). cbn [split].
    rewrite IH. destruct (Ascii.eqb c (ascii_of_nat 10)); [reflexivity|].
    pose proof (split_nonempty r). now destruct (split r).
Qed.

Lemma split_join (lines : list string) :
  lines <> [] -> Forall Spec.lineFree lines -> split (JsString.join LF lines) = lines.
Proof.
  intros N H. induction H as [|x l Hx Hl IH]; [now elim N|].
  destruct l as [|y l]; [now apply split_lineFree|].
  change (JsString.join LF (x :: y :: l)) with (x ++ LF ++ JsString.join LF (y :: l)).
  rewrite split_app, (split_lineFree x Hx), IH by discriminate. reflexivity.
Qed.

Lemma collapse_idempotent (s : string) :
  (forall f, collapse false (collapse f s) = collapse f s)
  /\ collapse true (collapse true s) = collapse true s.
Proof.
  induction s as [|c r [IH1 IH2]]; [split; [intros []|]; reflexivity|].
  split.
  - intros f. cbn [collapse]. destruct (JsString.isWhiteSpace c) eqn:W.
    + destruct f; [apply IH1|]. cbn [collapse]. change (JsString.isWhiteSpace " ") with true.
      cbn iota. now rewrite IH2.
    + cbn [collapse]. now rewrite W, IH1.
  - cbn [collapse]. destruct (JsString.isWhiteSpace c) eqn:W; [exact IH2|].
    cbn [collapse]. now rewrite W, IH1.
Qed.

Lemma collapse_lineFree (f : bool) (s : string) : Spec.lineFree (collapse f s).
Proof.
  unfold Spec.lineFree. revert f. induction s as [|c r IH]; intros f; [reflexivity|].
  cbn [collapse]. destruct (JsString.isWhiteSpace c) eqn:W.
  - destruct f; [apply IH|]. cbn [JsString.contains]. now rewrite IH.
  - cbn [JsString.contains]. rewrite IH, orb_false_r.
    destruct (Ascii.eqb_spec Spec.LFchar c) as [<-|]; [discriminate W|reflexivity].
Qed.

Lemma collapse_empty (f : bool) (s : string) :
  collapse f s = "" -> JsString.all JsString.isWhiteSpace s = true.
Proof.
  revert f. induction s as [|c r IH]; intros f; [reflexivity|].
  cbn [collapse JsString.all]. destruct (JsString.isWhiteSpace c); [|discriminate].
  destruct f; [apply IH|discriminate].
Qed.

Lemma trimEnd_fixed (s : string) :
  JsString.trimEnd s = s <-> s = "" \/ JsString.all JsString.isWhiteSpace s = false /\ JsString.trimEnd s = s.
Proof.
  split; [|intros [->|[_ H]]; [reflexivity|exact H]].
  intros H. destruct s as [|c r]; [now left|]. right. split; [|exact H].
  destruct (JsString.all JsString.isWhiteSpace (String c r)) eqn:A; [|reflexivity].
  apply trimEnd_only_spaces in A. congruence.
Qed.

Lemma trimEnd_collapse (s : string) (f : bool) :
  JsString.trimEnd s = s -> JsString.trimEnd (collapse f s) = collapse f s.
Proof.
  revert f. induction s as [|c r IH]; intros f H; [reflexivity|].
  assert (R : JsString.trimEnd r = r /\ (r = "" -> JsString.isWhiteSpace c = false)).
  { cbn [JsString.trimEnd] in H. destruct (JsString.trimEnd r) as [|d r'] eqn:T.
    - destruct (JsString.isWhiteSpace c); [discriminate|]. injection H as <-. now split.
    - injection H as <-. split; [reflexivity|discriminate]. }
  destruct R as [R1 R2].
  assert (K : forall x g, (collapse g r = "" -> JsString.isWhiteSpace x = false) ->
                JsString.trimEnd (String x (collapse g r)) = String x (collapse g r)).
  { intros x g Hx. cbn [JsString.trimEnd]. rewrite (IH g R1).
    destruct (collapse g r); [now rewrite Hx|reflexivity]. }
  assert (E : forall g, collapse g r = "" -> r = "").
  { intros g Hg. apply collapse_empty in Hg. apply trimEnd_only_spaces in Hg. congruence. }
  cbn [collapse]. destruct (JsString.isWhiteSpace c) eqn:W.
  - destruct f; [now apply IH|]. apply K. intros Hg. apply E in Hg. apply R2 in Hg. congruence.
  - apply K. intros _. exact W.
Qed.

Lemma trim_head (s : string) : Spec.stops JsString.isWhiteSpace (JsString.trim s).
Proof.
  unfold JsString.trim. destruct (trimStart_split s) as (spaces & _ & St & _).
  destruct (JsString.trimStart s) as [|c r]; [exact I|]. cbn in St. cbn [JsString.trimEnd].
  destruct (JsString.trimEnd r); [now rewrite St|exact St].
Qed.

Lemma trimStart_stops (s : string) :
  Spec.stops JsString.isWhiteSpace s -> JsString.trimStart s = s.
Proof. destruct s as [|c r]; [reflexivity|]. cbn. now intros ->. Qed.

Lemma trimEnd_idempotent (s : string) : JsString.trimEnd (JsString.trimEnd s) = JsString.trimEnd s.
Proof.
  induction s as [|c r IH]; [reflexivity|]. cbn [JsString.trimEnd].
  destruct (JsString.trimEnd r) as [|d r'] eqn:T.
  - destruct (JsString.isWhiteSpace c) eqn:W; [reflexivity|]. cbn. now rewrite W.
  - cbn [JsString.trimEnd] in *. destruct (JsString.trimEnd r') eqn:T'.
    + destruct (JsString.isWhiteSpace d); [discriminate|]. now rewrite IH.
    + now rewrite IH.
Qed.

Lemma clean_line (line : string) :
  JsString.trim line <> "" -> Spec.clean (collapse false (JsString.trim line)).
Proof.
  intros N. pose proof (trim_head line) as St.
  assert (Te : JsString.trimEnd (JsString.trim line) = JsString.trim line)
    by apply trimEnd_idempotent.
  destruct (JsString.trim line) as [|c r] eqn:T; [now elim N|]. cbn in St.
  assert (C : collapse false (String c r) = String c (collapse false r))
    by (cbn [collapse]; now rewrite St).
  split; [rewrite C; discriminate|]. split; [apply collapse_lineFree|].
  split; [|apply collapse_idempotent].
  unfold JsString.trim. rewrite trimStart_stops by (rewrite C; exact St).
  now apply trimEnd_collapse.
Qed.

Lemma normalizedLines_clean (content : string) : Forall Spec.clean (normalizedLines content).
Proof.
  unfold normalizedLines. induction (split content) as [|line l IH]; [constructor|].
  cbn [List.map List.filter].
  destruct (JsString.trim line) as [|c r] eqn:T; [exact IH|].
  change (Nat.ltb 0 (String.length (String c r))) with true. cbn [List.map].
  constructor; [|exact IH].
  rewrite <- T. apply clean_line. rewrite T. discriminate.
Qed.

Lemma clean_lines_fixed (lines : list string) :
  Forall Spec.clean lines ->
  List.map (collapse false)
    (List.filter (fun line => Nat.ltb 0 (String.length line)) (List.map JsString.trim lines))
  = lines.
Proof.
  induction 1 as [|y k (N & _ & T & C) Hk IH]; [reflexivity|].
  cbn [List.map List.filter]. rewrite T.
  destruct y as [|c r]; [now elim N|].
  change (Nat.ltb 0 (String.length (String c r))) with true. cbn [List.map].
  now rewrite C, IH.
Qed.

Lemma normalizedLines_of_clean (lines : list string) :
  Forall Spec.clean lines -> normalizedLines (JsString.join LF lines) = lines.
Proof.
  intros H. destruct lines as [|x l]; [reflexivity|].
  unfold normalizedLines. rewrite split_join; [now apply clean_lines_fixed|discriminate|].
  eapply Forall_impl; [exact H|]. now intros s (_ & L & _).
Qed.

Lemma normalizedLines_app (a b : string) :
  normalizedLines (a ++ LF ++ b) = (normalizedLines a ++ normalizedLines b)%list.
Proof.
  unfold normalizedLines. now rewrite split_app, List.map_app, List.filter_app, List.map_app.
Qed.

Lemma all_isWhiteSpace_split (blank : string) :
  JsString.all JsString.isWhiteSpace blank = true ->
  Forall (fun line => JsString.all JsString.isWhiteSpace line = true) (split blank).
Proof.
  induction blank as [|c r IH]; [repeat constructor|].
  cbn [JsString.all split]. intros H. apply andb_true_iff in H as [Hc Hr].
  specialize (IH Hr). destruct (Ascii.eqb c (ascii_of_nat 10)); [now constructor|].
  destruct (split r) as [|x l]; [repeat constructor; cbn; now rewrite Hc|].
  apply Forall_cons in IH as [Hx Hl]. constructor; [cbn; now rewrite Hc, Hx|exact Hl].
Qed.

Lemma normalizedLines_blank (blank : string) :
  JsString.all JsString.isWhiteSpace blank = true -> normalizedLines blank = [].
Proof.
  intros H. apply all_isWhiteSpace_split in H. unfold normalizedLines.
  induction H as [|x l Hx Hl IH]; [reflexivity|].
  cbn [List.map List.filter]. unfold JsString.trim.
  rewrite (trimStart_only_spaces x Hx). exact IH.
Qed.

End HashLines.

Section HashLayout.
Import HashUtils.

Lemma split_cons (c : ascii) (r : string) :
  Ascii.eqb c (ascii_of_nat 10) = false ->
  exists first rest, split r = first :: rest /\ split (String c r) = String c first :: rest.
Proof.
  intros H. cbn [split]. rewrite H. pose proof (split_nonempty r).
  destruct (split r) as [|first rest]; [congruence|]. now exists first, rest.
Qed.

Lemma trimmed_lines_left (l x : string) :
  JsString.all JsString.isWhiteSpace l = true ->
  List.filter (fun line => Nat.ltb 0 (String.length line)) (List.map JsString.trim (split (l ++ x)))
  = List.filter (fun line => Nat.ltb 0 (String.length line)) (List.map JsString.trim (split x)).
Proof.
  induction l as [|c l IH]; [reflexivity|]. cbn [JsString.all]. intros H.
  apply andb_true_iff in H as [Hc Hl]. specialize (IH Hl).
  change (String c l ++ x) with (String c (l ++ x)).
  destruct (Ascii.eqb c (ascii_of_nat 10)) eqn:E.
  - cbn [split]. rewrite E. cbn [List.map List.filter]. exact IH.
  - destruct (split_cons c (l ++ x) E) as (first & rest & S1 & S2). rewrite S2.
    rewrite S1 in IH. cbn [List.map] in *. unfold JsString.trim at 1. cbn [JsString.trimStart].
    rewrite Hc. exact IH.
Qed.

(** The lines of [x ++ y]: the last line of [x] runs on with the first of [y]. *)
Lemma split_append (x y : string) :
  exists init final first rest,
    split x = (init ++ [final])%list /\ split y = first :: rest
    /\ split (x ++ y) = (init ++ (final ++ first)%string :: rest)%list.
Proof.
  pose proof (split_nonempty y) as Ny. destruct (split y) as [|first rest] eqn:Sy; [congruence|].
  clear Ny. induction x as [|c x (init & final & first' & rest' & Sx & E & Sxy)].
  - exists [], "", first, rest. cbn. now rewrite Sy.
  - injection E as <- <-. change (String c x ++ y) with (String c (x ++ y)). cbn [split].
    rewrite Sx, Sxy. destruct (Ascii.eqb c (ascii_of_nat 10)).
    + now exists ("" :: init), final, first, rest.
    + destruct init as [|i init]; cbn [List.app].
      * now exists [], (String c final), first, rest.
      * now exists (String c i :: init), final, first, rest.
Qed.

Lemma trimmed_lines_right (x r : string) :
  JsString.all JsString.isWhiteSpace r = true ->
  List.filter (fun line => Nat.ltb 0 (String.length line)) (List.map JsString.trim (split (x ++ r)))
  = List.filter (fun line => Nat.ltb 0 (String.length line)) (List.map JsString.trim (split x)).
Proof.
  intros H. destruct (split_append x r) as (init & final & first & rest & Sx & Sr & Sxr).
  rewrite Sxr, Sx. apply all_isWhiteSpace_split in H. rewrite Sr in H.
  apply Forall_cons in H as [Hf Hr].
  rewrite !List.map_app, !List.filter_app. f_equal. cbn [List.map List.filter].
  rewrite (trim_spaces_right final first Hf). f_equal.
  clear -Hr. induction Hr as [|s l Hs Hl IH]; [reflexivity|].
  cbn [List.map List.filter]. unfold JsString.trim. now rewrite (trimStart_only_spaces s Hs).
Qed.

Lemma normalizedLines_padded (l x r : string) :
  JsString.all JsString.isWhiteSpace l = true ->
  JsString.all JsString.isWhiteSpace r = true ->
  normalizedLines (l ++ x ++ r) = normalizedLines x.
Proof.
  intros Hl Hr. unfold normalizedLines.
  now rewrite (trimmed_lines_left l (x ++ r) Hl), (trimmed_lines_right x r Hr).
Qed.

End HashLayout.

Lemma normalized_idempotent (content : string) :
  HashUtils.normalized (HashUtils.normalized content) = HashUtils.normalized content.
Proof.
  unfold HashUtils.normalized at 1 3. f_equal. unfold HashUtils.normalized.
  apply normalizedLines_of_clean, normalizedLines_clean.
Qed.

(** X22.  The lines [hashTestContent] hashes are not empty, hold no line feed
    and no white space at either end, and have single blanks for white space;
    normalising a second time changes nothing, so a text and its normal form
    have the same hash. *)
Theorem normalized_is_a_fixed_point (content : string) :
  Forall Spec.clean (HashUtils.normalizedLines content)
  /\ HashUtils.normalized (HashUtils.normalized content) = HashUtils.normalized content
  /\ HashUtils.hashTestContent (HashUtils.normalized content)
     = HashUtils.hashTestContent content.
Proof.
  split; [apply normalizedLines_clean|]. split; [apply normalized_idempotent|].
  unfold HashUtils.hashTestContent. now rewrite normalized_idempotent.
Qed.

(** X23.  White space around a text, white space around a line and lines of
    white space only do not change the hash. *)
Theorem hashTestContent_ignores_layout (a x b l r : string) :
  JsString.all JsString.isWhiteSpace l = true ->
  JsString.all JsString.isWhiteSpace r = true ->
  HashUtils.hashTestContent (l ++ x ++ r) = HashUtils.hashTestContent x
  /\ HashUtils.hashTestContent (a ++ LF ++ (l ++ x ++ r) ++ LF ++ b)
     = HashUtils.hashTestContent (a ++ LF ++ x ++ LF ++ b)
  /\ HashUtils.hashTestContent (a ++ LF ++ l ++ LF ++ b)
     = HashUtils.hashTestContent (a ++ LF ++ b).
Proof.
  intros Hl Hr. unfold HashUtils.hashTestContent, HashUtils.normalized.
  split; [now rewrite normalizedLines_padded|].
  split; repeat rewrite normalizedLines_app.
  - now rewrite normalizedLines_padded.
  - now rewrite (normalizedLines_blank l Hl).
Qed.

Lemma hashTestContent_ignores_layout_witness :
  JsString.all JsString.isWhiteSpace "    " = true
  /\ JsString.all JsString.isWhiteSpace "  " = true
  /\ HashUtils.hashTestContent ("    " ++ "await page.goto('/');" ++ "  ")
     = HashUtils.hashTestContent "await page.goto('/');".
Proof.
  split; [reflexivity|]. split; [reflexivity|].
  exact (proj1 (hashTestContent_ignores_layout "" "await page.goto('/');" "" "    " "  "
                  eq_refl eq_refl)).
Defined.

(** X25.  [hasContentChanged] is false exactly for the hash of the content,
    and true without a previous hash; [compareHashes] holds of two equal
    strings only, never of [null]; against its own hash the normal form of a
    content has not changed. *)
Theorem hasContentChanged_iff (currentContent : string) (previousHash : option string) :
  (HashUtils.hasContentChanged currentContent previousHash = false
   <-> previousHash = Some (HashUtils.hashTestContent currentContent))
  /\ (forall hash1 hash2,
        HashUtils.compareHashes hash1 hash2 = true
        <-> exists h, hash1 = Some h /\ hash2 = Some h)
  /\ HashUtils.hasContentChanged (HashUtils.normalized currentContent)
       (Some (HashUtils.hashTestContent currentContent)) = false.
Proof.
  assert (C : forall hash1 hash2,
             HashUtils.compareHashes hash1 hash2 = true
             <-> exists h, hash1 = Some h /\ hash2 = Some h).
  { intros [h1|] [h2|]; cbn; split; try discriminate.
    - intros E. apply String.eqb_eq in E. subst. now exists h2.
    - intros (h & A & B). injection A as ->. injection B as ->. apply String.eqb_refl.
    - intros (h & A & B). discriminate.
    - intros (h & A & B). discriminate.
    - intros (h & A & B). discriminate. }
  assert (E : HashUtils.hasContentChanged currentContent previousHash = false
              <-> previousHash = Some (HashUtils.hashTestContent currentContent)).
  { unfold HashUtils.hasContentChanged. destruct previousHash as [p|]; [|split; discriminate].
    rewrite negb_false_iff, C. split.
    - intros (h & A & B). injection A as <-. exact B.
    - intros ->. now eexists. }
  split; [exact E|]. split; [exact C|].
  unfold HashUtils.hasContentChanged, HashUtils.compareHashes.
  unfold HashUtils.hashTestContent. rewrite normalized_idempotent.
  now rewrite String.eqb_refl.
Qed.

Section HashRuns.
Import HashUtils.

Lemma collapse_trimStart (s : string) : collapse false (JsString.trimStart s) = collapse true s.
Proof.
  induction s as [|c r IH]; [reflexivity|]. cbn [JsString.trimStart collapse].
  destruct (JsString.isWhiteSpace c) eqn:W; [exact IH|]. cbn [collapse]. now rewrite W.
Qed.

Lemma collapse_blank (f : bool) (s : string) :
  JsString.all JsString.isWhiteSpace s = true ->
  collapse f s = "" \/ collapse f s = " ".
Proof.
  revert f. induction s as [|c r IH]; intros f; [now left|]. cbn [JsString.all collapse].
  intros H. apply andb_true_iff in H as [-> Hr].
  destruct f; [apply IH, Hr|]. right. destruct (IH true Hr) as [E|E]; [now rewrite E|].
  exfalso. clear IH. revert E. generalize Hr. clear.
  induction r as [|c r IH]; [discriminate|]. cbn [JsString.all collapse].
  intros H. apply andb_true_iff in H as [-> Hr]. now apply IH.
Qed.

Lemma trimEnd_empty (s : string) :
  JsString.trimEnd s = "" -> JsString.all JsString.isWhiteSpace s = true.
Proof.
  intros E. destruct (trimEnd_split s) as (spaces & A & B). rewrite E in B. now subst.
Qed.

Lemma collapse_trimEnd (t : string) (g : bool) :
  collapse g (JsString.trimEnd t) = JsString.trimEnd (collapse g t).
Proof.
  revert g. induction t as [|c r IH]; intros g; [reflexivity|].
  cbn [JsString.trimEnd]. destruct (JsString.trimEnd r) as [|d r'] eqn:T.
  - pose proof (IH true) as I1. pose proof (IH false) as I0. cbn [collapse] in I1, I0.
    destruct (JsString.isWhiteSpace c) eqn:W; cbn [collapse]; rewrite W.
    + destruct g; [exact I1|]. cbn [JsString.trimEnd]. now rewrite <- I1.
    + cbn [JsString.trimEnd]. now rewrite <- I0, W.
  - assert (N : forall f, JsString.trimEnd (collapse f r) <> "").
    { intros f E. rewrite <- IH in E. apply collapse_empty in E.
      apply trimEnd_only_spaces in E. rewrite <- T, trimEnd_idempotent, T in E.
      discriminate. }
    set (u := String d r') in *. cbn [collapse].
    destruct (JsString.isWhiteSpace c) eqn:W.
    + destruct g; [apply IH|]. cbn [JsString.trimEnd]. rewrite <- IH.
      specialize (N true). rewrite <- IH in N. now destruct (collapse true u).
    + cbn [JsString.trimEnd]. rewrite <- IH.
      specialize (N false). rewrite <- IH in N. now destruct (collapse false u).
Qed.

Lemma collapse_trim (s : string) :
  collapse false (JsString.trim s) = JsString.trimEnd (collapse true s).
Proof. unfold JsString.trim. now rewrite collapse_trimEnd, collapse_trimStart. Qed.

Lemma collapse_run_head (f : bool) (w q : string) :
  w <> "" -> JsString.all JsString.isWhiteSpace w = true ->
  collapse f (w ++ q) = collapse f (" " ++ q).
Proof.
  intros N H. destruct w as [|c w]; [now elim N|]. cbn [JsString.all] in H.
  apply andb_true_iff in H as [Hc Hw]. change (String c w ++ q) with (String c (w ++ q)).
  cbn [collapse]. rewrite Hc. change (JsString.isWhiteSpace " ") with true. cbn iota.
  assert (E : collapse true (w ++ q) = collapse true q).
  { clear -Hw. induction w as [|d w IH]; [reflexivity|]. cbn [JsString.all] in Hw.
    apply andb_true_iff in Hw as [Hd Hw]. change (String d w ++ q) with (String d (w ++ q)).
    cbn [collapse]. rewrite Hd. now apply IH. }
  change (" " ++ q) with (String " " q). cbn [collapse].
  change (JsString.isWhiteSpace " ") with true. cbn iota. now rewrite E.
Qed.

Lemma collapse_run (f : bool) (p w q : string) :
  w <> "" -> JsString.all JsString.isWhiteSpace w = true ->
  collapse f (p ++ w ++ q) = collapse f (p ++ " " ++ q).
Proof.
  intros N H. revert f. induction p as [|c p IH]; intros f.
  - exact (collapse_run_head f w q N H).
  - change (String c p ++ w ++ q) with (String c (p ++ w ++ q)).
    change (String c p ++ " " ++ q) with (String c (p ++ " " ++ q)).
    cbn [collapse]. now rewrite !IH.
Qed.

Lemma trim_empty_iff (s : string) :
  JsString.trim s = "" <-> JsString.all JsString.isWhiteSpace s = true.
Proof.
  split.
  - intros E. unfold JsString.trim in E. apply trimEnd_empty in E.
    destruct (trimStart_split s) as (spaces & A & _ & B). rewrite B, all_append, A. exact E.
  - intros H. unfold JsString.trim. now rewrite (trimStart_only_spaces s H).
Qed.

Lemma normalizedLines_line (line : string) :
  Spec.lineFree line ->
  normalizedLines line
  = if JsString.all JsString.isWhiteSpace line then []
    else [JsString.trimEnd (collapse true line)].
Proof.
  intros L. unfold normalizedLines. rewrite (split_lineFree line L).
  cbn [List.map List.filter].
  destruct (JsString.all JsString.isWhiteSpace line) eqn:A.
  - apply trim_empty_iff in A. now rewrite A.
  - destruct (JsString.trim line) as [|c r] eqn:T.
    + apply trim_empty_iff in T. congruence.
    + change (Nat.ltb 0 (String.length (String c r))) with true. cbn [List.map].
      now rewrite <- T, collapse_trim.
Qed.

End HashRuns.

(** X24.  Inside a line a run of white space counts as one blank. *)
Theorem hashTestContent_collapses_runs (a p w q b : string) :
  Spec.lineFree p -> Spec.lineFree q -> Spec.lineFree w ->
  w <> "" -> JsString.all JsString.isWhiteSpace w = true ->
  HashUtils.hashTestContent (a ++ LF ++ (p ++ w ++ q) ++ LF ++ b)
  = HashUtils.hashTestContent (a ++ LF ++ (p ++ " " ++ q) ++ LF ++ b).
Proof.
  intros Lp Lq Lw N H. unfold HashUtils.hashTestContent, HashUtils.normalized.
  do 2 f_equal. rewrite !normalizedLines_app. do 2 f_equal.
  assert (L1 : Spec.lineFree (p ++ w ++ q)).
  { unfold Spec.lineFree in *. now rewrite !contains_append, Lp, Lw, Lq. }
  assert (L2 : Spec.lineFree (p ++ " " ++ q)).
  { unfold Spec.lineFree in *. now rewrite !contains_append, Lp, Lq. }
  rewrite (normalizedLines_line _ L1), (normalizedLines_line _ L2).
  rewrite !all_append, H. change (JsString.all JsString.isWhiteSpace " ") with true.
  now rewrite (collapse_run true p w q N H).
Qed.

Lemma hashTestContent_collapses_runs_witness :
  Spec.lineFree "await" /\ Spec.lineFree "page" /\ Spec.lineFree "    "
  /\ "    " <> "" /\ JsString.all JsString.isWhiteSpace "    " = true
  /\ HashUtils.hashTestContent ("test" ++ LF ++ ("await" ++ "    " ++ "page") ++ LF ++ "end")
     = HashUtils.hashTestContent ("test" ++ LF ++ ("await" ++ " " ++ "page") ++ LF ++ "end").
Proof.
  assert (N : "    " <> "") by discriminate.
  split; [reflexivity|]. split; [reflexivity|]. split; [reflexivity|].
  split; [exact N|]. split; [reflexivity|].
  exact (hashTestContent_collapses_runs "test" "await" "    " "page" "end"
           eq_refl eq_refl eq_refl N eq_refl).
Defined.

Section ShortHash.

Lemma substring_prefix (n : nat) (s : string) :
  (n <= String.length s)%nat ->
  String.length (String.substring 0 n s) = n
  /\ exists rest, s = String.substring 0 n s ++ rest.
Proof.
  revert s. induction n as [|n IH]; intros s H.
  - destruct s; cbn; split; try reflexivity; now eexists.
  - destruct s as [|c s]; [cbn in H; lia|]. cbn [String.substring String.length] in *.
    destruct (IH s ltac:(lia)) as [L (rest & E)]. split; [now rewrite L|].
    exists rest. cbn. now rewrite <- E.
Qed.

End ShortHash.

(** X26.  [generateTestId] returns the first 8 characters of the hash of
    path, colon, title: 8 hexadecimal characters.  The colon is no reliable
    separator: a path and a title that split the same text elsewhere get the
    same identifier. *)
Theorem generateTestId_shape (filePath testTitle : string) :
  String.length (HashUtils.generateTestId filePath testTitle) = 8%nat
  /\ JsString.all Spec.isHexDigit (HashUtils.generateTestId filePath testTitle) = true
  /\ JsString.startsWith (HashUtils.generateTestId filePath testTitle)
       (HashUtils.hashString (filePath ++ ":" ++ testTitle)) = true
  /\ (forall middle,
        HashUtils.generateTestId (filePath ++ ":" ++ middle) testTitle
        = HashUtils.generateTestId filePath (middle ++ ":" ++ testTitle)).
Proof.
  unfold HashUtils.generateTestId, HashUtils.shortHash, HashUtils.hashString.
  destruct (hex_shape (JsString.utf8 (filePath ++ ":" ++ testTitle))) as [L A].
  destruct (substring_prefix 8 (Sha256.hex (JsString.utf8 (filePath ++ ":" ++ testTitle))))
    as [L8 (rest & E)]; [rewrite L; lia|].
  split; [exact L8|]. split.
  - rewrite E, all_append in A. now apply andb_true_iff in A as [A _].
  - split.
    + unfold JsString.startsWith. rewrite E at 2. now rewrite stripPrefix_append.
    + intros middle. now rewrite append_assoc.
Qed.

(* ===================================================================== *)
(** ** The commands *)
(* ===================================================================== *)

Section Commands.
Local Open Scope Z_scope.

Lemma sumOf_zero (f : FileResult.t -> Z) (l : list FileResult.t) :
  Forall (fun r => f r = 0) l -> Scanner.sumOf f l = 0.
Proof.
  induction 1 as [|r l Hr Hl IH]; [reflexivity|]. rewrite sumOf_cons. lia.
Qed.

Lemma sumOf_positive (f : FileResult.t -> Z) (l : list FileResult.t) :
  Forall (fun r => 0 <= f r) l ->
  (0 < Scanner.sumOf f l <-> Exists (fun r => 0 < f r) l).
Proof.
  induction 1 as [|r l Hr Hl IH]; [split; [cbn; lia|intros E; inversion E]|].
  rewrite sumOf_cons, Exists_cons.
  assert (N : 0 <= Scanner.sumOf f l).
  { clear -Hl. induction Hl as [|x k Hx Hk I]; [cbn; lia|]. rewrite sumOf_cons. lia. }
  split.
  - intros H. destruct (Z.lt_ge_cases 0 (f r)) as [P|P]; [now left|]. right. apply IH. lia.
  - intros [H|H]; [lia|]. apply IH in H. lia.
Qed.

Lemma contribution_consistent (w : World) (config : ValidationConfig.t) (filePath : string) :
  0 <= FileResult.unmappedCount (Spec.contribution w config filePath)
  /\ 0 <= FileResult.outOfSyncCount (Spec.contribution w config filePath).
Proof.
  unfold Spec.contribution. destruct (Scanner.scanFile w config filePath) as [r|e] eqn:E.
  - apply scanFile_consistent in E. unfold Spec.consistent in E. tauto.
  - cbn. lia.
Qed.

End Commands.

Section Process.

Lemma messageOf_describes (e : thrown) : Spec.describes (Scanner.messageOf e) e.
Proof. now destruct e. Qed.

Lemma deliver_ok (s : Cli.System) (output : option string) (shown : bool)
    (formatted : string) (delivered : list Cli.Event) :
  Cli.deliver s output shown formatted = Ok delivered ->
  (forall e, ~ Spec.writeThrows s output formatted e)
  /\ (forall p content,
        In (Cli.FileWritten p content) delivered
        <-> Spec.writes s output formatted p content).
Proof.
  unfold Cli.deliver, Spec.writeThrows, Spec.writes.
  destruct output as [path|].
  - destruct (JsString.truthy path) eqn:T.
    + destruct (Cli.writeFileSync s path formatted) as [[]|e0] eqn:W; [|discriminate].
      intros H. injection H as <-. split.
      * intros e (p & P & _ & X). injection P as <-. congruence.
      * intros p content. cbn [In]. split.
        -- intros [H|[H|[]]]; [|discriminate]. injection H as <- <-.
           apply truthy_iff in T. auto.
        -- intros (P & _ & -> & _). injection P as <-. now left.
    + intros H. injection H as <-.
      assert (N : path = "") by (destruct path; [reflexivity|discriminate]).
      split.
      * intros e (p & P & Q & _). injection P as <-. contradiction.
      * intros p content. split.
        -- destruct shown; cbn [In]; intuition discriminate.
        -- intros (P & Q & _). injection P as <-. contradiction.
  - intros H. injection H as <-. split.
    + intros e (p & P & _). discriminate.
    + intros p content. split.
      * destruct shown; cbn [In]; intuition discriminate.
      * intros (P & _). discriminate.
Qed.

Lemma deliver_throw (s : Cli.System) (output : option string) (shown : bool)
    (formatted : string) (e : thrown) :
  Cli.deliver s output shown formatted = Throw e ->
  Spec.writeThrows s output formatted e
  /\ (forall e', Spec.writeThrows s output formatted e' -> e' = e)
  /\ (forall p content, ~ Spec.writes s output formatted p content).
Proof.
  unfold Cli.deliver, Spec.writeThrows, Spec.writes.
  destruct output as [path|]; [|discriminate].
  destruct (JsString.truthy path) eqn:T; [|discriminate].
  destruct (Cli.writeFileSync s path formatted) as [[]|e0] eqn:W; [discriminate|].
  intros H. injection H as <-. apply truthy_iff in T. split; [|split].
  - now exists path.
  - intros e' (p & P & _ & X). injection P as <-. congruence.
  - intros p content (P & _ & _ & X). injection P as <-. congruence.
Qed.

Lemma scan_announced_writes_nothing (scanResult : Scanner.ScanResult)
    (options : ScanCommand.Options) (p content : string) :
  ~ In (Cli.FileWritten p content) (ScanCommand.announced scanResult options)
  /\ ~ In (Cli.FileWritten p content) (ScanCommand.summaryLines scanResult).
Proof.
  unfold ScanCommand.announced, ScanCommand.summaryLines.
  destruct (ScanCommand.verifyTms options); cbn; intuition discriminate.
Qed.

Lemma scan_needsAttention (w : World) (directoryPath : string) (patterns : list string) :
  let scanResult := Scanner.scanDirectory w DEFAULT_VALIDATION directoryPath patterns in
  ((0 <? Scanner.unmappedTests (Scanner.summary scanResult))%Z
   || (0 <? Scanner.outOfSyncTests (Scanner.summary scanResult))%Z)%bool = true
  <-> Spec.needsAttention scanResult.
Proof.
  cbv zeta. unfold Spec.needsAttention, Scanner.scanDirectory.
  cbn [Scanner.summary Scanner.fileResults Scanner.calculateMetrics
       Scanner.unmappedTests Scanner.outOfSyncTests].
  rewrite scanAllFiles_map.
  set (results := List.map (Spec.contribution w DEFAULT_VALIDATION)
                    (fastGlob w directoryPath patterns)).
  assert (U : Forall (fun r => (0 <= FileResult.unmappedCount r)%Z) results).
  { apply List.Forall_forall. intros r Hr. apply List.in_map_iff in Hr as (f & <- & _).
    apply contribution_consistent. }
  assert (O : Forall (fun r => (0 <= FileResult.outOfSyncCount r)%Z) results).
  { apply List.Forall_forall. intros r Hr. apply List.in_map_iff in Hr as (f & <- & _).
    apply contribution_consistent. }
  pose proof (sumOf_positive FileResult.unmappedCount results U) as PU.
  pose proof (sumOf_positive FileResult.outOfSyncCount results O) as PO.
  rewrite orb_true_iff, !Z.ltb_lt, PU, PO, !List.Exists_exists. split.
  - intros [(r & Hr & Pr)|(r & Hr & Pr)]; exists r; tauto.
  - intros (r & Hr & [Pr|Pr]); [left|right]; now exists r.
Qed.

Lemma scan_without_tests (w : World) (directoryPath : string) (patterns : list string) :
  (forall f, In f (fastGlob w directoryPath patterns) ->
             exists e, Scanner.scanFile w DEFAULT_VALIDATION f = Throw e) ->
  Scanner.totalTests
    (Scanner.summary (Scanner.scanDirectory w DEFAULT_VALIDATION directoryPath patterns))
  = 0%Z.
Proof.
  intros H. unfold Scanner.scanDirectory.
  cbn [Scanner.summary Scanner.calculateMetrics Scanner.totalTests].
  rewrite scanAllFiles_map. apply sumOf_zero, List.Forall_forall. intros r Hr.
  apply List.in_map_iff in Hr as (f & <- & Hf). destruct (H f Hf) as [e E].
  unfold Spec.contribution. now rewrite E.
Qed.

End Process.

(** X18.  The scan command ends with status 1 exactly when the scan found no
    test, or some file has an unmapped or out-of-sync test, or something was
    thrown inside the action: by the enumeration of the files, by the
    formatter or by the writing of the output.  What is thrown is reported
    as [Scan failed] with its message.  A scan whose files all fail is
    reported as [No test files found] and nothing more is done.  The file
    of [--output] is written when tests were found, and then holds the
    formatted results. *)
Theorem scan_exit_status (w : World) (c : ScanCommand.Collaborators) (path : string)
    (options : ScanCommand.Options) :
  let run := ScanCommand.action w c path options in
  let scanResult := Spec.scanned w c path in
  (Cli.exit run = Some 1%Z \/ Cli.exit run = None)
  /\ (Cli.exit run = Some 1%Z
      <-> Scanner.totalTests (Scanner.summary scanResult) = 0%Z
          \/ Spec.needsAttention scanResult
          \/ exists e, Spec.scanThrows w c path options e)
  /\ (Spec.enumerated c path ->
      (forall f,
         In f (fastGlob w (ScanCommand.target (ScanCommand.system c) path).1
                 (ScanCommand.target (ScanCommand.system c) path).2) ->
         exists e, Scanner.scanFile w DEFAULT_VALIDATION f = Throw e) ->
      run = Cli.mkRun [ Cli.SpinnerStart "Scanning for test files...";
                        Cli.SpinnerText "Scanning test files for sync status...";
                        Cli.SpinnerFail "No test files found" ] (Some 1%Z))
  /\ (forall e, Spec.scanThrows w c path options e ->
        exists message,
          Spec.describes message e
          /\ last (Cli.events run) = Some (Cli.SpinnerFail ("Scan failed: " ++ message))
          /\ Cli.exit run = Some 1%Z)
  /\ (forall p content,
        In (Cli.FileWritten p content) (Cli.events run)
        <-> Spec.enumerated c path
            /\ Scanner.totalTests (Scanner.summary scanResult) <> 0%Z
            /\ exists formatted,
                 ScanCommand.formatScanResults c scanResult (ScanCommand.format options)
                 = Ok formatted
                 /\ Spec.writes (ScanCommand.system c) (ScanCommand.output options)
                      formatted p content).
Proof.
  cbv zeta.
  unfold ScanCommand.action, Spec.scanThrows, Spec.enumerated, Spec.scanned,
    ScanCommand.scanDirectory.
  destruct (ScanCommand.target (ScanCommand.system c) path) as [directoryPath patterns].
  cbn [fst snd].
  pose proof (scan_needsAttention w directoryPath patterns) as A.
  pose proof (scan_without_tests w directoryPath patterns) as N. cbv zeta in A.
  set (scanResult := Scanner.scanDirectory w DEFAULT_VALIDATION directoryPath patterns) in *.
  destruct (ScanCommand.enumerationError c directoryPath patterns) as [e0|].
  { (* the enumeration is rejected *)
    unfold Cli.failed. cbn [Cli.exit Cli.events].
    split; [now left|]. split; [split; [|reflexivity]|split; [discriminate|split]].
    - intros _. right. right. exists e0. now left.
    - intros e [E|(E & _)]; [|discriminate]. injection E as <-.
      exists (Scanner.messageOf e0). split; [apply messageOf_describes|].
      split; [apply last_snoc|reflexivity].
    - intros p content. split; [|intros (E & _); discriminate].
      cbn. intuition discriminate. }
  destruct (Z.eqb_spec (Scanner.totalTests (Scanner.summary scanResult)) 0) as [Z0|Z0].
  { (* no test *)
    cbn [Cli.exit Cli.events].
    split; [now left|]. split; [split; [now left|reflexivity]|].
    split; [reflexivity|]. split.
    - intros e [E|(_ & E & _)]; [discriminate|contradiction].
    - intros p content. split; [|intros (_ & E & _); contradiction].
      cbn. intuition discriminate. }
  destruct (ScanCommand.formatScanResults c scanResult (ScanCommand.format options))
    as [formatted|e1] eqn:F.
  2:{ (* the formatter throws *)
    unfold Cli.failed. cbn [Cli.exit Cli.events].
    split; [now left|]. split; [split; [|reflexivity]|split; [|split]].
    - intros _. right. right. exists e1. right. now repeat split; auto.
    - intros _ H. now apply N in H.
    - intros e [E|(_ & _ & [E|(f & E & _)])]; try discriminate. injection E as <-.
      exists (Scanner.messageOf e1). split; [apply messageOf_describes|].
      split; [apply last_snoc|reflexivity].
    - intros p content. split; [|intros (_ & _ & f & E & _); discriminate].
      rewrite in_app_iff. intros [H|[H|[]]]; [|discriminate].
      now apply scan_announced_writes_nothing in H. }
  destruct (Cli.deliver (ScanCommand.system c) (ScanCommand.output options) true formatted)
    as [delivered|e1] eqn:D.
  2:{ (* the output cannot be written *)
    apply deliver_throw in D as (D1 & D2 & D3).
    unfold Cli.failed. cbn [Cli.exit Cli.events].
    split; [now left|]. split; [split; [|reflexivity]|split; [|split]].
    - intros _. right. right. exists e1. right. repeat split; auto. right. now exists formatted.
    - intros _ H. now apply N in H.
    - intros e [E|(_ & _ & [E|(f & E & X)])]; try discriminate. injection E as <-.
      apply D2 in X as ->.
      exists (Scanner.messageOf e1). split; [apply messageOf_describes|].
      split; [apply last_snoc|reflexivity].
    - intros p content. split.
      + rewrite in_app_iff. intros [H|[H|[]]]; [|discriminate].
        now apply scan_announced_writes_nothing in H.
      + intros (_ & _ & f & E & X). injection E as <-. now apply D3 in X. }
  (* the action runs to its end *)
  apply deliver_ok in D as (D1 & D2). cbn [Cli.exit Cli.events].
  assert (T : forall e,
             ~ (@None thrown = Some e
                \/ @None thrown = None
                   /\ Scanner.totalTests (Scanner.summary scanResult) <> 0%Z
                   /\ (@Ok thrown string formatted = Throw e
                       \/ exists f, @Ok thrown string formatted = Ok f
                                    /\ Spec.writeThrows (ScanCommand.system c)
                                         (ScanCommand.output options) f e))).
  { intros e [E|(_ & _ & [E|(f & E & X)])]; try discriminate. injection E as <-.
    now apply D1 in X. }
  split; [|split; [|split; [|split]]].
  - destruct (_ || _)%bool; [now left|now right].
  - destruct (_ || _)%bool eqn:B.
    + split; [intros _|reflexivity]. right. left. now apply A.
    + split; [discriminate|]. intros [H|[H|[e H]]]; [contradiction| |now apply T in H].
      apply A in H. discriminate.
  - intros _ H. now apply N in H.
  - intros e H. now apply T in H.
  - intros p content. rewrite !in_app_iff, D2. split.
    + intros [H|[H|H]].
      * now apply scan_announced_writes_nothing in H.
      * repeat split; auto. now exists formatted.
      * destruct (String.eqb _ "table"); [|destruct H].
        now apply scan_announced_writes_nothing in H.
    + intros (_ & _ & f & E & X). injection E as <-. right. now left.
Qed.

(** The scan of ten files whose results cannot be written to the file of
    [--output]: the failure is reported and the process exits with status
    1, whatever the scan found. *)
Lemma scan_exit_status_witness :
  exists message,
    Spec.describes message Samples.EACCES
    /\ last (Cli.events
               (ScanCommand.action Samples.tenFiles (Samples.scanTools (Throw Samples.EACCES))
                  "/tests" (ScanCommand.mkOptions "json" (Some "/out.json") false)))
       = Some (Cli.SpinnerFail ("Scan failed: " ++ message))
    /\ Cli.exit
         (ScanCommand.action Samples.tenFiles (Samples.scanTools (Throw Samples.EACCES))
            "/tests" (ScanCommand.mkOptions "json" (Some "/out.json") false))
       = Some 1%Z.
Proof.
  destruct (scan_exit_status Samples.tenFiles (Samples.scanTools (Throw Samples.EACCES))
              "/tests" (ScanCommand.mkOptions "json" (Some "/out.json") false))
    as (_ & _ & _ & T & _).
  apply (T Samples.EACCES). right.
  split; [reflexivity|]. split; [vm_compute; discriminate|].
  right. exists "formatted". split; [reflexivity|].
  exists "/out.json". split; [reflexivity|]. split; [discriminate|reflexivity].
Defined.

Section ValidateTally.
Local Open Scope Z_scope.
Variable w : World.

Lemma validateTest_coherent (filePath : string) (t : ValidateCommand.tally)
    (test : ParsedTest.t) :
  Spec.coherent t ->
  Spec.coherent (ValidateCommand.validateTest filePath t test)
  /\ ValidateCommand.warnings (ValidateCommand.validateTest filePath t test)
     = ValidateCommand.warnings t.
Proof.
  intros (H1 & H2 & H3 & H4). unfold ValidateCommand.validateTest. cbv zeta.
  split; [|reflexivity]. unfold Spec.coherent.
  cbn [ValidateCommand.results ValidateCommand.totalTests ValidateCommand.validTests
       ValidateCommand.totalIssues].
  rewrite List.length_app, List.filter_app, List.map_app, List.concat_app, !List.length_app.
  cbn [List.length List.filter List.map List.concat ValidateCommand.valid ValidateCommand.issues].
  rewrite app_nil_r. split; [lia|]. split; [|split; [lia|]].
  - destruct (Validator.isValid _); cbn [List.length]; lia.
  - apply Forall_app. split; [exact H4|]. constructor; [|constructor].
    cbn [ValidateCommand.valid ValidateCommand.issues]. unfold Validator.validate.
    cbn [Validator.isValid Validator.issues]. apply filter_nil_existsb.
Qed.

Lemma validateTests_coherent (filePath : string) (tests : list ParsedTest.t)
    (t : ValidateCommand.tally) :
  Spec.coherent t ->
  Spec.coherent (fold_left (ValidateCommand.validateTest filePath) tests t)
  /\ ValidateCommand.warnings (fold_left (ValidateCommand.validateTest filePath) tests t)
     = ValidateCommand.warnings t.
Proof.
  revert t. induction tests as [|test tests IH]; intros t H; [now split|].
  cbn [fold_left]. destruct (validateTest_coherent filePath t test H) as [C W].
  destruct (IH _ C) as [C' W']. split; [exact C'|]. now rewrite W'.
Qed.

Lemma validateFile_coherent (t : ValidateCommand.tally) (file : string) :
  Spec.coherent t -> Spec.coherent (ValidateCommand.validateFile w t file).
Proof.
  intros H. unfold ValidateCommand.validateFile.
  destruct (ParserIO.parseTestFile w _ file) as [r|e]; [now apply validateTests_coherent|].
  exact H.
Qed.

Lemma validateFiles_coherent (files : list string) (t : ValidateCommand.tally) :
  Spec.coherent t -> Spec.coherent (fold_left (ValidateCommand.validateFile w) files t).
Proof.
  revert t. induction files as [|f l IH]; intros t H; [exact H|].
  cbn [fold_left]. now apply IH, validateFile_coherent.
Qed.

Lemma validateFiles_unparsed (files : list string) (t : ValidateCommand.tally) :
  (forall f, In f files ->
     exists e, ParserIO.parseTestFile w
                 (TestParser.new (ValidationConfig.projectKey DEFAULT_VALIDATION)) f = Throw e) ->
  let t' := fold_left (ValidateCommand.validateFile w) files t in
  ValidateCommand.results t' = ValidateCommand.results t
  /\ List.length (ValidateCommand.warnings t')
     = (List.length (ValidateCommand.warnings t) + List.length files)%nat.
Proof.
  revert t. induction files as [|f l IH]; intros t H; cbv zeta.
  - cbn. split; [reflexivity|lia].
  - cbn [fold_left]. destruct (H f (or_introl eq_refl)) as [e E].
    specialize (IH (ValidateCommand.validateFile w t f) (fun g Hg => H g (or_intror Hg))).
    cbv zeta in IH. destruct IH as [I1 I2]. rewrite I1, I2.
    unfold ValidateCommand.validateFile. rewrite E.
    cbn [ValidateCommand.results ValidateCommand.warnings]. rewrite List.length_app.
    cbn [List.length]. split; [reflexivity|lia].
Qed.

End ValidateTally.

Lemma tally_invalid (t : ValidateCommand.tally) :
  Spec.coherent t ->
  (ValidateCommand.validTests t <? ValidateCommand.totalTests t)%Z = true
  <-> Spec.hasInvalidTest t.
Proof.
  intros (C1 & C2 & C3 & C4). unfold Spec.hasInvalidTest.
  pose proof (List.filter_length_le ValidateCommand.valid (ValidateCommand.results t)) as L.
  destruct (Z.ltb_spec (ValidateCommand.validTests t) (ValidateCommand.totalTests t)) as [A|A].
  - split; [intros _|reflexivity].
    assert (N : List.filter ValidateCommand.valid (ValidateCommand.results t)
                <> ValidateCommand.results t).
    { intros E. rewrite E in C2. lia. }
    clear -N C4. induction C4 as [|i r Hi Hr IH]; [now elim N|].
    cbn [List.filter] in N. destruct (ValidateCommand.valid i) eqn:V.
    + destruct IH as (j & Hj & Ej); [intros E; apply N; now rewrite E|].
      exists j. split; [now right|exact Ej].
    + exists i. split; [now left|]. symmetry in Hi. now apply negb_false_iff in Hi.
  - split; [discriminate|]. intros (i & Hi & Ei). exfalso.
    assert (V : ValidateCommand.valid i = false).
    { rewrite List.Forall_forall in C4. rewrite (C4 i Hi), Ei. reflexivity. }
    assert (S : (List.length (List.filter ValidateCommand.valid (ValidateCommand.results t))
                 < List.length (ValidateCommand.results t))%nat).
    { clear -Hi V. induction (ValidateCommand.results t) as [|j r IH]; [destruct Hi|].
      cbn [List.filter]. pose proof (List.filter_length_le ValidateCommand.valid r).
      destruct Hi as [->|Hi].
      - rewrite V. cbn [List.length]. lia.
      - specialize (IH Hi). destruct (ValidateCommand.valid j); cbn [List.length]; lia. }
    lia.
Qed.

Lemma validate_announced (files : list string) (t : ValidateCommand.tally) :
  (forall p content, ~ In (Cli.FileWritten p content) (ValidateCommand.announced files t))
  /\ (forall p content, ~ In (Cli.FileWritten p content) (ValidateCommand.summaryLines t))
  /\ (forall warning, In (Cli.SpinnerWarn warning) (ValidateCommand.announced files t)
                      <-> In warning (ValidateCommand.warnings t))
  /\ (forall warning, ~ In (Cli.SpinnerWarn warning) (ValidateCommand.summaryLines t)).
Proof.
  unfold ValidateCommand.announced, ValidateCommand.summaryLines.
  split; [|split; [|split]].
  - intros p content. rewrite !in_app_iff, List.in_map_iff. cbn [In].
    intros [[H|[H|[]]]|[(x & H & _)|[H|[]]]]; discriminate.
  - intros p content. cbn. intuition discriminate.
  - intros warning. rewrite !in_app_iff, List.in_map_iff. cbn [In]. split.
    + intros [[H|[H|[]]]|[(x & H & X)|[H|[]]]]; try discriminate. now injection H as <-.
    + intros H. right. left. now exists warning.
  - intros warning. cbn. intuition discriminate.
Qed.

Lemma deliver_warns_nothing (s : Cli.System) (output : option string) (shown : bool)
    (formatted : string) (delivered : list Cli.Event) (warning : string) :
  Cli.deliver s output shown formatted = Ok delivered ->
  ~ In (Cli.SpinnerWarn warning) delivered.
Proof.
  unfold Cli.deliver. destruct output as [path|].
  - destruct (JsString.truthy path).
    + destruct (Cli.writeFileSync s path formatted) as [[]|e]; [|discriminate].
      intros H. injection H as <-. cbn. intuition discriminate.
    + intros H. injection H as <-. destruct shown; cbn; intuition discriminate.
  - intros H. injection H as <-. destruct shown; cbn; intuition discriminate.
Qed.

(** X19.  The validate command counts what it lists: the numbers of tests,
    of valid tests and of issues are those of its results.  It ends with
    status 1 exactly when no file was found, or some listed test has an
    error issue, or something was thrown outside the loop over the files:
    by the enumeration, by the formatter or by the writing of the output;
    what is thrown is reported as [Validation failed] with its message.
    A file that does not parse is only warned about, so a run in which no
    file parses lists no test and fails only if something is thrown.  The
    file of [--output] is written when files were found, and then holds the
    formatted results. *)
Theorem validate_exit_status (w : World) (c : ValidateCommand.Collaborators)
    (path : string) (options : ValidateCommand.Options) :
  let run := ValidateCommand.action w c path options in
  (Cli.exit run = Some 1%Z \/ Cli.exit run = None)
  /\ (forall e, Spec.validateThrows w c path options e ->
        exists message,
          Spec.describes message e
          /\ last (Cli.events run)
             = Some (Cli.SpinnerFail ("Validation failed: " ++ message))
          /\ Cli.exit run = Some 1%Z)
  /\ (forall files,
        ValidateCommand.fastGlob c
          (ValidateCommand.searchPatterns (ValidateCommand.system c) path) = Ok files ->
        let t := ValidateCommand.validateFiles w files in
        Spec.coherent t
        /\ (0 <= ValidateCommand.validTests t <= ValidateCommand.totalTests t)%Z
        /\ (Cli.exit run = Some 1%Z
            <-> files = [] \/ Spec.hasInvalidTest t
                \/ exists e, Spec.validateThrows w c path options e)
        /\ (files = [] ->
            run = Cli.mkRun [ Cli.SpinnerStart "Scanning for test files...";
                              Cli.SpinnerFail "No test files found" ] (Some 1%Z))
        /\ (files <> [] ->
            (forall f, In f files ->
               exists e, ParserIO.parseTestFile w
                           (TestParser.new (ValidationConfig.projectKey DEFAULT_VALIDATION)) f
                         = Throw e) ->
            ValidateCommand.totalTests t = 0%Z
            /\ List.length (ValidateCommand.warnings t) = List.length files
            /\ (Cli.exit run = Some 1%Z
                <-> exists e, Spec.validateThrows w c path options e))
        /\ (files <> [] ->
            forall warning, In (Cli.SpinnerWarn warning) (Cli.events run)
                            <-> In warning (ValidateCommand.warnings t))
        /\ (forall p content,
              In (Cli.FileWritten p content) (Cli.events run)
              <-> files <> []
                  /\ exists formatted,
                       ValidateCommand.formatValidationResults c (ValidateCommand.results t)
                         (ValidateCommand.format options) = Ok formatted
                       /\ Spec.writes (ValidateCommand.system c)
                            (ValidateCommand.output options) formatted p content)).
Proof.
  cbv zeta. unfold ValidateCommand.action, Spec.validateThrows. cbv zeta.
  destruct (ValidateCommand.fastGlob c
              (ValidateCommand.searchPatterns (ValidateCommand.system c) path))
    as [files|e0].
  2:{ (* the enumeration is rejected *)
    unfold Cli.failed. cbn [Cli.exit Cli.events].
    split; [now left|]. split; [|discriminate].
    intros e [E|(fs & E & _)]; [|discriminate]. injection E as <-.
    exists (Scanner.messageOf e0). split; [apply messageOf_describes|].
    split; [apply last_snoc|reflexivity]. }
  assert (C : Spec.coherent (ValidateCommand.validateFiles w files)).
  { apply validateFiles_coherent. unfold Spec.coherent. cbn. repeat split. constructor. }
  pose proof (tally_invalid _ C) as I.
  pose proof C as (C1 & C2 & C3 & C4).
  pose proof (List.filter_length_le ValidateCommand.valid
                (ValidateCommand.results (ValidateCommand.validateFiles w files))) as L.
  pose proof (validateFiles_unparsed w files (ValidateCommand.mkTally [] 0 0 0 [])) as U.
  cbv zeta in U. fold (ValidateCommand.validateFiles w files) in U. cbn in U.
  pose proof (validate_announced files (ValidateCommand.validateFiles w files))
    as (A1 & A2 & A3 & A4).
  set (t := ValidateCommand.validateFiles w files) in *.
  destruct files as [|file files'].
  { (* no file *)
    cbn [Cli.exit Cli.events].
    split; [now left|]. split.
    - intros e [E|(fs & E & N & _)]; [discriminate|]. injection E as <-. now elim N.
    - intros fs E. injection E as <-. fold t.
      split; [exact C|]. split; [lia|]. split; [split; [now left|reflexivity]|].
      split; [reflexivity|]. split; [intros N; now elim N|].
      split; [intros N; now elim N|].
      intros p content. split; [|intros (N & _); now elim N].
      cbn. intuition discriminate. }
  set (files := file :: files') in *.
  assert (NE : files <> []) by discriminate.
  destruct (ValidateCommand.formatValidationResults c (ValidateCommand.results t)
              (ValidateCommand.format options)) as [formatted|e1] eqn:F.
  2:{ (* the formatter throws *)
    assert (X : forall e,
               (@Ok thrown (list string) files = Throw e
                \/ exists fs, @Ok thrown (list string) files = Ok fs /\ fs <> []
                     /\ (ValidateCommand.formatValidationResults c
                           (ValidateCommand.results (ValidateCommand.validateFiles w fs))
                           (ValidateCommand.format options) = Throw e
                         \/ exists f,
                              ValidateCommand.formatValidationResults c
                                (ValidateCommand.results (ValidateCommand.validateFiles w fs))
                                (ValidateCommand.format options) = Ok f
                              /\ Spec.writeThrows (ValidateCommand.system c)
                                   (ValidateCommand.output options) f e))
               <-> e = e1).
    { intros e. split.
      - intros [E|(fs & E & _ & [E'|(f & E' & _)])]; [discriminate| |];
          injection E as <-; fold t in E'; congruence.
      - intros ->. right. exists files. split; [reflexivity|]. split; [exact NE|]. now left. }
    unfold Cli.failed. cbn [Cli.exit Cli.events].
    split; [now left|]. split.
    - intros e H. apply X in H as ->.
      exists (Scanner.messageOf e1). split; [apply messageOf_describes|].
      split; [apply last_snoc|reflexivity].
    - intros fs E. injection E as <-. fold t.
      split; [exact C|]. split; [lia|]. split; [|split; [discriminate|split; [|split]]].
      + split; [intros _|reflexivity]. right. right. exists e1. now apply X.
      + intros _ H. destruct (U H) as [R W]. split; [rewrite C1, R; reflexivity|].
        split; [exact W|]. split; [intros _|reflexivity]. exists e1. now apply X.
      + intros _ warning. rewrite in_app_iff, A3. cbn [In]. intuition discriminate.
      + intros p content. split; [|intros (_ & f & E & _); congruence].
        rewrite in_app_iff. intros [H|[H|[]]]; [|discriminate]. now apply A1 in H. }
  destruct (Cli.deliver (ValidateCommand.system c) (ValidateCommand.output options)
              (negb (String.eqb (ValidateCommand.format options) "quiet")) formatted)
    as [delivered|e1] eqn:D.
  2:{ (* the output cannot be written *)
    apply deliver_throw in D as (D1 & D2 & D3).
    assert (X : forall e,
               (@Ok thrown (list string) files = Throw e
                \/ exists fs, @Ok thrown (list string) files = Ok fs /\ fs <> []
                     /\ (ValidateCommand.formatValidationResults c
                           (ValidateCommand.results (ValidateCommand.validateFiles w fs))
                           (ValidateCommand.format options) = Throw e
                         \/ exists f,
                              ValidateCommand.formatValidationResults c
                                (ValidateCommand.results (ValidateCommand.validateFiles w fs))
                                (ValidateCommand.format options) = Ok f
                              /\ Spec.writeThrows (ValidateCommand.system c)
                                   (ValidateCommand.output options) f e))
               <-> e = e1).
    { intros e. split.
      - intros [E|(fs & E & _ & [E'|(f & E' & W)])]; [discriminate| |];
          injection E as <-; fold t in E'; rewrite F in E'; [discriminate|].
        injection E' as <-. now apply D2.
      - intros ->. right. exists files. split; [reflexivity|]. split; [exact NE|].
        right. exists formatted. split; [exact F|exact D1]. }
    unfold Cli.failed. cbn [Cli.exit Cli.events].
    split; [now left|]. split.
    - intros e H. apply X in H as ->.
      exists (Scanner.messageOf e1). split; [apply messageOf_describes|].
      split; [apply last_snoc|reflexivity].
    - intros fs E. injection E as <-. fold t.
      split; [exact C|]. split; [lia|]. split; [|split; [discriminate|split; [|split]]].
      + split; [intros _|reflexivity]. right. right. exists e1. now apply X.
      + intros _ H. destruct (U H) as [R W]. split; [rewrite C1, R; reflexivity|].
        split; [exact W|]. split; [intros _|reflexivity]. exists e1. now apply X.
      + intros _ warning. rewrite in_app_iff, A3. cbn [In]. intuition discriminate.
      + intros p content. split.
        * rewrite in_app_iff. intros [H|[H|[]]]; [|discriminate]. now apply A1 in H.
        * intros (_ & f & E & W). rewrite F in E. injection E as <-. now apply D3 in W. }
  (* the action runs to its end *)
  assert (DW' : forall warning, ~ In (Cli.SpinnerWarn warning) delivered).
  { intros warning. eapply deliver_warns_nothing. exact D. }
  apply deliver_ok in D as (D1 & D2).
  assert (X : forall e,
             ~ (@Ok thrown (list string) files = Throw e
                \/ exists fs, @Ok thrown (list string) files = Ok fs /\ fs <> []
                     /\ (ValidateCommand.formatValidationResults c
                           (ValidateCommand.results (ValidateCommand.validateFiles w fs))
                           (ValidateCommand.format options) = Throw e
                         \/ exists f,
                              ValidateCommand.formatValidationResults c
                                (ValidateCommand.results (ValidateCommand.validateFiles w fs))
                                (ValidateCommand.format options) = Ok f
                              /\ Spec.writeThrows (ValidateCommand.system c)
                                   (ValidateCommand.output options) f e))).
  { intros e [E|(fs & E & _ & [E'|(f & E' & W)])]; [discriminate| |];
      injection E as <-; fold t in E'; rewrite F in E'; [discriminate|].
    injection E' as <-. now apply D1 in W. }
  cbn [Cli.exit Cli.events].
  split; [destruct (_ <? _)%Z; [now left|now right]|]. split.
  - intros e H. now apply X in H.
  - intros fs E. injection E as <-. fold t.
    split; [exact C|]. split; [lia|]. split; [|split; [discriminate|split; [|split]]].
    + destruct (_ <? _)%Z eqn:B.
      * split; [intros _|reflexivity]. right. left. now apply I.
      * split; [discriminate|]. intros [H|[H|[e H]]]; [discriminate| |now apply X in H].
        apply I in H. discriminate.
    + intros _ H. destruct (U H) as [R W]. split; [rewrite C1, R; reflexivity|].
      split; [exact W|].
      assert (B : (ValidateCommand.validTests t <? ValidateCommand.totalTests t)%Z = false).
      { apply Z.ltb_ge. rewrite C1, C2, R. cbn. lia. }
      rewrite B. split; [discriminate|]. intros [e T]. now apply X in T.
    + intros _ warning. rewrite !in_app_iff, A3. split; [|tauto].
      intros [H|[H|H]]; [exact H|now apply DW' in H|].
      destruct (negb _); [now apply A4 in H|destruct H].
    + intros p content. rewrite !in_app_iff, D2. split.
      * intros [H|[H|H]].
        -- now apply A1 in H.
        -- split; [exact NE|]. now exists formatted.
        -- destruct (negb _); [now apply A2 in H|destruct H].
      * intros (_ & f & E & W). rewrite F in E. injection E as <-. right. now left.
Qed.

(** The validation of two files, the second of which cannot be read: the
    one test of the first is listed and valid, the second file is warned
    about, and the action returns. *)
Lemma validate_exit_status_witness :
  let run :=
    ValidateCommand.action Samples.tenFiles
      (Samples.validateTools ["f01.spec.ts"; "f05.spec.ts"] (Ok tt))
      "/tests" (ValidateCommand.mkOptions "quiet" None) in
  Cli.exit run <> Some 1%Z
  /\ forall warning,
       In (Cli.SpinnerWarn warning) (Cli.events run)
       <-> In warning
             (ValidateCommand.warnings
                (ValidateCommand.validateFiles Samples.tenFiles
                   ["f01.spec.ts"; "f05.spec.ts"])).
Proof.
  cbv zeta.
  destruct (validate_exit_status Samples.tenFiles
              (Samples.validateTools ["f01.spec.ts"; "f05.spec.ts"] (Ok tt))
              "/tests" (ValidateCommand.mkOptions "quiet" None))
    as (_ & _ & F).
  destruct (F ["f01.spec.ts"; "f05.spec.ts"] eq_refl) as (_ & _ & E & _ & _ & W & _).
  split; [|apply W; discriminate].
  intros X. apply E in X as [X|[(i & I & V)|(e & [X|(files & G & _ & [X|(f & _ & p & X & _)])])]];
    try discriminate.
  vm_compute in I. destruct I as [<-|[]]. vm_compute in V. discriminate.
Defined.

(* ===================================================================== *)
(** ** The mapping model and the model of parsed tests *)
(* ===================================================================== *)

Section MappingHistory.
Local Open Scope Z_scope.

Lemma replay_app (m : MappingModel.t) (us vs : list Spec.update) :
  Spec.replay m (us ++ vs) = Spec.replay (Spec.replay m us) vs.
Proof. unfold Spec.replay. apply fold_left_app. Qed.

Lemma replay_snoc (m : MappingModel.t) (us : list Spec.update) (u : Spec.update) :
  Spec.replay m (us ++ [u])
  = MappingModel.updateSyncStatus u.1.1 (Spec.replay m us) u.1.2 u.2.
Proof. now rewrite replay_app. Qed.

Lemma lastSync_snoc (us : list Spec.update) (u : Spec.update) :
  Spec.lastSync (us ++ [u])
  = if MappingModel.isSynced u.1.2 then Some u.1.1 else Spec.lastSync us.
Proof.
  unfold Spec.lastSync. rewrite List.filter_app, List.map_app. cbn [List.filter].
  destruct (MappingModel.isSynced u.1.2); cbn [List.map];
    [apply last_snoc|now rewrite app_nil_r].
Qed.

Lemma synced_snoc (us : list Spec.update) (u : Spec.update) :
  Z.of_nat (List.length (List.filter (fun u : Spec.update => MappingModel.isSynced u.1.2)
                           (us ++ [u])))
  = Z.of_nat (List.length (List.filter (fun u : Spec.update => MappingModel.isSynced u.1.2) us))
    + (if MappingModel.isSynced u.1.2 then 1 else 0).
Proof.
  rewrite List.filter_app, List.length_app. cbn [List.filter].
  destruct (MappingModel.isSynced u.1.2); cbn [List.length]; lia.
Qed.

End MappingHistory.

(** X27.  After any calls of [updateSyncStatus] on a new mapping the id, the
    path, the title and the creation time are those of the creation, the
    case ID and the conflict details are still [null] (so [hasConflict] is
    false), the sync count is the number of calls with [Synced], the time of
    the last sync is that of the last such call, there being none exactly
    when the count is 0, and the status is that of the last call. *)
Theorem updateSyncStatus_history
    (uuid now testFilePath testTitle : string) (updates : list Spec.update) :
  let created := MappingModel.createTestCaseMapping uuid now testFilePath testTitle in
  let m := Spec.replay created updates in
  (MappingModel.id m, MappingModel.testFilePath m, MappingModel.testTitle m,
   MappingModel.createdAt (MappingModel.metadata m))
  = (uuid, testFilePath, testTitle, now)
  /\ MappingModel.testCaseId m = None
  /\ MappingModel.conflictDetails m = None
  /\ MappingModel.hasConflict m = false
  /\ MappingModel.syncCount (MappingModel.metadata m)
     = Z.of_nat (List.length (List.filter (fun u : Spec.update => MappingModel.isSynced u.1.2)
                                updates))
  /\ MappingModel.lastSyncedAt m = Spec.lastSync updates
  /\ (MappingModel.lastSyncedAt m = None
      <-> MappingModel.syncCount (MappingModel.metadata m) = 0%Z)
  /\ MappingModel.syncStatus m
     = match last updates with Some u => u.1.2 | None => Unsynced end.
Proof.
  cbv zeta. induction updates as [|u us IH] using rev_ind.
  - cbn. repeat split; reflexivity.
  - destruct IH as (I1 & I2 & I3 & I4 & I5 & I6 & I7 & I8).
    rewrite replay_snoc. unfold MappingModel.updateSyncStatus, MappingModel.hasConflict.
    cbn [MappingModel.id MappingModel.testFilePath MappingModel.testTitle MappingModel.metadata
         MappingModel.createdAt MappingModel.testCaseId MappingModel.conflictDetails
         MappingModel.syncCount MappingModel.lastSyncedAt MappingModel.syncStatus].
    rewrite lastSync_snoc, synced_snoc, last_snoc, I3, I5, I6.
    split; [exact I1|]. split; [exact I2|]. split; [reflexivity|].
    split; [now destruct (u.1.2)|].
    pose proof (Nat2Z.is_nonneg
                  (List.length (List.filter
                     (fun u : Spec.update => MappingModel.isSynced u.1.2) us))) as P.
    rewrite I5, I6 in I7.
    destruct (MappingModel.isSynced u.1.2).
    + repeat split; try lia; try discriminate.
    + repeat split; try lia; try apply I7.
Qed.

Section SavedMappings.

Lemma serialized_valid (m : MappingModel.t) :
  MappingManager.validateMapping (MappingModel.serialized m) = Ok tt.
Proof. reflexivity. Qed.

Lemma serialized_all_valid (ms : list MappingModel.t) :
  MappingManager.validateAll (List.map MappingModel.serialized ms) = Ok tt.
Proof.
  induction ms as [|m ms IH]; [reflexivity|].
  cbn [List.map MappingManager.validateAll]. now rewrite serialized_valid.
Qed.

Lemma asMapping_serialized (m : MappingModel.t) :
  Scanner.asMapping (MappingModel.serialized m)
  = TestCaseMapping.mk (MappingModel.testCaseId m) (MappingModel.lastSyncedHash m).
Proof.
  unfold Scanner.asMapping.
  destruct m as [i p t c k s h a v u d md]. cbn [MappingModel.serialized MappingModel.testCaseId
    MappingModel.lastSyncedHash].
  f_equal.
  - destruct c, k, h, a, v, u, d; reflexivity.
  - destruct c, k, h, a, v, u, d; reflexivity.
Qed.

End SavedMappings.

(** X28.  A mapping updated to [Synced] with the hash of a valid test, and
    written last to the mapping file, passes the checks of [loadMapping], is
    the one the scanner finds under the case ID of the test, and makes the
    test [Synced]; the mapping itself no longer needs a sync. *)
Theorem synced_mapping_is_found_synced
    (config : ValidationConfig.t) (test : ParsedTest.t) (id now : string)
    (mapping : MappingModel.t) (others : list MappingModel.t) :
  Scanner.hasValidationErrors config test = false ->
  ParsedTest.testCaseId test = Some id -> id <> "" ->
  MappingModel.testCaseId mapping = Some id ->
  let saved :=
    List.map MappingModel.serialized
      (others ++ [MappingModel.updateSyncStatus now mapping Synced
                    (Some (ChangeDetector.calculateHash test))]) in
  MappingManager.validateAll saved = Ok tt
  /\ Scanner.detectSyncStatus config test (Scanner.createMappingMap saved !! id)
       (ChangeDetector.calculateHash test) = Synced
  /\ MappingModel.needsSync
       (MappingModel.updateSyncStatus now mapping Synced
          (Some (ChangeDetector.calculateHash test))) = false.
Proof.
  intros V T N M. cbv zeta. split; [apply serialized_all_valid|]. split; [|reflexivity].
  unfold Scanner.createMappingMap. rewrite createMappingMap_from by exact N.
  unfold Spec.mappingsWith. rewrite !List.map_app, List.filter_app. cbn [List.map List.filter].
  rewrite asMapping_serialized. cbn [MappingModel.updateSyncStatus MappingModel.testCaseId
    MappingModel.lastSyncedHash TestCaseMapping.testCaseId].
  rewrite M, String.eqb_refl, last_snoc.
  unfold Scanner.detectSyncStatus. rewrite V, T. cbn [truthyOpt].
  destruct id as [|c id]; [now elim N|]. cbn [JsString.truthy TestCaseMapping.lastSyncedHash
    Scanner.differs]. now rewrite String.eqb_refl.
Qed.

Lemma synced_mapping_is_found_synced_witness :
  let test :=
    ParsedTest.mk "MM-T7: Open the channel" (Some "MM-T7") TypeTest
      (JSDocTags.mk (Some "Open a channel") None None None)
      [TestStep.mk "Open the menu" 4] [TestStep.mk "The channel is shown" 8] 1 in
  let mapping :=
    MappingModel.mk "0b1e" "login.spec.ts" "MM-T7: Open the channel" (Some "MM-T7") None
      Unsynced None None None None None
      (MappingModel.mkMetadata "2025-01-01" "2025-01-01" "tm-sync-cli" 0 None) in
  Scanner.hasValidationErrors DEFAULT_VALIDATION test = false
  /\ MappingModel.needsSync
       (MappingModel.updateSyncStatus "2025-02-01" mapping Synced
          (Some (ChangeDetector.calculateHash test))) = false.
Proof.
  cbv zeta. split; [reflexivity|].
  assert (N : "MM-T7" <> "") by discriminate.
  exact (proj2 (proj2
           (synced_mapping_is_found_synced DEFAULT_VALIDATION
              (ParsedTest.mk "MM-T7: Open the channel" (Some "MM-T7") TypeTest
                 (JSDocTags.mk (Some "Open a channel") None None None)
                 [TestStep.mk "Open the menu" 4] [TestStep.mk "The channel is shown" 8] 1)
              "MM-T7" "2025-02-01"
              (MappingModel.mk "0b1e" "login.spec.ts" "MM-T7: Open the channel" (Some "MM-T7")
                 None Unsynced None None None None None
                 (MappingModel.mkMetadata "2025-01-01" "2025-01-01" "tm-sync-cli" 0 None))
              [] eq_refl eq_refl N eq_refl))).
Defined.

(** X12.  With a project key of capital letters, a case ID the parser takes
    from a title satisfies both [isValidTestCaseId] of the model and the
    pattern of the validator. *)
Theorem extracted_ids_are_valid (projectKey title id : string) :
  projectKey <> "" -> JsString.all JsString.isUpper projectKey = true ->
  TestParser.extractTestCaseId projectKey title = Some id ->
  ParsedTestValidation.isValidTestCaseId (Some id) = true
  /\ Validator.testCasePattern projectKey id = true.
Proof.
  intros N U E.
  pose proof (extracted_id_wellFormed projectKey title id E) as W.
  split; [|now apply testCasePattern_spec].
  destruct W as (digits & Dn & Da & ->).
  unfold ParsedTestValidation.isValidTestCaseId, ParsedTestValidation.TEST_CASE_ID_PATTERN.
  assert (T : JsString.truthy (projectKey ++ "-T" ++ digits) = true).
  { destruct projectKey; [now elim N|reflexivity]. }
  rewrite T. rewrite (span_append JsString.isUpper projectKey ("-T" ++ digits) U)
    by reflexivity.
  cbv beta iota. change (JsString.stripPrefix "-T" ("-T" ++ digits)) with (Some digits).
  cbv beta iota. rewrite Da.
  destruct projectKey; [now elim N|]. destruct digits; [now elim Dn|reflexivity].
Qed.

Lemma extracted_ids_are_valid_witness :
  "MM" <> "" /\ JsString.all JsString.isUpper "MM" = true
  /\ TestParser.extractTestCaseId "MM" "MM-T12345: User can log in" = Some "MM-T12345"
  /\ ParsedTestValidation.isValidTestCaseId (Some "MM-T12345") = true.
Proof.
  assert (N : "MM" <> "") by discriminate.
  split; [exact N|]. split; [reflexivity|]. split; [reflexivity|].
  exact (proj1 (extracted_ids_are_valid "MM" "MM-T12345: User can log in" "MM-T12345"
                  N eq_refl eq_refl)).
Defined.

(* ===================================================================== *)
(** ** The validation result model *)
(* ===================================================================== *)

Section Descending.
Context {A : Type} (key : A -> Z).
Import ValidationResultModel.

Lemma insertDescending_permutation (x : A) (l : list A) :
  Permutation (x :: l) (insertDescending key x l).
Proof.
  induction l as [|y l IH]; [reflexivity|]. cbn [insertDescending].
  destruct (key y <=? key x)%Z; [reflexivity|].
  rewrite Permutation_swap. now constructor.
Qed.

Lemma sortDescending_permutation (l : list A) : Permutation l (sortDescending key l).
Proof.
  induction l as [|x l IH]; [reflexivity|]. cbn [sortDescending fold_right].
  rewrite <- insertDescending_permutation. now constructor.
Qed.

Lemma insertDescending_sorted (x : A) (l : list A) :
  StronglySorted (fun a b => (key b <= key a)%Z) l ->
  StronglySorted (fun a b => (key b <= key a)%Z) (insertDescending key x l).
Proof.
  induction 1 as [|y l Hl IH Hy]; [repeat constructor|]. cbn [insertDescending].
  destruct (Z.leb_spec (key y) (key x)) as [L|L].
  - constructor; [now constructor|]. constructor; [exact L|].
    eapply Forall_impl; [exact Hy|]. cbv beta. intros z Hz. lia.
  - constructor; [exact IH|]. rewrite <- insertDescending_permutation.
    constructor; [lia|exact Hy].
Qed.

Lemma sortDescending_sorted (l : list A) :
  StronglySorted (fun a b => (key b <= key a)%Z) (sortDescending key l).
Proof.
  induction l as [|x l IH]; [constructor|]. now apply insertDescending_sorted.
Qed.

Lemma sortDescending_head (l : list A) (x : A) (r : list A) :
  sortDescending key l = x :: r -> In x l /\ forall y, In y l -> (key y <= key x)%Z.
Proof.
  intros E. pose proof (sortDescending_permutation l) as P.
  pose proof (sortDescending_sorted l) as S. rewrite E in P, S. split.
  - apply (Permutation_in x (Permutation_sym P)). now left.
  - intros y Hy. apply (Permutation_in y P) in Hy. destruct Hy as [<-|Hy]; [lia|].
    apply StronglySorted_inv in S as [_ S]. rewrite List.Forall_forall in S. now apply S.
Qed.

End Descending.

Section Summary.
Import ValidationResultModel.
Local Open Scope Z_scope.

Lemma sameCategory_eq (a b : ValidationCategory) : sameCategory a b = true <-> a = b.
Proof. destruct a, b; cbn; split; congruence. Qed.

Lemma total_from (f : TestValidationResult -> Z) (l : list TestValidationResult) (a : Z) :
  fold_left (fun sum test => sum + f test) l a = a + total f l.
Proof.
  unfold total. revert a. induction l as [|r l IH]; intros a; cbn [fold_left]; [lia|].
  rewrite IH, (IH (0 + f r)). lia.
Qed.

Lemma total_cons (f : TestValidationResult -> Z) (r : TestValidationResult)
    (l : list TestValidationResult) :
  total f (r :: l) = f r + total f l.
Proof. unfold total at 1. cbn [fold_left]. now rewrite total_from. Qed.

Lemma severities_partition (l : list ValidationIssue) :
  withSeverity Error l + withSeverity Warning l + withSeverity Info l
  = Z.of_nat (List.length l).
Proof.
  unfold withSeverity. induction l as [|i l IH]; [reflexivity|].
  cbn [List.filter List.length]. destruct (severity i); cbn [sameSeverity List.length]; lia.
Qed.

Lemma countCategories_flat (testResults : list TestValidationResult)
    (counts : list (ValidationCategory * Z)) :
  fold_left (fun counts test =>
               fold_left (fun counts issue => increment (category issue) counts)
                 (issues test) counts)
    testResults counts
  = fold_left (fun counts issue => increment (category issue) counts)
      (List.concat (List.map issues testResults)) counts.
Proof.
  revert counts. induction testResults as [|r l IH]; intros counts; [reflexivity|].
  cbn [fold_left List.map List.concat]. now rewrite fold_left_app, IH.
Qed.

Lemma sameCategory_refl (c : ValidationCategory) : sameCategory c c = true.
Proof. now destruct c. Qed.

Lemma sameCategory_neq (a b : ValidationCategory) : sameCategory a b = false <-> a <> b.
Proof. destruct a, b; cbn; split; congruence. Qed.

Lemma increment_keys (c : ValidationCategory) (counts : list (ValidationCategory * Z)) :
  List.map fst (increment c counts)
  = (List.map fst counts
     ++ (if existsb (fun e => sameCategory (fst e) c) counts then [] else [c]))%list.
Proof.
  induction counts as [|[k n] r IH]; [reflexivity|]. cbn [increment existsb fst].
  destruct (sameCategory k c); cbn [List.map fst orb]; [now rewrite app_nil_r|].
  now rewrite IH.
Qed.

Lemma increment_other (c k : ValidationCategory) (n : Z)
    (counts : list (ValidationCategory * Z)) :
  k <> c -> (In (k, n) (increment c counts) <-> In (k, n) counts).
Proof.
  intros D. induction counts as [|[k0 n0] r IH].
  - cbn. split; [intros [E|[]]; injection E as <- _; now elim D|intros []].
  - cbn [increment]. destruct (sameCategory k0 c) eqn:S.
    + apply sameCategory_eq in S. subst k0. cbn [In].
      split; (intros [E|H]; [injection E as <- _; now elim D|now right]).
    + cbn [In]. now rewrite IH.
Qed.

Lemma increment_new (c : ValidationCategory) (n : Z) (counts : list (ValidationCategory * Z)) :
  existsb (fun e => sameCategory (fst e) c) counts = false ->
  (In (c, n) (increment c counts) <-> n = 1).
Proof.
  induction counts as [|[k0 n0] r IH]; cbn [existsb increment fst].
  - intros _. cbn. split; [intros [E|[]]; now injection E|intros ->; now left].
  - intros H. apply orb_false_iff in H as [S H]. rewrite S. cbn [In]. rewrite (IH H).
    apply sameCategory_neq in S. split; [intros [E|E]; [injection E as -> _; now elim S|exact E]|].
    intros ->. now right.
Qed.

Lemma increment_seen (c : ValidationCategory) (n : Z) (counts : list (ValidationCategory * Z)) :
  NoDup (List.map fst counts) ->
  existsb (fun e => sameCategory (fst e) c) counts = true ->
  (In (c, n) (increment c counts) <-> In (c, n - 1) counts).
Proof.
  induction counts as [|[k0 n0] r IH]; cbn [existsb increment fst List.map]; [discriminate|].
  intros N H. apply NoDup_cons in N as [N0 N]. destruct (sameCategory k0 c) eqn:S.
  - apply sameCategory_eq in S. subst k0. cbn [In].
    assert (X : forall m, ~ In (c, m) r).
    { intros m Hm. apply N0, list_elem_of_In. now apply (List.in_map fst) in Hm. }
    split; (intros [E|E]; [left; injection E as E; f_equal; lia|now apply X in E]).
  - cbn [orb In] in *. rewrite (IH N H). apply sameCategory_neq in S.
    split; (intros [E|E]; [injection E as -> _; now elim S|now right]).
Qed.

Lemma counted_keys (seen : list ValidationIssue) (counts : list (ValidationCategory * Z))
    (c : ValidationCategory) :
  Spec.counted seen counts ->
  existsb (fun e => sameCategory (fst e) c) counts
  = (0 <? Z.of_nat (List.length (List.filter (fun i => sameCategory (category i) c) seen))).
Proof.
  intros [_ H]. destruct (existsb _ counts) eqn:E.
  - apply existsb_exists in E as ([k n] & Hin & S). apply sameCategory_eq in S. cbn in S.
    subst k. apply H in Hin as [-> P]. symmetry. now apply Z.ltb_lt.
  - symmetry. apply Z.ltb_ge.
    destruct (Z.le_gt_cases
                (Z.of_nat (List.length (List.filter (fun i => sameCategory (category i) c) seen)))
                0) as [L|G]; [exact L|].
    exfalso. assert (Hin : In (c, Z.of_nat (List.length (List.filter
                                (fun i => sameCategory (category i) c) seen))) counts)
      by (apply H; split; [reflexivity|lia]).
    assert (T : existsb (fun e => sameCategory (fst e) c) counts = true).
    { apply existsb_exists. eexists. split; [exact Hin|]. apply sameCategory_refl. }
    congruence.
Qed.

Lemma counted_step (seen : list ValidationIssue) (counts : list (ValidationCategory * Z))
    (i : ValidationIssue) :
  Spec.counted seen counts -> Spec.counted (seen ++ [i]) (increment (category i) counts).
Proof.
  intros C. pose proof (counted_keys seen counts (category i) C) as K.
  destruct C as [N H]. split.
  - rewrite increment_keys. destruct (existsb _ counts) eqn:E; [now rewrite app_nil_r|].
    apply NoDup_app. split; [exact N|]. split; [|repeat constructor; intros X; inversion X].
    intros k Hk Hc. apply list_elem_of_In in Hc. destruct Hc as [<-|[]].
    apply list_elem_of_In, List.in_map_iff in Hk as ([k n] & Ek & Hin). cbn in Ek. subst k.
    assert (T : existsb (fun e => sameCategory (fst e) (category i)) counts = true).
    { apply existsb_exists. eexists. split; [exact Hin|]. apply sameCategory_refl. }
    congruence.
  - intros k n. rewrite List.filter_app, List.length_app. cbn [List.filter].
    destruct (sameCategory (category i) k) eqn:S.
    + apply sameCategory_eq in S. subst k. cbn [List.length].
      destruct (existsb _ counts) eqn:E.
      * rewrite (increment_seen _ _ _ N E), H. symmetry in K. apply Z.ltb_lt in K. lia.
      * rewrite (increment_new _ _ _ E). symmetry in K. apply Z.ltb_ge in K. lia.
    + apply sameCategory_neq in S. rewrite increment_other by congruence.
      rewrite H. cbn [List.length]. lia.
Qed.

Lemma counted_all (seen : list ValidationIssue) :
  Spec.counted seen (fold_left (fun counts issue => increment (category issue) counts) seen []).
Proof.
  induction seen as [|i seen IH] using rev_ind.
  - split; [constructor|]. intros k n. cbn. split; [intros []|lia].
  - rewrite fold_left_app. cbn [fold_left]. now apply counted_step.
Qed.

End Summary.

Section SummaryNumbers.
Import ValidationResultModel.
Local Open Scope Z_scope.

Lemma filter_Forall {A} (p : A -> bool) (l : list A) :
  Forall (fun x => p x = true) l -> List.filter p l = l.
Proof. induction 1 as [|x l Hx Hl IH]; [reflexivity|]. cbn. now rewrite Hx, IH. Qed.

Lemma created_totals (testResults : list TestValidationResult) :
  Forall (fun r => r = createTestValidationResult (filePath r) (testTitle r) (issues r))
    testResults ->
  total errorCount testResults + total warningCount testResults + total infoCount testResults
  = Z.of_nat (List.length (List.concat (List.map issues testResults))).
Proof.
  induction 1 as [|r l Hr Hl IH]; [reflexivity|].
  rewrite !total_cons. cbn [List.map List.concat]. rewrite List.length_app, Nat2Z.inj_add, <- IH.
  rewrite <- (severities_partition (issues r)). rewrite Hr at 1 2 3.
  cbn [createTestValidationResult errorCount warningCount infoCount]. lia.
Qed.

Lemma created_passed (filePath testTitle : string) (issues : list ValidationIssue) :
  passed (createTestValidationResult filePath testTitle issues) = true
  <-> Forall (fun i => severity i <> Error) issues.
Proof.
  unfold createTestValidationResult. cbv zeta. cbn [passed]. rewrite Z.eqb_eq.
  unfold withSeverity. induction issues as [|i l IH].
  - cbn. split; [constructor|reflexivity].
  - cbn [List.filter]. rewrite Forall_cons.
    destruct (severity i) eqn:S; cbn [sameSeverity List.length].
    + split; [lia|]. intros [H _]. now elim H.
    + rewrite IH. split; [intros H; split; [discriminate|exact H]|tauto].
    + rewrite IH. split; [intros H; split; [discriminate|exact H]|tauto].
Qed.

Lemma firstn_member {A} (n : nat) (l : list A) (x : A) : In x (firstn n l) -> In x l.
Proof.
  revert l. induction n as [|n IH]; intros [|y l]; cbn; try tauto.
  intros [->|H]; [now left|right; now apply IH].
Qed.

Lemma length_member {A} (x : A) (l : list A) : In x l -> 0 < Z.of_nat (List.length l).
Proof. destruct l; [intros []|cbn [List.length]; lia]. Qed.

Lemma concat_no_issues (testResults : list TestValidationResult) :
  Forall (fun r => issues r = []) testResults -> List.concat (List.map issues testResults) = [].
Proof.
  induction 1 as [|r l Hr Hl IH]; [reflexivity|]. cbn [List.map List.concat].
  now rewrite Hr, IH.
Qed.

End SummaryNumbers.

(** X29.  The pass rate of a summary is from 0 to 100, 0 without results and
    100 when every result passed.  For results made by
    [createTestValidationResult] the three totals add up to the number of
    issues, and a result passed exactly when it has no error issue. *)
Theorem validation_summary_counts
    (testResults : list ValidationResultModel.TestValidationResult) :
  let s := ValidationResultModel.calculateSummary testResults in
  (0 <= ValidationResultModel.passRate s <= 100)%Z
  /\ (testResults = [] -> ValidationResultModel.passRate s = 0%Z)
  /\ (testResults <> [] -> Forall (fun r => ValidationResultModel.passed r = true) testResults ->
      ValidationResultModel.passRate s = 100%Z)
  /\ (Forall (fun r => r = ValidationResultModel.createTestValidationResult
                            (ValidationResultModel.filePath r)
                            (ValidationResultModel.testTitle r)
                            (ValidationResultModel.issues r)) testResults ->
      (ValidationResultModel.totalErrors s + ValidationResultModel.totalWarnings s
       + ValidationResultModel.totalInfo s
       = Z.of_nat (List.length (List.concat (List.map ValidationResultModel.issues testResults))))%Z
      /\ Forall (fun r => ValidationResultModel.passed r = true
                          <-> Forall (fun i => ValidationResultModel.severity i
                                               <> ValidationResultModel.Error)
                                (ValidationResultModel.issues r)) testResults).
Proof.
  cbv zeta. unfold ValidationResultModel.calculateSummary. cbv zeta.
  cbn [ValidationResultModel.passRate ValidationResultModel.totalErrors
       ValidationResultModel.totalWarnings ValidationResultModel.totalInfo].
  pose proof (List.filter_length_le ValidationResultModel.passed testResults) as L.
  split; [|split; [|split]].
  - destruct (Z.ltb_spec 0 (Z.of_nat (List.length testResults))) as [P|P]; [|lia].
    apply percentage_range; lia.
  - intros ->. reflexivity.
  - intros N A. destruct testResults as [|r l]; [now elim N|].
    rewrite (filter_Forall ValidationResultModel.passed _ A).
    change (0 <? Z.of_nat (List.length (r :: l)))%Z with true. cbv iota.
    apply percentage_all. cbn [List.length]. lia.
  - intros C. split; [now apply created_totals|].
    eapply Forall_impl; [exact C|]. cbv beta. intros r ->.
    cbn [ValidationResultModel.createTestValidationResult ValidationResultModel.issues].
    apply created_passed.
Qed.

(** X30.  The problem files are at most five, each the path of a result with
    errors, and all of those when there are no more than five.  There is a
    most common category exactly when there is an issue, and no category
    occurs more often than it. *)
Theorem validation_summary_rankings
    (testResults : list ValidationResultModel.TestValidationResult) :
  let s := ValidationResultModel.calculateSummary testResults in
  (List.length (ValidationResultModel.problemFiles s) <= 5)%nat
  /\ (forall path, In path (ValidationResultModel.problemFiles s) ->
        exists r, In r testResults /\ ValidationResultModel.filePath r = path
                  /\ (0 < ValidationResultModel.errorCount r)%Z)
  /\ ((List.length (List.filter (fun r => (0 <? ValidationResultModel.errorCount r)%Z)
                      testResults) <= 5)%nat ->
      Permutation (ValidationResultModel.problemFiles s)
        (List.map ValidationResultModel.filePath
           (List.filter (fun r => (0 <? ValidationResultModel.errorCount r)%Z) testResults)))
  /\ (ValidationResultModel.commonIssueCategory s = None
      <-> Forall (fun r => ValidationResultModel.issues r = []) testResults)
  /\ (forall c, ValidationResultModel.commonIssueCategory s = Some c ->
        (0 < Spec.occurrences c testResults)%Z
        /\ forall c', (Spec.occurrences c' testResults <= Spec.occurrences c testResults)%Z).
Proof.
  cbv zeta. unfold ValidationResultModel.calculateSummary. cbv zeta.
  cbn [ValidationResultModel.problemFiles ValidationResultModel.commonIssueCategory].
  set (failing := List.filter (fun r => (0 <? ValidationResultModel.errorCount r)%Z) testResults).
  pose proof (sortDescending_permutation ValidationResultModel.errorCount failing) as P.
  split; [|split; [|split]].
  - rewrite List.length_map, List.length_firstn. lia.
  - intros path H. apply List.in_map_iff in H as (r & <- & Hr).
    apply firstn_member in Hr. apply (Permutation_in r (Permutation_sym P)) in Hr.
    apply List.filter_In in Hr as [Hr E]. apply Z.ltb_lt in E. now exists r.
  - intros L. rewrite List.firstn_all2.
    + apply Permutation_map. now symmetry.
    + now rewrite <- P.
  - unfold ValidationResultModel.countCategories. rewrite countCategories_flat.
    pose proof (counted_all (List.concat (List.map ValidationResultModel.issues testResults)))
      as [_ C].
    set (counts := fold_left _ _ []) in *.
    assert (E : counts = [] <-> Forall (fun r => ValidationResultModel.issues r = []) testResults).
    { split.
      - intros Z0. rewrite Z0 in C. apply List.Forall_forall. intros r Hr.
        destruct (ValidationResultModel.issues r) as [|i l] eqn:I; [reflexivity|]. exfalso.
        assert (Hi : In i (List.concat (List.map ValidationResultModel.issues testResults))).
        { apply List.in_concat. exists (ValidationResultModel.issues r).
          split; [now apply List.in_map|]. rewrite I. now left. }
        set (n := Z.of_nat (List.length (List.filter
                    (fun j => ValidationResultModel.sameCategory
                                (ValidationResultModel.category j)
                                (ValidationResultModel.category i))
                    (List.concat (List.map ValidationResultModel.issues testResults))))).
        apply (C (ValidationResultModel.category i) n). split; [reflexivity|].
        assert (Hf : In i (List.filter
                    (fun j => ValidationResultModel.sameCategory
                                (ValidationResultModel.category j)
                                (ValidationResultModel.category i))
                    (List.concat (List.map ValidationResultModel.issues testResults)))).
        { apply List.filter_In. split; [exact Hi|apply sameCategory_refl]. }
        unfold n. now apply (length_member i).
      - intros F. subst counts. now rewrite (concat_no_issues testResults F). }
    split.
    + rewrite <- E. pose proof (sortDescending_permutation snd counts) as Q.
      destruct (ValidationResultModel.sortDescending snd counts) as [|e l] eqn:S.
      * split; [intros _|reflexivity]. symmetry in Q. now apply Permutation_nil in Q.
      * split; [discriminate|]. intros Z0. rewrite Z0 in Q. now apply Permutation_nil_cons in Q.
    + intros c H.
      destruct (ValidationResultModel.sortDescending snd counts) as [|[k n] l] eqn:S;
        [discriminate|]. injection H as ->.
      destruct (sortDescending_head snd counts (c, n) l S) as [Hin Hmax].
      apply C in Hin as [En Pn]. unfold Spec.occurrences. rewrite <- En.
      split; [exact Pn|]. intros c'.
      set (m := Z.of_nat (List.length (List.filter
                  (fun i => ValidationResultModel.sameCategory
                              (ValidationResultModel.category i) c')
                  (List.concat (List.map ValidationResultModel.issues testResults))))).
      destruct (Z.le_gt_cases m 0) as [Le|Gt]; [lia|].
      assert (Hc : In (c', m) counts) by (apply C; split; [reflexivity|lia]).
      apply Hmax in Hc. exact Hc.
Qed.
